(** * Inventory stock ledger: entity layer, persistence layer and service

    A shallow embedding of [inventory_system/models.py] and
    [inventory_system/services.py], with the properties of the stock-ledger
    specification stated and settled against it.

    Python values are modelled as follows.
    - [int] is [Z] (unbounded), [float] is the IEEE-754 value type
      [spec_float] of the Standard Library (with its NaN and infinities),
      [str] is [string]. Strings are taken to be ASCII ([Str.is_ascii]):
      there [str.upper] and [str.lower] act on the letters a-z and A-Z and
      on nothing else. On other text Python follows Unicode, so a property
      that draws a refusal from a name in upper case says that the name is
      ASCII.
    - A JSON mapping handed to [from_dict] is a [gmap string value]: Python
      compares dicts regardless of key order, which is equality of [gmap]s.
    - The dicts [ProductDAO.products] and [TransactionDAO.transactions] keep
      insertion order ([get_all] lists the values in that order): they are
      association lists driven by [dict_get], [dict_set] and [dict_del].
    - A [Product] is an object on a heap, handed around by reference:
      [ProductDAO.get] answers the reference the dict holds, and an attribute
      assignment through it ([setattr]) is seen at once by every holder of
      the object, whether or not [save] is called afterwards.
    - [datetime.now()] and [uuid.uuid4()] are read from two oracles carried
      by the state; nothing is assumed about them unless a theorem says so.
    - The JSON backing files are not part of the state: [_load_data] is
      given what it finds at its path ([backing_file]), and [_save_data]
      answers the list it hands to [json.dump]. Of the service,
      [get_inventory_value] is left out: it is floating-point arithmetic. *)

From Stdlib Require Import ZArith String Ascii List SpecFloat DecimalString.
From stdpp Require Import base option list gmap strings.

Local Open Scope string_scope.
Local Open Scope Z_scope.

(** ** Strings *)

Module Str.

(** The characters of ASCII, and the strings made of them. *)
Definition is_ascii_char (c : ascii) : bool := Nat.ltb (nat_of_ascii c) 128.

Fixpoint is_ascii (s : string) : bool :=
  match s with
  | EmptyString => true
  | String c s' => (is_ascii_char c && is_ascii s')%bool
  end.

(** [str.upper()] on one ASCII character, and on an ASCII string. *)
Definition upper_ascii (c : ascii) : ascii :=
  let n := nat_of_ascii c in
  if (Nat.leb 97 n && Nat.leb n 122)%bool then ascii_of_nat (n - 32) else c.

Fixpoint upper (s : string) : string :=
  match s with
  | EmptyString => EmptyString
  | String c s' => String (upper_ascii c) (upper s')
  end.

(** [str(n)] for an [int]. *)
Definition of_Z (n : Z) : string := NilZero.string_of_int (Z.to_int n).

(** [sep.join(l)]. *)
Fixpoint join (sep : string) (l : list string) : string :=
  match l with
  | [] => ""
  | [x] => x
  | x :: l' => x ++ sep ++ join sep l'
  end.

(** [s[:n]]. *)
Definition take (n : nat) (s : string) : string := substring 0 n s.

(** [str.lower()] on one ASCII character, and on an ASCII string. *)
Definition lower_ascii (c : ascii) : ascii :=
  let n := nat_of_ascii c in
  if (Nat.leb 65 n && Nat.leb n 90)%bool then ascii_of_nat (n + 32) else c.

Fixpoint lower (s : string) : string :=
  match s with
  | EmptyString => EmptyString
  | String c s' => String (lower_ascii c) (lower s')
  end.

(** [s.capitalize()]: the first character in upper case, the rest in lower
    case. *)
Definition capitalize (s : string) : string :=
  match s with
  | EmptyString => EmptyString
  | String c s' => String (upper_ascii c) (lower s')
  end.

(** [s.replace(a, b)] for single characters [a] and [b]. *)
Fixpoint replace (a b : ascii) (s : string) : string :=
  match s with
  | EmptyString => EmptyString
  | String c s' => String (if Ascii.eqb c a then b else c) (replace a b s')
  end.

(** [repr(s)] for an ASCII string [s]: in single quotes, or in double
    quotes when [s] holds a single quote and no double quote; the quote in
    use and the backslash are written behind a backslash, tab, newline and
    carriage return as [\t], [\n], [\r], any other control character as
    [\x] and two hexadecimal digits. *)
Definition hex_digit (n : nat) : ascii :=
  if Nat.ltb n 10 then ascii_of_nat (48 + n) else ascii_of_nat (87 + n).

Definition single_quote : ascii := "039"%char.
Definition double_quote : ascii := "034"%char.
Definition backslash : ascii := "092"%char.

Fixpoint has_char (c : ascii) (s : string) : bool :=
  match s with
  | EmptyString => false
  | String c' s' => (Ascii.eqb c' c || has_char c s')%bool
  end.

Definition escape (quote c : ascii) : string :=
  let n := nat_of_ascii c in
  if (Ascii.eqb c backslash || Ascii.eqb c quote)%bool
  then String backslash (String c EmptyString)
  else if Nat.eqb n 9 then String backslash "t"
  else if Nat.eqb n 10 then String backslash "n"
  else if Nat.eqb n 13 then String backslash "r"
  else if (Nat.ltb n 32 || Nat.eqb n 127)%bool
  then String backslash
         (String "x" (String (hex_digit (n / 16)) (String (hex_digit (n mod 16))
            EmptyString)))
  else String c EmptyString.

Fixpoint escape_all (quote : ascii) (s : string) : string :=
  match s with
  | EmptyString => EmptyString
  | String c s' => escape quote c ++ escape_all quote s'
  end.

Definition repr (s : string) : string :=
  let quote :=
    if (has_char single_quote s && negb (has_char double_quote s))%bool
    then double_quote else single_quote in
  String quote (escape_all quote s ++ String quote EmptyString).

(** [needle in s]: [needle] occurs in [s] as a substring. *)
Fixpoint contains (needle s : string) : bool :=
  if String.prefix needle s then true
  else match s with
       | EmptyString => false
       | String _ s' => contains needle s'
       end.

End Str.

(** ** Enumerations *)

Inductive ProductCategory :=
  ELECTRONICS | CLOTHING | FOOD | BOOKS | TOYS | HOME | OFFICE | OTHER.

Inductive InventoryStatus :=
  IN_STOCK | LOW_STOCK | OUT_OF_STOCK | DISCONTINUED.

#[global] Instance ProductCategory_eq_dec : EqDecision ProductCategory.
Proof. solve_decision. Defined.

#[global] Instance InventoryStatus_eq_dec : EqDecision InventoryStatus.
Proof. solve_decision. Defined.

Module Category.

(** Members in definition order, as iteration over the enum yields them. *)
Definition members : list ProductCategory :=
  [ELECTRONICS; CLOTHING; FOOD; BOOKS; TOYS; HOME; OFFICE; OTHER].

(** [c.name] *)
Definition name (c : ProductCategory) : string :=
  match c with
  | ELECTRONICS => "ELECTRONICS" | CLOTHING => "CLOTHING" | FOOD => "FOOD"
  | BOOKS => "BOOKS" | TOYS => "TOYS" | HOME => "HOME"
  | OFFICE => "OFFICE" | OTHER => "OTHER"
  end.

(** [ProductCategory[s]] for a string [s]: the member of that exact name. *)
Definition of_name (s : string) : option ProductCategory :=
  List.find (fun c => String.eqb (name c) s) members.

(** [str(c)], that is [c.name.capitalize()]. *)
Definition str (c : ProductCategory) : string := Str.capitalize (name c).

End Category.

Module Status.

Definition members : list InventoryStatus :=
  [IN_STOCK; LOW_STOCK; OUT_OF_STOCK; DISCONTINUED].

Definition name (c : InventoryStatus) : string :=
  match c with
  | IN_STOCK => "IN_STOCK" | LOW_STOCK => "LOW_STOCK"
  | OUT_OF_STOCK => "OUT_OF_STOCK" | DISCONTINUED => "DISCONTINUED"
  end.

Definition of_name (s : string) : option InventoryStatus :=
  List.find (fun c => String.eqb (name c) s) members.

(** [str(c)], that is [c.name.replace('_', ' ').capitalize()]. *)
Definition str (c : InventoryStatus) : string :=
  Str.capitalize (Str.replace "_" " " (name c)).

End Status.

(** ** Timestamps

    [datetime] is the Python standard library's. The model keeps the naive
    (offset-free) datetimes, the only ones [datetime.now()] produces, with
    [isoformat] as the library prints them. Of what the library reads it
    keeps two parts that do not depend on its version:
    - [fromisoformat] reads the strings [YYYY-MM-DD[*HH[:MM[:SS[.fff[fff]]]]]],
      where [*] is any one character, to the naive datetime they write;
    - [refused] singles out strings the library reads in no version.
    Between the two lie the strings the model does not follow: those with a
    UTC offset, which the library reads to a datetime that is not naive, and
    those it reads only from some version on (a final [Z], the basic format
    without dashes, week dates, a fraction of some other length) or refuses
    with a message of the [datetime] constructor (a day out of range). *)

Module Datetime.

Local Open Scope N_scope.

Record datetime := mk {
  year : N; month : N; day : N;
  hour : N; minute : N; second : N; microsecond : N
}.

Definition is_leap (y : N) : bool :=
  (N.eqb (y mod 4) 0 && (negb (N.eqb (y mod 100) 0) || N.eqb (y mod 400) 0))%bool.

Definition days_in_month (y m : N) : N :=
  match m with
  | 1 | 3 | 5 | 7 | 8 | 10 | 12 => 31
  | 4 | 6 | 9 | 11 => 30
  | 2 => if is_leap y then 29 else 28
  | _ => 0
  end%N.

(** The ranges the [datetime] constructor enforces. *)
Definition valid (d : datetime) : bool :=
  (N.leb 1 (year d) && N.leb (year d) 9999
   && N.leb 1 (month d) && N.leb (month d) 12
   && N.leb 1 (day d) && N.leb (day d) (days_in_month (year d) (month d))
   && N.ltb (hour d) 24 && N.ltb (minute d) 60 && N.ltb (second d) 60
   && N.ltb (microsecond d) 1000000)%bool.

Definition digit (n : N) : ascii := ascii_of_N (48 + n).

Definition digit_val (c : ascii) : option N :=
  let n := N_of_ascii c in
  if (N.leb 48 n && N.leb n 57)%bool then Some (n - 48)%N else None.

(** [%02d], [%04d] and [%06d]. *)
Definition pad2 (n : N) (k : string) : string :=
  String (digit (n / 10 mod 10)) (String (digit (n mod 10)) k).
Definition pad4 (n : N) (k : string) : string :=
  pad2 (n / 100) (pad2 n k).
Definition pad6 (n : N) (k : string) : string :=
  pad2 (n / 10000) (pad4 n k).

Definition num2 (a b : ascii) : option N :=
  x ← digit_val a; y ← digit_val b; Some (10 * x + y)%N.

(** [d.isoformat()] *)
Definition isoformat (d : datetime) : string :=
  pad4 (year d) (String "-" (pad2 (month d) (String "-" (pad2 (day d)
    (String "T" (pad2 (hour d) (String ":" (pad2 (minute d) (String ":"
      (pad2 (second d)
         (if N.eqb (microsecond d) 0 then ""
          else String "." (pad6 (microsecond d) "")))))))))))).

(** The fraction of a second: three or six digits. *)
Definition parse_fraction (r : string) : option N :=
  match r with
  | String f1 (String f2 (String f3 "")) =>
      x ← digit_val f1; y ← num2 f2 f3; Some ((100 * x + y) * 1000)%N
  | String f1 (String f2 (String f3 (String f4 (String f5 (String f6 ""))))) =>
      x ← num2 f1 f2; y ← num2 f3 f4; z ← num2 f5 f6;
      Some (10000 * x + 100 * y + z)%N
  | _ => None
  end.

(** [HH[:MM[:SS[.fff[fff]]]]] *)
Definition parse_time (t : string) : option (N * N * N * N) :=
  match t with
  | String h1 (String h2 r) =>
      hh ← num2 h1 h2;
      match r with
      | "" => Some (hh, 0, 0, 0)%N
      | String c1 (String m1 (String m2 r)) =>
          if Ascii.eqb c1 ":" then
            mm ← num2 m1 m2;
            match r with
            | "" => Some (hh, mm, 0, 0)%N
            | String c2 (String s1 (String s2 r)) =>
                if Ascii.eqb c2 ":" then
                  ss ← num2 s1 s2;
                  match r with
                  | "" => Some (hh, mm, ss, 0)%N
                  | String c3 r =>
                      if Ascii.eqb c3 "." then
                        us ← parse_fraction r; Some (hh, mm, ss, us)
                      else None
                  end
                else None
            | _ => None
            end
          else None
      | _ => None
      end
  | _ => None
  end.

Definition checked (d : datetime) : option datetime :=
  if valid d then Some d else None.

(** [datetime.fromisoformat(s)] on the naive forms; [None] where [s] is not
    one of them. *)
Definition fromisoformat (s : string) : option datetime :=
  match s with
  | String y1 (String y2 (String y3 (String y4 (String c1
      (String m1 (String m2 (String c2 (String d1 (String d2 r))))))))) =>
      if (Ascii.eqb c1 "-" && Ascii.eqb c2 "-")%bool then
        yh ← num2 y1 y2; yl ← num2 y3 y4;
        mo ← num2 m1 m2; dd ← num2 d1 d2;
        match r with
        | "" => checked (mk (100 * yh + yl) mo dd 0 0 0 0)
        | String _ t =>
            '(hh, mm, ss, us) ← parse_time t;
            checked (mk (100 * yh + yl) mo dd hh mm ss us)
        end
      else None
  | _ => None
  end.

Definition is_digit (c : ascii) : bool :=
  match digit_val c with Some _ => true | None => false end.

(** Every form the library reads, in any version, has seven characters at
    least and begins with a year of four digits, followed by [-], by the
    [W] of a week date or by a digit. A string that does not is refused with
    [ValueError("Invalid isoformat string: ...")]. *)
Definition refused (s : string) : bool :=
  match s with
  | String y1 (String y2 (String y3 (String y4 (String c (String _ (String _ _)))))) =>
      negb (is_digit y1 && is_digit y2 && is_digit y3 && is_digit y4
            && (Ascii.eqb c "-" || Ascii.eqb c "W" || is_digit c))
  | _ => true
  end.

End Datetime.

Abbreviation datetime := Datetime.datetime.


(** ** Python values and exceptions *)

(** The scalars of a JSON document, as [json.load] hands them over. *)
Inductive value :=
| VNone
| VBool (b : bool)
| VInt (n : Z)
| VFloat (x : spec_float)
| VStr (s : string).

(** The exceptions the modelled code raises or lets through. [Untyped] is
    not one of Python's: it marks the point where the model stops following
    the program. That is where Python would go on and build a record holding
    a value outside the field's annotation (a number for a name, say, or a
    datetime with an offset), which the typed records below cannot hold, and
    where [fromisoformat] is handed a string on which the versions of the
    library differ. Nothing is said of a run that ends there: in particular
    not that the program fails. *)
Inductive exn :=
| KeyError (key : value)
| ValueError (msg : string)
| TypeError (msg : string)
| Untyped (field : string).

Inductive outcome (A : Type) :=
| Return (a : A)
| Raise (e : exn).
Arguments Return {A} a.
Arguments Raise {A} e.

Definition obind {A B} (m : outcome A) (k : A -> outcome B) : outcome B :=
  match m with
  | Return a => k a
  | Raise e => Raise e
  end.

Declare Scope outcome_scope.
Delimit Scope outcome_scope with outcome.
Notation "x <- m ;; k" := (obind m (fun x => k))
  (at level 100, m at next level, right associativity) : outcome_scope.

(** [data[key]] *)
Definition getitem (data : gmap string value) (key : string) : outcome value :=
  match data !! key with
  | Some v => Return v
  | None => Raise (KeyError (VStr key))
  end.

(** [ProductCategory[v]]: an unknown name, or a key that is no string at
    all, is a [KeyError]. *)
Definition ProductCategory_getitem (v : value) : outcome ProductCategory :=
  match v with
  | VStr s =>
      match Category.of_name s with
      | Some c => Return c
      | None => Raise (KeyError v)
      end
  | _ => Raise (KeyError v)
  end.

(** [InventoryStatus[s]] *)
Definition InventoryStatus_getitem (s : string) : outcome InventoryStatus :=
  match Status.of_name s with
  | Some c => Return c
  | None => Raise (KeyError (VStr s))
  end.

(** [datetime.fromisoformat(v)]: the datetime read from a string in a naive
    form, [ValueError] for a string that is [refused], [TypeError] for a value
    that is no string; any other string is beyond the model. *)
Definition datetime_fromisoformat (v : value) : outcome datetime :=
  match v with
  | VStr s =>
      match Datetime.fromisoformat s with
      | Some d => Return d
      | None =>
          if Datetime.refused s
          then Raise (ValueError ("Invalid isoformat string: " ++ Str.repr s))
          else Raise (Untyped "datetime")
      end
  | _ => Raise (TypeError "fromisoformat: argument must be str")
  end.

(** The annotations [str], [int] and [float] of the dataclass fields. *)
Definition as_str (field : string) (v : value) : outcome string :=
  match v with VStr s => Return s | _ => Raise (Untyped field) end.
Definition as_int (field : string) (v : value) : outcome Z :=
  match v with VInt n => Return n | _ => Raise (Untyped field) end.
Definition as_float (field : string) (v : value) : outcome spec_float :=
  match v with VFloat x => Return x | _ => Raise (Untyped field) end.

(** ** Entity layer *)

Module Product.

Record t := mk {
  name : string;
  description : string;
  category : ProductCategory;
  price : spec_float;
  stock_quantity : Z;
  sku : string;
  created_at : datetime;
  updated_at : datetime
}.

(** Attribute assignments. *)
Definition set_name (v : string) (p : t) : t :=
  mk v (description p) (category p) (price p) (stock_quantity p) (sku p)
     (created_at p) (updated_at p).
Definition set_description (v : string) (p : t) : t :=
  mk (name p) v (category p) (price p) (stock_quantity p) (sku p)
     (created_at p) (updated_at p).
Definition set_category (v : ProductCategory) (p : t) : t :=
  mk (name p) (description p) v (price p) (stock_quantity p) (sku p)
     (created_at p) (updated_at p).
Definition set_price (v : spec_float) (p : t) : t :=
  mk (name p) (description p) (category p) v (stock_quantity p) (sku p)
     (created_at p) (updated_at p).
Definition set_stock_quantity (v : Z) (p : t) : t :=
  mk (name p) (description p) (category p) (price p) v (sku p)
     (created_at p) (updated_at p).
Definition set_updated_at (v : datetime) (p : t) : t :=
  mk (name p) (description p) (category p) (price p) (stock_quantity p) (sku p)
     (created_at p) v.

(** The [status] property. *)
Definition status (self : t) : InventoryStatus :=
  if stock_quantity self <=? 0 then OUT_OF_STOCK
  else if stock_quantity self <? 5 then LOW_STOCK
  else IN_STOCK.

Definition to_dict (self : t) : gmap string value :=
  list_to_map [
    ("sku", VStr (sku self));
    ("name", VStr (name self));
    ("description", VStr (description self));
    ("category", VStr (Category.name (category self)));
    ("price", VFloat (price self));
    ("stock_quantity", VInt (stock_quantity self));
    ("created_at", VStr (Datetime.isoformat (created_at self)));
    ("updated_at", VStr (Datetime.isoformat (updated_at self)))
  ].

(** The arguments of [cls(...)] are evaluated in the order written, so the
    first missing or unreadable one decides the exception; the annotations
    are looked at only once Python has built the record. *)
Definition from_dict (data : gmap string value) : outcome t :=
  (v_name <- getitem data "name" ;;
   v_description <- getitem data "description" ;;
   v_category <- getitem data "category" ;;
   category <- ProductCategory_getitem v_category ;;
   v_price <- getitem data "price" ;;
   v_stock_quantity <- getitem data "stock_quantity" ;;
   v_sku <- getitem data "sku" ;;
   v_created_at <- getitem data "created_at" ;;
   created_at <- datetime_fromisoformat v_created_at ;;
   v_updated_at <- getitem data "updated_at" ;;
   updated_at <- datetime_fromisoformat v_updated_at ;;
   name <- as_str "name" v_name ;;
   description <- as_str "description" v_description ;;
   price <- as_float "price" v_price ;;
   stock_quantity <- as_int "stock_quantity" v_stock_quantity ;;
   sku <- as_str "sku" v_sku ;;
   Return (mk name description category price stock_quantity sku
              created_at updated_at))%outcome.

End Product.

Module Transaction.

Record t := mk {
  product_sku : string;
  quantity : Z;
  transaction_type : string;
  transaction_id : string;
  timestamp : datetime;
  notes : string
}.

Definition to_dict (self : t) : gmap string value :=
  list_to_map [
    ("transaction_id", VStr (transaction_id self));
    ("product_sku", VStr (product_sku self));
    ("quantity", VInt (quantity self));
    ("transaction_type", VStr (transaction_type self));
    ("timestamp", VStr (Datetime.isoformat (timestamp self)));
    ("notes", VStr (notes self))
  ].

(** [data.get('notes', "")] *)
Definition get_notes (data : gmap string value) : value :=
  match data !! "notes" with
  | Some v => v
  | None => VStr ""
  end.

Definition from_dict (data : gmap string value) : outcome t :=
  (v_product_sku <- getitem data "product_sku" ;;
   v_quantity <- getitem data "quantity" ;;
   v_transaction_type <- getitem data "transaction_type" ;;
   v_transaction_id <- getitem data "transaction_id" ;;
   v_timestamp <- getitem data "timestamp" ;;
   timestamp <- datetime_fromisoformat v_timestamp ;;
   let v_notes := get_notes data in
   product_sku <- as_str "product_sku" v_product_sku ;;
   quantity <- as_int "quantity" v_quantity ;;
   transaction_type <- as_str "transaction_type" v_transaction_type ;;
   transaction_id <- as_str "transaction_id" v_transaction_id ;;
   notes <- as_str "notes" v_notes ;;
   Return (mk product_sku quantity transaction_type transaction_id
              timestamp notes))%outcome.

End Transaction.

(** ** Python dicts

    A [dict] with string keys, in insertion order. Assigning to a key that
    is present keeps the key's place; a new key goes last. *)

Section PyDict.

Context {V : Type}.

Fixpoint dict_get (k : string) (d : list (string * V)) : option V :=
  match d with
  | [] => None
  | (k', v) :: d' => if String.eqb k' k then Some v else dict_get k d'
  end.

(** [k in d] *)
Definition dict_contains (k : string) (d : list (string * V)) : bool :=
  match dict_get k d with Some _ => true | None => false end.

(** [d[k] = v] *)
Fixpoint dict_set (k : string) (v : V) (d : list (string * V)) : list (string * V) :=
  match d with
  | [] => [(k, v)]
  | (k', v') :: d' =>
      if String.eqb k' k then (k', v) :: d' else (k', v') :: dict_set k v d'
  end.

(** [del d[k]] *)
Fixpoint dict_del (k : string) (d : list (string * V)) : list (string * V) :=
  match d with
  | [] => []
  | (k', v') :: d' =>
      if String.eqb k' k then d' else (k', v') :: dict_del k d'
  end.

(** [list(d.values())] *)
Definition dict_values (d : list (string * V)) : list V := List.map snd d.

End PyDict.

(** ** The state of a running service

    [Product] objects live in a heap and are handed around by reference
    ([ref], an address): the dict of the product store holds references, so
    an attribute assignment through any reference to an object is seen by
    every holder of it. [Transaction] objects are never assigned to after
    they are built and are kept by value. *)

Definition ref := nat.

Record World := mkWorld {
  heap : ref -> Product.t;                      (* the Product objects *)
  next : ref;                                   (* the next free address *)
  products : list (string * ref);               (* product_dao.products *)
  transactions : list (string * Transaction.t); (* transaction_dao.transactions *)
  clock : nat -> datetime;                      (* the readings of datetime.now() *)
  ticks : nat;                                  (* how many were taken *)
  uuids : nat -> string;                        (* the values of str(uuid.uuid4()) *)
  draws : nat                                   (* how many were drawn *)
}.

Definition with_heap (w : World) (h : ref -> Product.t) (n : ref) : World :=
  mkWorld h n (products w) (transactions w) (clock w) (ticks w) (uuids w) (draws w).
Definition with_products (w : World) (d : list (string * ref)) : World :=
  mkWorld (heap w) (next w) d (transactions w) (clock w) (ticks w) (uuids w) (draws w).
Definition with_transactions (w : World) (d : list (string * Transaction.t)) : World :=
  mkWorld (heap w) (next w) (products w) d (clock w) (ticks w) (uuids w) (draws w).
Definition with_ticks (w : World) (n : nat) : World :=
  mkWorld (heap w) (next w) (products w) (transactions w) (clock w) n (uuids w) (draws w).
Definition with_draws (w : World) (n : nat) : World :=
  mkWorld (heap w) (next w) (products w) (transactions w) (clock w) (ticks w) (uuids w) n.

(** A computation: it answers or raises, and leaves a state either way (what
    was assigned before a [raise] stays assigned). *)
Definition Py (A : Type) : Type := World -> outcome A * World.

Definition ret {A} (a : A) : Py A := fun w => (Return a, w).
Definition raise {A} (e : exn) : Py A := fun w => (Raise e, w).
Definition bind {A B} (m : Py A) (k : A -> Py B) : Py B :=
  fun w =>
    match m w with
    | (Return a, w') => k a w'
    | (Raise e, w') => (Raise e, w')
    end.

Declare Scope py_scope.
Delimit Scope py_scope with py.
Notation "x <- m ;; k" := (bind m (fun x => k))
  (at level 100, m at next level, right associativity) : py_scope.
Notation "m ;; k" := (bind m (fun _ => k))
  (at level 100, right associativity) : py_scope.

(** [try: m  except KeyError: handler] *)
Definition except_KeyError {A} (m : Py A) (handler : Py A) : Py A :=
  fun w =>
    match m w with
    | (Raise (KeyError _), w') => handler w'
    | r => r
    end.

Definition lift {A} (o : outcome A) : Py A := fun w => (o, w).

(** [datetime.now()] *)
Definition datetime_now : Py datetime :=
  fun w => (Return (clock w (ticks w)), with_ticks w (S (ticks w))).

(** [str(uuid.uuid4())] *)
Definition uuid4 : Py string :=
  fun w => (Return (uuids w (draws w)), with_draws w (S (draws w))).

(** The heap with the object at one address replaced by [assign] of it. *)
Definition heap_update (h : ref -> Product.t) (l : ref)
    (assign : Product.t -> Product.t) : ref -> Product.t :=
  fun l' => if Nat.eqb l' l then assign (h l') else h l'.

(** A new object on the heap. *)
Definition alloc (p : Product.t) : Py ref :=
  fun w =>
    (Return (next w),
     with_heap w (heap_update (heap w) (next w) (fun _ => p)) (S (next w))).

(** [product.field], and [product.field = ...] as [setattr product (set_field ...)]. *)
Definition getattr {A} (product : ref) (field : Product.t -> A) : Py A :=
  fun w => (Return (field (heap w product)), w).

Definition setattr (product : ref) (assign : Product.t -> Product.t) : Py unit :=
  fun w =>
    (Return tt, with_heap w (heap_update (heap w) product assign) (next w)).

(** [Product(name=..., description=..., category=..., price=..., stock_quantity=...)]:
    the default factories run in field order, [sku] first, then the two
    timestamps, each with a reading of its own. *)
Definition Product_new (name description : string) (category : ProductCategory)
    (price : spec_float) (stock_quantity : Z) : Py ref :=
  (u <- uuid4 ;;
   created_at <- datetime_now ;;
   updated_at <- datetime_now ;;
   alloc (Product.mk name description category price stock_quantity
            (Str.upper (Str.take 8 u)) created_at updated_at))%py.

(** [Transaction(product_sku=..., quantity=..., transaction_type=..., notes=...)] *)
Definition Transaction_new (product_sku : string) (quantity : Z)
    (transaction_type notes : string) : Py Transaction.t :=
  (transaction_id <- uuid4 ;;
   timestamp <- datetime_now ;;
   ret (Transaction.mk product_sku quantity transaction_type transaction_id
          timestamp notes))%py.

(** ** Persistence layer *)

(** What [_load_data] finds at [file_path]: no file, a file that
    [json.load] refuses, or a JSON array of objects with scalar values. What
    [_save_data] hands to [json.dump] is such an array; the write itself, and
    the failures it swallows, are not modelled. *)
Inductive backing_file :=
| NoFile
| NotJson
| Json (data : list (gmap string value)).

Module ProductDAO.

Definition save (product : ref) : Py bool :=
  (sku <- getattr product Product.sku ;;
   present <- (fun w => (Return (dict_contains sku (products w)), w)) ;;
   (if present : bool then
      now <- datetime_now ;;
      setattr product (Product.set_updated_at now)
    else ret tt) ;;
   sku <- getattr product Product.sku ;;
   (fun w => (Return tt, with_products w (dict_set sku product (products w)))) ;;
   ret true)%py.

Definition delete (sku : string) : Py bool :=
  fun w =>
    if dict_contains sku (products w)
    then (Return true, with_products w (dict_del sku (products w)))
    else (Return false, w).

Definition get (sku : string) : Py (option ref) :=
  fun w => (Return (dict_get sku (products w)), w).

Definition get_all : Py (list ref) :=
  fun w => (Return (dict_values (products w)), w).

(** [[p for p in self.products.values() if keep(p)]] *)
Definition filter_values (keep : Product.t -> bool) : Py (list ref) :=
  fun w => (Return (List.filter (fun p => keep (heap w p)) (dict_values (products w))), w).

Definition filter_by_category (category : ProductCategory) : Py (list ref) :=
  filter_values (fun p => bool_decide (Product.category p = category)).

Definition filter_by_status (status : InventoryStatus) : Py (list ref) :=
  filter_values (fun p => bool_decide (Product.status p = status)).

Definition search (query : string) : Py (list ref) :=
  let query := Str.lower query in
  filter_values (fun p =>
    (Str.contains query (Str.lower (Product.name p))
     || Str.contains query (Str.lower (Product.description p)))%bool).

(** The loop of [_load_data]: each record is converted, and the product
    built is put under its sku. A record on which [from_dict] ends in
    [Untyped] is one the model does not follow (the program may well load it
    and go on): the run ends there, and nothing is said of it. *)
Fixpoint load_records (data : list (gmap string value)) : Py unit :=
  match data with
  | [] => ret tt
  | product_data :: rest =>
      (p <- lift (Product.from_dict product_data) ;;
       product <- alloc p ;;
       sku <- getattr product Product.sku ;;
       (fun w => (Return tt, with_products w (dict_set sku product (products w)))) ;;
       load_records rest)%py
  end.

(** A [JSONDecodeError] or a [KeyError] ends the load with a message; any
    other exception leaves [_load_data]. *)
Definition _load_data (file : backing_file) : Py unit :=
  match file with
  | NoFile => ret tt
  | NotJson => ret tt
  | Json data => except_KeyError (load_records data) (ret tt)
  end.

(** The list [_save_data] hands to [json.dump]. *)
Definition _save_data : Py (list (gmap string value)) :=
  fun w => (Return (List.map (fun p => Product.to_dict (heap w p))
                      (dict_values (products w))), w).

(** [ProductDAO(file_path)]: an empty dict, then the load. *)
Definition __init__ (file : backing_file) : Py unit :=
  ((fun w => (Return tt, with_products w [])) ;;
   _load_data file)%py.

End ProductDAO.

Module TransactionDAO.

Definition save (transaction : Transaction.t) : Py bool :=
  fun w =>
    (Return true,
     with_transactions w
       (dict_set (Transaction.transaction_id transaction) transaction (transactions w))).

Definition delete (transaction_id : string) : Py bool :=
  fun w =>
    if dict_contains transaction_id (transactions w)
    then (Return true, with_transactions w (dict_del transaction_id (transactions w)))
    else (Return false, w).

Definition get (transaction_id : string) : Py (option Transaction.t) :=
  fun w => (Return (dict_get transaction_id (transactions w)), w).

Definition get_all : Py (list Transaction.t) :=
  fun w => (Return (dict_values (transactions w)), w).

Definition get_by_product (product_sku : string) : Py (list Transaction.t) :=
  fun w =>
    (Return (List.filter (fun t => String.eqb (Transaction.product_sku t) product_sku)
               (dict_values (transactions w))), w).

Definition get_by_type (transaction_type : string) : Py (list Transaction.t) :=
  fun w =>
    (Return (List.filter (fun t => String.eqb (Transaction.transaction_type t) transaction_type)
               (dict_values (transactions w))), w).

Fixpoint load_records (data : list (gmap string value)) : Py unit :=
  match data with
  | [] => ret tt
  | transaction_data :: rest =>
      (transaction <- lift (Transaction.from_dict transaction_data) ;;
       (fun w =>
          (Return tt,
           with_transactions w
             (dict_set (Transaction.transaction_id transaction) transaction
                (transactions w)))) ;;
       load_records rest)%py
  end.

Definition _load_data (file : backing_file) : Py unit :=
  match file with
  | NoFile => ret tt
  | NotJson => ret tt
  | Json data => except_KeyError (load_records data) (ret tt)
  end.

Definition _save_data : Py (list (gmap string value)) :=
  fun w => (Return (List.map Transaction.to_dict (dict_values (transactions w))), w).

Definition __init__ (file : backing_file) : Py unit :=
  ((fun w => (Return tt, with_transactions w [])) ;;
   _load_data file)%py.

End TransactionDAO.

(** ** Inventory service *)

Module InventoryService.

(** The keyword arguments [update_product] looks at; any other keyword
    (a [stock_quantity], say) is never read. *)
Record kwargs := mk_kwargs {
  kw_name : option string;
  kw_description : option string;
  kw_category : option string;
  kw_price : option spec_float
}.

(** [InventoryService()] with no DAO passed: [product_dao or ProductDAO()]
    and [transaction_dao or TransactionDAO()] build the two stores, each from
    its backing file. *)
Definition __init__ (products_file transactions_file : backing_file) : Py unit :=
  (ProductDAO.__init__ products_file ;;
   TransactionDAO.__init__ transactions_file)%py.

(** [x <= 0] and [x > 0] for a [float] [x]. *)
Definition float_le_0 (x : spec_float) : bool := SFleb x (S754_zero false).
Definition float_gt_0 (x : spec_float) : bool := SFltb (S754_zero false) x.

Definition _record_transaction (product_sku : string) (quantity : Z)
    (transaction_type notes : string) : Py Transaction.t :=
  (transaction <- Transaction_new product_sku quantity transaction_type notes ;;
   TransactionDAO.save transaction ;;
   ret transaction)%py.

Definition add_product (name description category : string)
    (price : spec_float) (stock_quantity : Z) : Py ref :=
  (category_enum <-
     except_KeyError
       (lift (ProductCategory_getitem (VStr (Str.upper category))))
       (raise (ValueError
          ("Categoría inválida: " ++ category ++ ". Opciones válidas: "
           ++ Str.join ", " (List.map Category.name Category.members)))) ;;
   (if float_le_0 price
    then raise (ValueError "El precio debe ser mayor que cero")
    else ret tt) ;;
   (if stock_quantity <? 0
    then raise (ValueError "La cantidad en stock no puede ser negativa")
    else ret tt) ;;
   product <- Product_new name description category_enum price stock_quantity ;;
   ProductDAO.save product ;;
   (if stock_quantity >? 0 then
      sku <- getattr product Product.sku ;;
      pname <- getattr product Product.name ;;
      _record_transaction sku stock_quantity "purchase"
        ("Inventario inicial para " ++ pname) ;;
      ret tt
    else ret tt) ;;
   ret product)%py.

Definition update_product (sku : string) (kw : kwargs) : Py (option ref) :=
  (found <- ProductDAO.get sku ;;
   match found with
   | None => ret None
   | Some product =>
       match kw_name kw with
       | Some v => setattr product (Product.set_name v)
       | None => ret tt
       end ;;
       match kw_description kw with
       | Some v => setattr product (Product.set_description v)
       | None => ret tt
       end ;;
       match kw_category kw with
       | Some v =>
           category_enum <-
             except_KeyError
               (lift (ProductCategory_getitem (VStr (Str.upper v))))
               (raise (ValueError ("Categoría inválida: " ++ v))) ;;
           setattr product (Product.set_category category_enum)
       | None => ret tt
       end ;;
       match kw_price kw with
       | Some v =>
           if float_le_0 v
           then raise (ValueError "El precio debe ser mayor que cero")
           else setattr product (Product.set_price v)
       | None => ret tt
       end ;;
       now <- datetime_now ;;
       setattr product (Product.set_updated_at now) ;;
       ProductDAO.save product ;;
       ret (Some product)
   end)%py.

Definition get_product (sku : string) : Py (option ref) := ProductDAO.get sku.

Definition delete_product (sku : string) : Py bool :=
  (found <- ProductDAO.get sku ;;
   match found with
   | None => ret false
   | Some product =>
       stock <- getattr product Product.stock_quantity ;;
       (if stock >? 0 then
          pname <- getattr product Product.name ;;
          _record_transaction sku (- stock) "adjustment"
            ("Eliminación del producto " ++ pname) ;;
          ret tt
        else ret tt) ;;
       ProductDAO.delete sku
   end)%py.

Definition get_all_products : Py (list ref) := ProductDAO.get_all.

Definition get_products_by_category (category : string) : Py (list ref) :=
  except_KeyError
    (category_enum <- lift (ProductCategory_getitem (VStr (Str.upper category))) ;;
     ProductDAO.filter_by_category category_enum)%py
    (raise (ValueError ("Categoría inválida: " ++ category))).

Definition get_products_by_status (status : string) : Py (list ref) :=
  except_KeyError
    (status_enum <- lift (InventoryStatus_getitem (Str.upper status)) ;;
     ProductDAO.filter_by_status status_enum)%py
    (raise (ValueError ("Estado inválido: " ++ status))).

Definition add_stock (sku : string) (quantity : Z) (notes : string)
    : Py (bool * string) :=
  (if quantity <=? 0 then ret (false, "La cantidad debe ser mayor que cero")
   else
     found <- ProductDAO.get sku ;;
     match found with
     | None => ret (false, "Producto con SKU " ++ sku ++ " no encontrado")
     | Some product =>
         stock <- getattr product Product.stock_quantity ;;
         setattr product (Product.set_stock_quantity (stock + quantity)) ;;
         now <- datetime_now ;;
         setattr product (Product.set_updated_at now) ;;
         ProductDAO.save product ;;
         _record_transaction sku quantity "purchase" notes ;;
         stock <- getattr product Product.stock_quantity ;;
         ret (true, "Stock actualizado. Nuevo stock: " ++ Str.of_Z stock)
     end)%py.

Definition remove_stock (sku : string) (quantity : Z) (notes : string)
    : Py (bool * string) :=
  (if quantity <=? 0 then ret (false, "La cantidad debe ser mayor que cero")
   else
     found <- ProductDAO.get sku ;;
     match found with
     | None => ret (false, "Producto con SKU " ++ sku ++ " no encontrado")
     | Some product =>
         stock <- getattr product Product.stock_quantity ;;
         if stock <? quantity
         then ret (false, "Stock insuficiente. Disponible: " ++ Str.of_Z stock)
         else
           setattr product (Product.set_stock_quantity (stock - quantity)) ;;
           now <- datetime_now ;;
           setattr product (Product.set_updated_at now) ;;
           ProductDAO.save product ;;
           _record_transaction sku (- quantity) "sale" notes ;;
           stock <- getattr product Product.stock_quantity ;;
           ret (true, "Stock actualizado. Nuevo stock: " ++ Str.of_Z stock)
     end)%py.

Definition adjust_stock (sku : string) (new_quantity : Z) (notes : string)
    : Py (bool * string) :=
  (if new_quantity <? 0 then ret (false, "La cantidad no puede ser negativa")
   else
     found <- ProductDAO.get sku ;;
     match found with
     | None => ret (false, "Producto con SKU " ++ sku ++ " no encontrado")
     | Some product =>
         stock <- getattr product Product.stock_quantity ;;
         let difference := new_quantity - stock in
         setattr product (Product.set_stock_quantity new_quantity) ;;
         now <- datetime_now ;;
         setattr product (Product.set_updated_at now) ;;
         ProductDAO.save product ;;
         _record_transaction sku difference "adjustment" notes ;;
         ret (true, "Stock ajustado a " ++ Str.of_Z new_quantity)
     end)%py.

Definition get_transaction (transaction_id : string) : Py (option Transaction.t) :=
  TransactionDAO.get transaction_id.

Definition get_all_transactions : Py (list Transaction.t) := TransactionDAO.get_all.

Definition get_product_transactions (sku : string) : Py (list Transaction.t) :=
  TransactionDAO.get_by_product sku.

Definition valid_types : list string := ["purchase"; "sale"; "adjustment"].

Definition get_transactions_by_type (transaction_type : string)
    : Py (list Transaction.t) :=
  (if negb (existsb (String.eqb transaction_type) valid_types)
   then raise (ValueError
          ("Tipo de transacción inválido. Opciones válidas: "
           ++ Str.join ", " valid_types))
   else TransactionDAO.get_by_type transaction_type)%py.

(** [[p for p in self.product_dao.get_all() if p.stock_quantity <= threshold]] *)
Definition get_low_stock_products (threshold : Z) : Py (list ref) :=
  (all <- ProductDAO.get_all ;;
   fun w =>
     (Return (List.filter (fun p => Product.stock_quantity (heap w p) <=? threshold) all),
      w))%py.

Definition get_out_of_stock_products : Py (list ref) :=
  (all <- ProductDAO.get_all ;;
   fun w =>
     (Return (List.filter (fun p => Product.stock_quantity (heap w p) <=? 0) all), w))%py.

Definition search_products (query : string) : Py (list ref) := ProductDAO.search query.

(** One step of the loop of [get_transaction_summary]:
    [if transaction.transaction_type in summary: summary[...] += 1]. *)
Definition count_transaction (summary : gmap string Z) (transaction : Transaction.t)
    : gmap string Z :=
  match summary !! Transaction.transaction_type transaction with
  | Some n => <[Transaction.transaction_type transaction := n + 1]> summary
  | None => summary
  end.

Definition get_transaction_summary : Py (gmap string Z) :=
  (transactions <- TransactionDAO.get_all ;;
   let summary : gmap string Z :=
     list_to_map [("purchase", 0); ("sale", 0); ("adjustment", 0)] in
   ret (List.fold_left count_transaction transactions summary))%py.

End InventoryService.

(** ** A small shop, for running the model on concrete inputs *)

Module Demo.

Definition noon : datetime := Datetime.mk 2024 1 1 12 0 0 0.

(** Successive readings of the clock, a microsecond apart. *)
Definition clock (n : nat) : datetime :=
  Datetime.mk 2024 5 1 10 30 0 (N.of_nat n + 1).

(** Successive values of [str(uuid.uuid4())], all different. *)
Definition uuids (n : nat) : string :=
  "c0ffee" ++ Str.of_Z (Z.of_nat n + 10) ++ "-0000-4000-8000-000000000000".

(** [10.0] and [float('nan')]. *)
Definition ten : spec_float := S754_finite false 5 1.
Definition nan : spec_float := S754_nan.

Definition widget (stock : Z) : Product.t :=
  Product.mk "Widget" "A widget" OTHER ten stock "W1DGET01" noon noon.

(** No product, no transaction. *)
Definition empty : World :=
  mkWorld (fun _ => widget 0) 0%nat [] [] clock 0%nat uuids 0%nat.

(** One product, the widget, with the given stock; no transaction yet. *)
Definition shop (stock : Z) : World :=
  mkWorld (fun _ => widget stock) 1%nat [("W1DGET01", 0%nat)] [] clock 0%nat uuids 0%nat.

End Demo.

(** What an observer of the service sees of a state: the stored products in
    [get_all] order, each with its key, and the stored transactions. *)
Definition stored_products (w : World) : list (string * Product.t) :=
  List.map (fun '(k, l) => (k, heap w l)) (products w).

Definition lookup_product (w : World) (sku : string) : option Product.t :=
  option_map (heap w) (dict_get sku (products w)).

(** ** The external record layout

    What the specification calls a well-formed mapping: exactly the fields
    of the layout, each of the kind the record's annotation names, the
    category one of the enumeration's names, the timestamps readable by
    [fromisoformat]. [canonical] narrows the timestamps to the strings
    [isoformat] writes; [readable] is what [from_dict] itself asks for. *)

Module Layout.

Definition product_fields : list string :=
  ["sku"; "name"; "description"; "category"; "price"; "stock_quantity";
   "created_at"; "updated_at"].

Definition transaction_fields : list string :=
  ["transaction_id"; "product_sku"; "quantity"; "transaction_type";
   "timestamp"; "notes"].

Definition is_str (v : value) : bool :=
  match v with VStr _ => true | _ => false end.
Definition is_int (v : value) : bool :=
  match v with VInt _ => true | _ => false end.
Definition is_float (v : value) : bool :=
  match v with VFloat _ => true | _ => false end.
Definition is_any (v : value) : bool := true.

Definition is_category (v : value) : bool :=
  match v with
  | VStr s => match Category.of_name s with Some _ => true | None => false end
  | _ => false
  end.

Definition is_transaction_type (v : value) : bool :=
  match v with
  | VStr s => existsb (String.eqb s) ["purchase"; "sale"; "adjustment"]
  | _ => false
  end.

Definition is_timestamp (v : value) : bool :=
  match v with
  | VStr s => match Datetime.fromisoformat s with Some _ => true | None => false end
  | _ => false
  end.

(** A timestamp that [isoformat] gives back as it was read. *)
Definition is_canonical_timestamp (v : value) : bool :=
  match v with
  | VStr s =>
      match Datetime.fromisoformat s with
      | Some d => String.eqb (Datetime.isoformat d) s
      | None => false
      end
  | _ => false
  end.

(** The field is there and its value passes [check]. *)
Definition has (check : value -> bool) (data : gmap string value) (field : string) : bool :=
  match data !! field with
  | Some v => check v
  | None => false
  end.

Definition only (fields : list string) (data : gmap string value) : Prop :=
  dom data = (list_to_set fields : gset string).

(** Every field of the product layout is there, with a value of its kind. *)
Definition product_complete (data : gmap string value) : bool :=
  (has is_str data "sku" && has is_str data "name" && has is_str data "description"
   && has is_category data "category" && has is_float data "price"
   && has is_int data "stock_quantity"
   && has is_timestamp data "created_at" && has is_timestamp data "updated_at")%bool.

Definition product_well_formed (data : gmap string value) : Prop :=
  only product_fields data /\ product_complete data = true.

Definition product_canonical (data : gmap string value) : bool :=
  (has is_canonical_timestamp data "created_at"
   && has is_canonical_timestamp data "updated_at")%bool.

Definition product_readable (data : gmap string value) : bool :=
  (has is_any data "sku" && has is_any data "name" && has is_any data "description"
   && has is_category data "category" && has is_any data "price"
   && has is_any data "stock_quantity"
   && has is_timestamp data "created_at" && has is_timestamp data "updated_at")%bool.

Definition transaction_complete (data : gmap string value) : bool :=
  (has is_str data "transaction_id" && has is_str data "product_sku"
   && has is_int data "quantity" && has is_transaction_type data "transaction_type"
   && has is_timestamp data "timestamp" && has is_str data "notes")%bool.

Definition transaction_well_formed (data : gmap string value) : Prop :=
  only transaction_fields data /\ transaction_complete data = true.

Definition transaction_canonical (data : gmap string value) : bool :=
  has is_canonical_timestamp data "timestamp".

Definition transaction_readable (data : gmap string value) : bool :=
  (has is_any data "transaction_id" && has is_any data "product_sku"
   && has is_any data "quantity" && has is_any data "transaction_type"
   && has is_timestamp data "timestamp")%bool.







End Layout.

(** An exception of Python's own. *)
Definition python_error (e : exn) : Prop :=
  match e with
  | Untyped _ => False
  | _ => True
  end.

(** The conversion fails. *)
Definition rejected {A} (o : outcome A) : Prop :=
  exists e, o = Raise e /\ python_error e.

(** Mappings to run the conversions on. *)
Module Samples.

(** A product record whose creation timestamp leaves out the seconds. *)
Definition short_timestamp_product : gmap string value :=
  list_to_map [
    ("sku", VStr "W1DGET01");
    ("name", VStr "Widget");
    ("description", VStr "A widget");
    ("category", VStr "OTHER");
    ("price", VFloat (S754_finite false 5 1));
    ("stock_quantity", VInt 3);
    ("created_at", VStr "2024-05-01T10:30");
    ("updated_at", VStr "2024-05-01T10:30:00")
  ].

(** A product record with a field the layout does not have. *)
Definition product_with_extra_field : gmap string value :=
  list_to_map [
    ("sku", VStr "W1DGET01");
    ("name", VStr "Widget");
    ("description", VStr "A widget");
    ("category", VStr "OTHER");
    ("price", VFloat (S754_finite false 5 1));
    ("stock_quantity", VInt 3);
    ("created_at", VStr "2024-05-01T10:30:00");
    ("updated_at", VStr "2024-05-01T10:30:00");
    ("colour", VStr "red")
  ].



(** A product record that lacks its [price]. *)
Definition product_without_price : gmap string value :=
  list_to_map [
    ("sku", VStr "W1DGET01");
    ("name", VStr "Widget");
    ("description", VStr "A widget");
    ("category", VStr "OTHER");
    ("stock_quantity", VInt 3);
    ("created_at", VStr "2024-05-01T10:30:00");
    ("updated_at", VStr "2024-05-01T10:30:00")
  ].

(** A transaction record whose timestamp is no timestamp. *)
Definition transaction_with_bad_timestamp : gmap string value :=
  list_to_map [
    ("transaction_id", VStr "c0ffee12-0000-4000-8000-000000000000");
    ("product_sku", VStr "W1DGET01");
    ("quantity", VInt 4);
    ("transaction_type", VStr "sale");
    ("timestamp", VStr "yesterday");
    ("notes", VStr "")
  ].

End Samples.

Module Stored.

(** The records the service writes for the widget and for a sale of four. *)
Definition widget_record : gmap string value := Product.to_dict (Demo.widget 3).

Definition sale_record : gmap string value :=
  Transaction.to_dict
    (Transaction.mk "W1DGET01" (-4) "sale" "c0ffee13-0000-4000-8000-000000000000"
       (Demo.clock 0) "order 17").

End Stored.

(** ** What the properties speak of *)

(** What a stock operation that went through leaves behind: the product is
    still found under its sku, with the new stock; no other object was
    touched; one transaction, whose id is the uuid drawn, was written to the
    transaction store; one uuid was drawn. *)
Definition stock_moved (w w' : World) (sku : string) (product : ref)
    (stock delta : Z) (kind notes : string) : Prop :=
  dict_get sku (products w') = Some product
  /\ Product.stock_quantity (heap w' product) = stock
  /\ (forall l, l <> product -> heap w' l = heap w l)
  /\ products w' = dict_set (Product.sku (heap w product)) product (products w)
  /\ Product.price (heap w' product) = Product.price (heap w product)
  /\ (exists timestamp,
        transactions w'
        = dict_set (uuids w (draws w))
            (Transaction.mk sku delta kind (uuids w (draws w)) timestamp notes)
            (transactions w))
  /\ uuids w' = uuids w
  /\ draws w' = S (draws w).

(** [price > 0] and [stock_quantity >= 0], for one product and for every
    product the store holds. *)
Definition product_ok (p : Product.t) : Prop :=
  InventoryService.float_gt_0 (Product.price p) = true
  /\ 0 <= Product.stock_quantity p.

Definition store_ok (w : World) : Prop :=
  forall k l, In (k, l) (products w) -> product_ok (heap w l).

(** The product store as Python holds it: one entry per key, one object per
    entry, each product filed under its own sku, every reference
    allocated. *)
Definition store_wf (w : World) : Prop :=
  List.NoDup (List.map fst (products w))
  /\ List.NoDup (List.map snd (products w))
  /\ (forall k l, In (k, l) (products w) -> Product.sku (heap w l) = k)
  /\ (forall k l, In (k, l) (products w) -> (l < next w)%nat).

(** The deltas the transaction store holds for one sku, summed. *)
Definition ledger_sum (sku : string) (d : list (string * Transaction.t)) : Z :=
  List.fold_right
    (fun t acc =>
       if String.eqb (Transaction.product_sku t) sku
       then Transaction.quantity t + acc else acc)
    0 (dict_values d).

(** The stock of the product under a sku, zero when there is none. *)
Definition stock_on_hand (w : World) (sku : string) : Z :=
  match lookup_product w sku with
  | Some p => Product.stock_quantity p
  | None => 0
  end.

(** The ledger accounts for the stock: for every sku, the deltas recorded
    add up to the stock on hand. *)
Definition balanced (w : World) : Prop :=
  forall sku, ledger_sum sku (transactions w) = stock_on_hand w sku.

(** * Properties *)

(** ** Sanity checks of the helpers on concrete inputs *)

Example upper_food : Str.upper "Food" = "FOOD".
Proof. reflexivity. Qed.

Example of_Z_neg : Str.of_Z (-42) = "-42".
Proof. reflexivity. Qed.

Example of_Z_zero : Str.of_Z 0 = "0".
Proof. reflexivity. Qed.

Example isoformat_plain :
  Datetime.isoformat (Datetime.mk 2024 5 1 10 30 0 0) = "2024-05-01T10:30:00".
Proof. reflexivity. Qed.

Example isoformat_micro :
  Datetime.isoformat (Datetime.mk 2024 5 1 10 30 7 1500) = "2024-05-01T10:30:07.001500".
Proof. reflexivity. Qed.

Example fromisoformat_short :
  Datetime.fromisoformat "2024-05-01T10:30" = Some (Datetime.mk 2024 5 1 10 30 0 0).
Proof. reflexivity. Qed.

Example fromisoformat_date_only :
  Datetime.fromisoformat "2024-05-01" = Some (Datetime.mk 2024 5 1 0 0 0 0).
Proof. reflexivity. Qed.

Example fromisoformat_millis :
  Datetime.fromisoformat "2024-05-01 10:30:07.250" = Some (Datetime.mk 2024 5 1 10 30 7 250000).
Proof. reflexivity. Qed.

Example fromisoformat_bad_day : Datetime.fromisoformat "2023-02-29" = None.
Proof. reflexivity. Qed.

Example fromisoformat_garbage : Datetime.fromisoformat "yesterday" = None.
Proof. reflexivity. Qed.

Example refused_strings :
  Datetime.refused "yesterday" = true
  /\ Datetime.refused "" = true
  /\ Datetime.refused "01/05/2024" = true
  /\ Datetime.refused "2024/05/01" = true
  /\ Datetime.refused "2024-05-01T10:30:00+00:00" = false
  /\ Datetime.refused "20240501T103000" = false
  /\ Datetime.refused "2023-02-29" = false.
Proof. repeat split. Qed.

Example fromisoformat_outcomes :
  datetime_fromisoformat (VStr "2024-05-01T10:30")
  = Return (Datetime.mk 2024 5 1 10 30 0 0)
  /\ datetime_fromisoformat (VStr "yesterday")
     = Raise (ValueError "Invalid isoformat string: 'yesterday'")
  /\ datetime_fromisoformat (VStr "2024-05-01T10:30:00+00:00") = Raise (Untyped "datetime")
  /\ datetime_fromisoformat (VInt 20240501)
     = Raise (TypeError "fromisoformat: argument must be str").
Proof. repeat split. Qed.

Example repr_quotes :
  Str.repr "it's" = String Str.double_quote ("it's" ++ String Str.double_quote "")
  /\ Str.repr "a\b" = "'a\\b'"
  /\ Str.repr (String "009" "x") = "'\tx'"
  /\ Str.repr (String "127" "") = "'\x7f'".
Proof. repeat split; vm_compute; reflexivity. Qed.

(** ** Python dicts *)

Section PyDictFacts.

Context {V : Type}.
Implicit Types (d : list (string * V)) (k : string) (v : V).

Lemma dict_get_set k k' v d :
  dict_get k (dict_set k' v d) = if String.eqb k' k then Some v else dict_get k d.
Proof.
  induction d as [|[k0 v0] d IH]; simpl.
  - destruct (String.eqb k' k); reflexivity.
  - destruct (String.eqb k0 k') eqn:E0; simpl.
    + apply String.eqb_eq in E0. subst k0.
      destruct (String.eqb k' k); reflexivity.
    + destruct (String.eqb k0 k) eqn:E1; [|exact IH].
      apply String.eqb_eq in E1. subst k0. rewrite String.eqb_sym, E0. reflexivity.
Qed.

Lemma dict_get_set_same k v d : dict_get k (dict_set k v d) = Some v.
Proof. rewrite dict_get_set, String.eqb_refl. reflexivity. Qed.

Lemma dict_set_fresh k v d : dict_get k d = None -> dict_set k v d = (d ++ [(k, v)])%list.
Proof.
  induction d as [|[k0 v0] d IH]; simpl; [reflexivity|].
  destruct (String.eqb k0 k); [discriminate|].
  intros H. rewrite (IH H). reflexivity.
Qed.

Lemma dict_set_same k v d : dict_get k d = Some v -> dict_set k v d = d.
Proof.
  induction d as [|[k0 v0] d IH]; simpl; [discriminate|].
  destruct (String.eqb k0 k).
  - intros [= ->]. reflexivity.
  - intros H. rewrite (IH H). reflexivity.
Qed.

Lemma dict_get_In k v d : dict_get k d = Some v -> In (k, v) d.
Proof.
  induction d as [|[k0 v0] d IH]; simpl; [discriminate|].
  destruct (String.eqb k0 k) eqn:E.
  - apply String.eqb_eq in E. intros [= ->]. left. congruence.
  - intros H. right. exact (IH H).
Qed.

Lemma dict_set_In k v d x : In x (dict_set k v d) -> In x d \/ snd x = v.
Proof.
  induction d as [|[k0 v0] d IH]; simpl.
  - intros [<-|[]]. right. reflexivity.
  - destruct (String.eqb k0 k); simpl.
    + intros [<-|H]; [right; reflexivity | left; right; exact H].
    + intros [<-|H]; [left; left; reflexivity|].
      destruct (IH H) as [H'|H']; [left; right; exact H' | right; exact H'].
Qed.

Lemma dict_del_In k d x : In x (dict_del k d) -> In x d.
Proof.
  induction d as [|[k0 v0] d IH]; simpl; [tauto|].
  destruct (String.eqb k0 k); simpl; [tauto|].
  intros [<-|H]; [left; reflexivity | right; exact (IH H)].
Qed.

End PyDictFacts.

(** ** The derived status *)

(** C6. The status of a product is decided by its stock quantity alone: two
    products with the same quantity have the same status; a quantity of zero
    or less gives OUT_OF_STOCK, one from 1 to 4 gives LOW_STOCK, one of 5 or
    more gives IN_STOCK; DISCONTINUED is never the answer. *)
Theorem status_decided_by_stock_quantity (p q : Product.t) :
  (Product.stock_quantity p = Product.stock_quantity q ->
     Product.status p = Product.status q)
  /\ (Product.stock_quantity p <= 0 -> Product.status p = OUT_OF_STOCK)
  /\ (0 < Product.stock_quantity p < 5 -> Product.status p = LOW_STOCK)
  /\ (5 <= Product.stock_quantity p -> Product.status p = IN_STOCK)
  /\ Product.status p <> DISCONTINUED.
Proof.
  unfold Product.status.
  repeat split.
  - intros ->. reflexivity.
  - intros H. destruct (Z.leb_spec (Product.stock_quantity p) 0); [reflexivity | lia].
  - intros H. destruct (Z.leb_spec (Product.stock_quantity p) 0); [lia|].
    destruct (Z.ltb_spec (Product.stock_quantity p) 5); [reflexivity | lia].
  - intros H. destruct (Z.leb_spec (Product.stock_quantity p) 0); [lia|].
    destruct (Z.ltb_spec (Product.stock_quantity p) 5); [lia | reflexivity].
  - destruct (Product.stock_quantity p <=? 0); [discriminate|].
    destruct (Product.stock_quantity p <? 5); discriminate.
Qed.

Lemma status_decided_by_stock_quantity_witness :
  Product.status (Demo.widget 0) = OUT_OF_STOCK
  /\ Product.status (Demo.widget 4) = LOW_STOCK
  /\ Product.status (Demo.widget 5) = IN_STOCK.
Proof.
  split; [|split].
  - apply (status_decided_by_stock_quantity (Demo.widget 0) (Demo.widget 0)).
    simpl. lia.
  - apply (status_decided_by_stock_quantity (Demo.widget 4) (Demo.widget 4)).
    simpl. lia.
  - apply (status_decided_by_stock_quantity (Demo.widget 5) (Demo.widget 5)).
    simpl. lia.
Defined.

Example status_of_widgets :
  List.map (fun n => Product.status (Demo.widget n)) [-1; 0; 1; 4; 5; 12]
  = [OUT_OF_STOCK; OUT_OF_STOCK; LOW_STOCK; LOW_STOCK; IN_STOCK; IN_STOCK].
Proof. reflexivity. Qed.

(** ** Running the service *)

Lemma heap_update_same h l assign : heap_update h l assign l = assign (h l).
Proof. unfold heap_update. rewrite Nat.eqb_refl. reflexivity. Qed.

Lemma heap_update_other h l assign l' : l' <> l -> heap_update h l assign l' = h l'.
Proof.
  intros Hne. unfold heap_update.
  destruct (Nat.eqb_spec l' l); [contradiction | reflexivity].
Qed.

(** Unfolds one service call down to the state it leaves. *)
Ltac run_py :=
  cbv beta iota zeta delta
    [bind ret raise lift except_KeyError
     ProductDAO.get ProductDAO.save ProductDAO.delete ProductDAO.get_all
     TransactionDAO.save InventoryService._record_transaction
     Transaction_new Product_new alloc getattr setattr datetime_now uuid4];
  simpl.

(** A removal of more than the stock is refused and nothing at all is
    touched, whatever the sign of the stock. *)
Lemma remove_stock_excess_refused (w : World) sku product quantity notes :
  dict_get sku (products w) = Some product ->
  Product.stock_quantity (heap w product) < quantity ->
  exists message,
    InventoryService.remove_stock sku quantity notes w = (Return (false, message), w).
Proof.
  intros Hget Hlt. unfold InventoryService.remove_stock.
  destruct (quantity <=? 0); [eexists; reflexivity|].
  run_py. rewrite Hget. simpl.
  destruct (Z.ltb_spec (Product.stock_quantity (heap w product)) quantity); [|lia].
  eexists. reflexivity.
Qed.

(** C3. For a stored product with stock [s] (non-negative, as the data
    model has it) and a requested quantity [q > s], [remove_stock] answers
    failure with the insufficient-stock message and leaves the whole state as
    it was: the product keeps stock [s] and its update timestamp (the clock
    is not even read), and no transaction is recorded. *)
Theorem remove_stock_insufficient_leaves_state (w : World) sku product quantity notes :
  dict_get sku (products w) = Some product ->
  0 <= Product.stock_quantity (heap w product) ->
  Product.stock_quantity (heap w product) < quantity ->
  InventoryService.remove_stock sku quantity notes w
  = (Return (false, "Stock insuficiente. Disponible: "
                    ++ Str.of_Z (Product.stock_quantity (heap w product))), w).
Proof.
  intros Hget Hs Hlt. unfold InventoryService.remove_stock.
  destruct (Z.leb_spec quantity 0); [lia|].
  run_py. rewrite Hget. simpl.
  destruct (Z.ltb_spec (Product.stock_quantity (heap w product)) quantity); [|lia].
  reflexivity.
Qed.

Lemma remove_stock_insufficient_leaves_state_witness :
  InventoryService.remove_stock "W1DGET01" 5 "" (Demo.shop 3)
  = (Return (false, "Stock insuficiente. Disponible: 3"), Demo.shop 3).
Proof.
  apply (remove_stock_insufficient_leaves_state (Demo.shop 3) "W1DGET01" 0%nat 5 "").
  - reflexivity.
  - simpl. lia.
  - simpl. lia.
Defined.

(** ** The product store's [save] *)

(** C10. [ProductDAO.save] itself refreshes the update timestamp on
    overwrite: when the product's sku is already a key of the store, the
    product is stored with [updated_at] set to the current time, the reading
    of the clock that [save] takes; when the sku is new, it is stored with
    [updated_at] as given and the clock is not read. Every other field is
    stored as given in both cases, the product is found under its sku
    afterwards, and no other object and no other key is touched. *)
Theorem save_refreshes_updated_at_on_overwrite (w : World) (product : ref) :
  exists w',
    ProductDAO.save product w = (Return true, w')
    /\ dict_get (Product.sku (heap w product)) (products w') = Some product
    /\ Product.updated_at (heap w' product)
       = (if dict_contains (Product.sku (heap w product)) (products w)
          then clock w (ticks w)
          else Product.updated_at (heap w product))
    /\ ticks w'
       = (if dict_contains (Product.sku (heap w product)) (products w)
          then S (ticks w)
          else ticks w)
    /\ heap w' product
       = (if dict_contains (Product.sku (heap w product)) (products w)
          then Product.set_updated_at (clock w (ticks w)) (heap w product)
          else heap w product)
    /\ Product.name (heap w' product) = Product.name (heap w product)
    /\ Product.description (heap w' product) = Product.description (heap w product)
    /\ Product.category (heap w' product) = Product.category (heap w product)
    /\ Product.price (heap w' product) = Product.price (heap w product)
    /\ Product.stock_quantity (heap w' product) = Product.stock_quantity (heap w product)
    /\ Product.sku (heap w' product) = Product.sku (heap w product)
    /\ Product.created_at (heap w' product) = Product.created_at (heap w product)
    /\ (forall l, l <> product -> heap w' l = heap w l)
    /\ (forall k, k <> Product.sku (heap w product) ->
          dict_get k (products w') = dict_get k (products w)).
Proof.
  run_py. destruct (dict_contains (Product.sku (heap w product)) (products w)) eqn:E; simpl.
  - rewrite !heap_update_same. simpl. eexists. split; [reflexivity|]. simpl.
    rewrite heap_update_same, dict_get_set_same. simpl.
    repeat (split; [reflexivity|]). split.
    + intros l Hl. apply heap_update_other. exact Hl.
    + intros k Hk. rewrite dict_get_set.
      destruct (String.eqb_spec (Product.sku (heap w product)) k); congruence.
  - eexists. split; [reflexivity|]. simpl.
    rewrite dict_get_set_same. repeat (split; [reflexivity|]).
    intros k Hk. rewrite dict_get_set.
    destruct (String.eqb_spec (Product.sku (heap w product)) k); congruence.
Qed.

(** The widget, last updated at noon, is saved over itself: its update time
    becomes the reading of the clock. A widget under a sku that is not in
    the store keeps the update time it came with. *)
Lemma save_refreshes_updated_at_on_overwrite_witness :
  (exists w',
     ProductDAO.save 0%nat (Demo.shop 3) = (Return true, w')
     /\ Product.updated_at (heap (Demo.shop 3) 0%nat) = Datetime.mk 2024 1 1 12 0 0 0
     /\ Product.updated_at (heap w' 0%nat) = Datetime.mk 2024 5 1 10 30 0 1
     /\ ticks w' = 1%nat)
  /\ (exists w',
        ProductDAO.save 0%nat Demo.empty = (Return true, w')
        /\ Product.updated_at (heap w' 0%nat) = Datetime.mk 2024 1 1 12 0 0 0
        /\ ticks w' = 0%nat).
Proof.
  split.
  - destruct (save_refreshes_updated_at_on_overwrite (Demo.shop 3) 0%nat)
      as (w' & Hrun & _ & Hup & Hticks & _).
    exists w'. split; [exact Hrun|]. split; [reflexivity|].
    split; [exact Hup | exact Hticks].
  - destruct (save_refreshes_updated_at_on_overwrite Demo.empty 0%nat)
      as (w' & Hrun & _ & Hup & Hticks & _).
    exists w'. split; [exact Hrun|]. split; [exact Hup | exact Hticks].
Defined.

Example save_overwrite_demo :
  let '(_, w') := ProductDAO.save 0%nat (Demo.shop 3) in
  Product.updated_at (heap w' 0%nat) = Demo.clock 0
  /\ Product.updated_at (heap (Demo.shop 3) 0%nat) = Demo.noon.
Proof. split; reflexivity. Qed.

(** ** Stock operations *)

Ltac finish_stock_moved Hget :=
  simpl; rewrite ?heap_update_same; simpl;
  match goal with
  | |- context [dict_contains ?k ?d] => destruct (dict_contains k d)
  end;
  simpl; rewrite ?heap_update_same; simpl;
  (eexists; split; [reflexivity|]);
  unfold stock_moved; simpl; rewrite ?heap_update_same; simpl;
  (split; [rewrite dict_get_set;
           match goal with |- context [String.eqb ?a ?b] => destruct (String.eqb a b) end;
           [reflexivity | exact Hget] |]);
  (split; [reflexivity|]);
  (split; [intros l Hl; rewrite ?heap_update_other by exact Hl; reflexivity|]);
  (split; [reflexivity|]);
  (split; [reflexivity|]);
  (split; [eexists; reflexivity|]);
  split; reflexivity.

Lemma add_stock_run (w : World) sku product quantity notes :
  dict_get sku (products w) = Some product ->
  0 < quantity ->
  exists w',
    InventoryService.add_stock sku quantity notes w
    = (Return (true, "Stock actualizado. Nuevo stock: "
                     ++ Str.of_Z (Product.stock_quantity (heap w product) + quantity)), w')
    /\ stock_moved w w' sku product
         (Product.stock_quantity (heap w product) + quantity) quantity "purchase" notes.
Proof.
  intros Hget Hq. unfold InventoryService.add_stock.
  destruct (Z.leb_spec quantity 0); [lia|].
  run_py. rewrite Hget. finish_stock_moved Hget.
Qed.

Lemma remove_stock_run (w : World) sku product quantity notes :
  dict_get sku (products w) = Some product ->
  0 < quantity ->
  quantity <= Product.stock_quantity (heap w product) ->
  exists w',
    InventoryService.remove_stock sku quantity notes w
    = (Return (true, "Stock actualizado. Nuevo stock: "
                     ++ Str.of_Z (Product.stock_quantity (heap w product) - quantity)), w')
    /\ stock_moved w w' sku product
         (Product.stock_quantity (heap w product) - quantity) (- quantity) "sale" notes.
Proof.
  intros Hget Hq Hs. unfold InventoryService.remove_stock.
  destruct (Z.leb_spec quantity 0); [lia|].
  run_py. rewrite Hget. simpl.
  destruct (Z.ltb_spec (Product.stock_quantity (heap w product)) quantity); [lia|].
  finish_stock_moved Hget.
Qed.

Lemma adjust_stock_run (w : World) sku product new_quantity notes :
  dict_get sku (products w) = Some product ->
  0 <= new_quantity ->
  exists w',
    InventoryService.adjust_stock sku new_quantity notes w
    = (Return (true, "Stock ajustado a " ++ Str.of_Z new_quantity), w')
    /\ stock_moved w w' sku product new_quantity
         (new_quantity - Product.stock_quantity (heap w product)) "adjustment" notes.
Proof.
  intros Hget Hq. unfold InventoryService.adjust_stock.
  destruct (Z.ltb_spec new_quantity 0); [lia|].
  run_py. rewrite Hget. finish_stock_moved Hget.
Qed.

(** C4. For a stored product with quantity [old_q] and any [new_q >= 0],
    [adjust_stock] succeeds, sets the product's stock quantity to [new_q] and
    adds exactly one transaction to the store, of kind adjustment, for this
    sku, with delta [new_q - old_q]; nothing in the statement asks [new_q] to
    differ from [old_q]. The id of the new transaction is the uuid drawn,
    taken not to be the id of a stored transaction. *)
Theorem adjust_stock_records_one_adjustment (w : World) sku product new_quantity notes :
  dict_get sku (products w) = Some product ->
  0 <= new_quantity ->
  dict_get (uuids w (draws w)) (transactions w) = None ->
  exists w' t,
    InventoryService.adjust_stock sku new_quantity notes w
    = (Return (true, "Stock ajustado a " ++ Str.of_Z new_quantity), w')
    /\ dict_get sku (products w') = Some product
    /\ Product.stock_quantity (heap w' product) = new_quantity
    /\ transactions w' = (transactions w ++ [(Transaction.transaction_id t, t)])%list
    /\ Transaction.product_sku t = sku
    /\ Transaction.transaction_type t = "adjustment"
    /\ Transaction.quantity t = new_quantity - Product.stock_quantity (heap w product)
    /\ Transaction.notes t = notes.
Proof.
  intros Hget Hq Hfresh.
  destruct (adjust_stock_run w sku product new_quantity notes Hget Hq)
    as (w' & Hrun & Hfound & Hstock & _ & _ & _ & [timestamp Htx] & _).
  exists w'. eexists. split; [exact Hrun|].
  split; [exact Hfound|]. split; [exact Hstock|].
  split; [rewrite Htx; apply dict_set_fresh; exact Hfresh|].
  repeat split.
Qed.

Lemma adjust_stock_records_one_adjustment_witness :
  exists w' t,
    InventoryService.adjust_stock "W1DGET01" 3 "recount" (Demo.shop 3)
    = (Return (true, "Stock ajustado a 3"), w')
    /\ dict_get "W1DGET01" (products w') = Some 0%nat
    /\ Product.stock_quantity (heap w' 0%nat) = 3
    /\ transactions w' = ([] ++ [(Transaction.transaction_id t, t)])%list
    /\ Transaction.product_sku t = "W1DGET01"
    /\ Transaction.transaction_type t = "adjustment"
    /\ Transaction.quantity t = 3 - 3
    /\ Transaction.notes t = "recount".
Proof.
  apply (adjust_stock_records_one_adjustment (Demo.shop 3) "W1DGET01" 0%nat 3 "recount").
  - reflexivity.
  - lia.
  - reflexivity.
Defined.

(** C5. For a stored product (stock non-negative, as the data model has it)
    and any [q > 0], [add_stock(id, q)] followed at once by
    [remove_stock(id, q)] both succeed, leave the stock quantity at its value
    before the pair, and add exactly two transactions to the store: a
    purchase with delta [+q], then a sale with delta [-q]. The two uuids
    drawn are taken to be new ids, different from each other. *)
Theorem add_then_remove_restores_stock (w : World) sku product quantity notes1 notes2 :
  dict_get sku (products w) = Some product ->
  0 < quantity ->
  0 <= Product.stock_quantity (heap w product) ->
  dict_get (uuids w (draws w)) (transactions w) = None ->
  dict_get (uuids w (S (draws w))) (transactions w) = None ->
  uuids w (draws w) <> uuids w (S (draws w)) ->
  exists w1 w2 message1 message2 t1 t2,
    InventoryService.add_stock sku quantity notes1 w = (Return (true, message1), w1)
    /\ InventoryService.remove_stock sku quantity notes2 w1 = (Return (true, message2), w2)
    /\ dict_get sku (products w2) = Some product
    /\ Product.stock_quantity (heap w2 product) = Product.stock_quantity (heap w product)
    /\ transactions w2
       = (transactions w ++ [(Transaction.transaction_id t1, t1);
                             (Transaction.transaction_id t2, t2)])%list
    /\ (Transaction.product_sku t1 = sku
        /\ Transaction.transaction_type t1 = "purchase"
        /\ Transaction.quantity t1 = quantity)
    /\ (Transaction.product_sku t2 = sku
        /\ Transaction.transaction_type t2 = "sale"
        /\ Transaction.quantity t2 = - quantity).
Proof.
  intros Hget Hq Hs Hfresh1 Hfresh2 Hdiff.
  destruct (add_stock_run w sku product quantity notes1 Hget Hq)
    as (w1 & Hrun1 & Hfound1 & Hstock1 & _ & _ & _ & [ts1 Htx1] & Huuids1 & Hdraws1).
  destruct (remove_stock_run w1 sku product quantity notes2 Hfound1 Hq)
    as (w2 & Hrun2 & Hfound2 & Hstock2 & _ & _ & _ & [ts2 Htx2] & _); [lia|].
  exists w1, w2. do 2 eexists.
  exists (Transaction.mk sku quantity "purchase" (uuids w (draws w)) ts1 notes1).
  exists (Transaction.mk sku (- quantity) "sale" (uuids w (S (draws w))) ts2 notes2).
  split; [exact Hrun1|]. split; [exact Hrun2|]. split; [exact Hfound2|].
  split; [lia|].
  split; [|repeat split].
  rewrite Htx2, Htx1, Huuids1, Hdraws1. simpl.
  rewrite (dict_set_fresh _ _ _ Hfresh1).
  rewrite dict_set_fresh.
  - rewrite <- List.app_assoc. reflexivity.
  - clear - Hfresh2 Hdiff.
    induction (transactions w) as [|[k0 v0] d IH]; simpl in *.
    + destruct (String.eqb_spec (uuids w (draws w)) (uuids w (S (draws w)))); [contradiction | reflexivity].
    + destruct (String.eqb k0 (uuids w (S (draws w)))); [discriminate | exact (IH Hfresh2)].
Qed.

Lemma add_then_remove_restores_stock_witness :
  exists w1 w2 message1 message2 t1 t2,
    InventoryService.add_stock "W1DGET01" 4 "delivery" (Demo.shop 3) = (Return (true, message1), w1)
    /\ InventoryService.remove_stock "W1DGET01" 4 "order" w1 = (Return (true, message2), w2)
    /\ dict_get "W1DGET01" (products w2) = Some 0%nat
    /\ Product.stock_quantity (heap w2 0%nat) = 3
    /\ transactions w2
       = ([] ++ [(Transaction.transaction_id t1, t1); (Transaction.transaction_id t2, t2)])%list
    /\ (Transaction.product_sku t1 = "W1DGET01"
        /\ Transaction.transaction_type t1 = "purchase"
        /\ Transaction.quantity t1 = 4)
    /\ (Transaction.product_sku t2 = "W1DGET01"
        /\ Transaction.transaction_type t2 = "sale"
        /\ Transaction.quantity t2 = - 4).
Proof.
  apply (add_then_remove_restores_stock (Demo.shop 3) "W1DGET01" 0%nat 4 "delivery" "order").
  - reflexivity.
  - lia.
  - simpl. lia.
  - reflexivity.
  - reflexivity.
  - simpl. discriminate.
Defined.

(** ** The low-stock report *)

(** The report reads the store and leaves the state alone; it lists, in
    [get_all] order, the products whose stock is at most the threshold. *)
Lemma get_low_stock_products_run (w : World) (threshold : Z) :
  InventoryService.get_low_stock_products threshold w
  = (Return (List.filter (fun p => Product.stock_quantity (heap w p) <=? threshold)
               (dict_values (products w))), w).
Proof. reflexivity. Qed.

Lemma get_low_stock_products_at_most (w : World) (threshold : Z) (p : ref) :
  In p (List.filter (fun p => Product.stock_quantity (heap w p) <=? threshold)
          (dict_values (products w)))
  <-> In p (dict_values (products w)) /\ Product.stock_quantity (heap w p) <= threshold.
Proof. rewrite List.filter_In, Z.leb_le. reflexivity. Qed.

(** C7, on the code: with threshold 5 the report lists the widget whose
    stock is exactly 5, a product whose stock is not below the threshold
    (and whose status is IN_STOCK). The state is left as it was. *)
Theorem low_stock_report_includes_threshold :
  InventoryService.get_low_stock_products 5 (Demo.shop 5) = (Return [0%nat], Demo.shop 5)
  /\ Product.stock_quantity (heap (Demo.shop 5) 0%nat) = 5
  /\ Product.status (heap (Demo.shop 5) 0%nat) = IN_STOCK.
Proof. repeat split. Qed.

(** ** Validation errors and the state *)

(** [add_product] raises only while validating, before it touches anything. *)
Lemma add_product_raise_leaves_state (w w' : World) name description category price
    stock_quantity e :
  InventoryService.add_product name description category price stock_quantity w
  = (Raise e, w') ->
  w' = w.
Proof.
  unfold InventoryService.add_product. run_py.
  destruct (Category.of_name (Str.upper category)) as [c|]; simpl;
    [|intros [= _ <-]; reflexivity].
  destruct (InventoryService.float_le_0 price); simpl; [intros [= _ <-]; reflexivity|].
  destruct (stock_quantity <? 0); simpl; [intros [= _ <-]; reflexivity|].
  destruct (dict_contains _ _); simpl;
    destruct (stock_quantity >? 0); simpl; discriminate.
Qed.

(** The three queries that validate an enumerated input never touch the
    state, whether they answer or raise. *)
Lemma get_products_by_category_leaves_state (w : World) category :
  snd (InventoryService.get_products_by_category category w) = w.
Proof.
  unfold InventoryService.get_products_by_category, ProductDAO.filter_by_category,
    ProductDAO.filter_values.
  run_py.
  destruct (Category.of_name (Str.upper category)) as [c|]; reflexivity.
Qed.

Lemma get_products_by_status_leaves_state (w : World) status :
  snd (InventoryService.get_products_by_status status w) = w.
Proof.
  unfold InventoryService.get_products_by_status, ProductDAO.filter_by_status,
    ProductDAO.filter_values.
  run_py.
  unfold InventoryStatus_getitem.
  destruct (Status.of_name (Str.upper status)) as [c|]; reflexivity.
Qed.

Lemma get_transactions_by_type_leaves_state (w : World) transaction_type :
  snd (InventoryService.get_transactions_by_type transaction_type w) = w.
Proof.
  unfold InventoryService.get_transactions_by_type, TransactionDAO.get_by_type.
  destruct (negb _); reflexivity.
Qed.

(** [update_product] checks the category and the price one after the
    other, each right before assigning it: when one of them is refused, what
    was assigned before stays assigned. Only the product found under the sku
    is touched, and only its name, description and category; nothing is
    written to the transaction store. *)
Lemma update_product_raise_touches (w w' : World) sku kw e :
  InventoryService.update_product sku kw w = (Raise e, w') ->
  exists product,
    dict_get sku (products w) = Some product
    /\ products w' = products w
    /\ transactions w' = transactions w
    /\ (forall l, l <> product -> heap w' l = heap w l)
    /\ Product.price (heap w' product) = Product.price (heap w product)
    /\ Product.stock_quantity (heap w' product) = Product.stock_quantity (heap w product)
    /\ Product.sku (heap w' product) = Product.sku (heap w product)
    /\ Product.created_at (heap w' product) = Product.created_at (heap w product)
    /\ Product.updated_at (heap w' product) = Product.updated_at (heap w product).
Proof.
  unfold InventoryService.update_product. run_py.
  destruct (dict_get sku (products w)) as [product|] eqn:Hget; simpl; [|discriminate].
  intros H. exists product. split; [reflexivity|]. revert H.
  destruct kw as [[n|] [d|] [c|] [p|]]; simpl;
    repeat match goal with
      | |- context [Category.of_name ?v] => destruct (Category.of_name v); simpl
      | |- context [InventoryService.float_le_0 ?v] =>
          destruct (InventoryService.float_le_0 v); simpl
      | |- context [dict_contains ?k ?d] => destruct (dict_contains k d); simpl
      end;
    try discriminate;
    intros [= _ <-]; simpl; rewrite ?heap_update_same; simpl;
    (repeat split; try reflexivity);
    intros l Hl; rewrite ?heap_update_other by exact Hl; reflexivity.
Qed.

(** With nothing else to assign, a refused category or price leaves the
    state as it was. *)
Lemma update_product_single_field_raise_leaves_state (w w' : World) sku category price e :
  category = None \/ price = None ->
  InventoryService.update_product sku (InventoryService.mk_kwargs None None category price) w
  = (Raise e, w') ->
  w' = w.
Proof.
  unfold InventoryService.update_product. run_py.
  destruct (dict_get sku (products w)) as [product|] eqn:Hget; simpl; [|discriminate].
  intros [-> | ->]; [destruct price as [p|] | destruct category as [c|]]; simpl;
    repeat match goal with
      | |- context [Category.of_name ?v] => destruct (Category.of_name v); simpl
      | |- context [InventoryService.float_le_0 ?v] =>
          destruct (InventoryService.float_le_0 v); simpl
      | |- context [dict_contains ?k ?d] => destruct (dict_contains k d); simpl
      end;
    try discriminate;
    intros [= _ <-]; reflexivity.
Qed.

(** C1, on the code: [update_product] called with a new name and an invalid
    category raises the category error after the name was assigned. The
    stored widget is not as it was before the call: it carries the new
    name. *)
Theorem update_product_invalid_category_keeps_new_name :
  exists w',
    InventoryService.update_product "W1DGET01"
      (InventoryService.mk_kwargs (Some "Gizmo") None (Some "bogus") None) (Demo.shop 3)
    = (Raise (ValueError "Categoría inválida: bogus"), w')
    /\ lookup_product (Demo.shop 3) "W1DGET01" = Some (Demo.widget 3)
    /\ lookup_product w' "W1DGET01" = Some (Product.set_name "Gizmo" (Demo.widget 3))
    /\ Product.name (Demo.widget 3) = "Widget".
Proof. eexists. repeat split. Qed.

(** The same with a valid category next to a price of zero: the category
    is assigned, then the price is refused. *)
Example update_product_invalid_price_keeps_new_category :
  exists w',
    InventoryService.update_product "W1DGET01"
      (InventoryService.mk_kwargs None None (Some "food") (Some (S754_zero false)))
      (Demo.shop 3)
    = (Raise (ValueError "El precio debe ser mayor que cero"), w')
    /\ lookup_product w' "W1DGET01" = Some (Product.set_category FOOD (Demo.widget 3)).
Proof. eexists. repeat split. Qed.

(** ** The product invariant *)

(** The price check [price <= 0] lets through the positive floats and
    NaN, and nothing else. *)
Lemma float_not_le_0 (x : spec_float) :
  InventoryService.float_le_0 x = false ->
  InventoryService.float_gt_0 x = true \/ x = S754_nan.
Proof.
  destruct x as [s|s| |s m e]; simpl; try destruct s; simpl;
    try discriminate; auto.
Qed.

Lemma float_nan_passes_check :
  InventoryService.float_le_0 S754_nan = false
  /\ InventoryService.float_gt_0 S754_nan = false.
Proof. split; reflexivity. Qed.

Lemma store_ok_touch (w w' : World) (product : ref) :
  store_ok w ->
  (forall x, In x (products w') -> In x (products w) \/ snd x = product) ->
  (forall l, l <> product -> heap w' l = heap w l) ->
  product_ok (heap w' product) ->
  store_ok w'.
Proof.
  intros Hok Hin Hheap Hp k l Hkl.
  destruct (Nat.eq_dec l product) as [->|Hne]; [exact Hp|].
  rewrite (Hheap l Hne).
  destruct (Hin _ Hkl) as [H|H]; [exact (Hok k l H) | contradiction].
Qed.

Lemma stock_moved_ok (w w' : World) sku product stock delta kind notes :
  store_ok w -> 0 <= stock ->
  dict_get sku (products w) = Some product ->
  stock_moved w w' sku product stock delta kind notes ->
  store_ok w'.
Proof.
  intros Hok Hs Hget (_ & Hstock & Hheap & Hproducts & Hprice & _).
  apply (store_ok_touch w w' product Hok).
  - intros x Hx. rewrite Hproducts in Hx. exact (dict_set_In _ _ _ _ Hx).
  - exact Hheap.
  - split; [|lia].
    rewrite Hprice. exact (proj1 (Hok _ _ (dict_get_In _ _ _ Hget))).
Qed.

(** The stock operations keep the invariant, whether they go through or
    are refused. *)
Lemma add_stock_keeps_invariant (w : World) sku quantity notes :
  store_ok w -> store_ok (snd (InventoryService.add_stock sku quantity notes w)).
Proof.
  intros Hok.
  destruct (Z.leb_spec quantity 0) as [Hq|Hq].
  - unfold InventoryService.add_stock.
    destruct (Z.leb_spec quantity 0); [exact Hok | lia].
  - destruct (dict_get sku (products w)) as [product|] eqn:Hget.
    + destruct (add_stock_run w sku product quantity notes Hget Hq) as (w' & -> & Hmoved).
      pose proof (proj2 (Hok _ _ (dict_get_In _ _ _ Hget))).
      apply (stock_moved_ok w w' _ _ _ _ _ _ Hok) in Hmoved; [exact Hmoved | lia | exact Hget].
    + unfold InventoryService.add_stock.
      destruct (Z.leb_spec quantity 0); [lia|].
      run_py. rewrite Hget. exact Hok.
Qed.

Lemma remove_stock_keeps_invariant (w : World) sku quantity notes :
  store_ok w -> store_ok (snd (InventoryService.remove_stock sku quantity notes w)).
Proof.
  intros Hok.
  destruct (Z.leb_spec quantity 0) as [Hq|Hq].
  - unfold InventoryService.remove_stock.
    destruct (Z.leb_spec quantity 0); [exact Hok | lia].
  - destruct (dict_get sku (products w)) as [product|] eqn:Hget.
    + destruct (Z.lt_ge_cases (Product.stock_quantity (heap w product)) quantity) as [Hs|Hs].
      * destruct (remove_stock_excess_refused w sku product quantity notes Hget Hs)
          as [message ->].
        exact Hok.
      * destruct (remove_stock_run w sku product quantity notes Hget Hq Hs)
          as (w' & -> & Hmoved).
        apply (stock_moved_ok w w' _ _ _ _ _ _ Hok) in Hmoved; [exact Hmoved | lia | exact Hget].
    + unfold InventoryService.remove_stock.
      destruct (Z.leb_spec quantity 0); [lia|].
      run_py. rewrite Hget. exact Hok.
Qed.

Lemma adjust_stock_keeps_invariant (w : World) sku new_quantity notes :
  store_ok w -> store_ok (snd (InventoryService.adjust_stock sku new_quantity notes w)).
Proof.
  intros Hok.
  destruct (Z.ltb_spec new_quantity 0) as [Hq|Hq].
  - unfold InventoryService.adjust_stock.
    destruct (Z.ltb_spec new_quantity 0); [exact Hok | lia].
  - destruct (dict_get sku (products w)) as [product|] eqn:Hget.
    + destruct (adjust_stock_run w sku product new_quantity notes Hget Hq)
        as (w' & -> & Hmoved).
      apply (stock_moved_ok w w' _ _ _ _ _ _ Hok) in Hmoved; [exact Hmoved | lia | exact Hget].
    + unfold InventoryService.adjust_stock.
      destruct (Z.ltb_spec new_quantity 0); [lia|].
      run_py. rewrite Hget. exact Hok.
Qed.

Lemma delete_product_keeps_invariant (w : World) sku :
  store_ok w -> store_ok (snd (InventoryService.delete_product sku w)).
Proof.
  intros Hok. unfold InventoryService.delete_product. run_py.
  destruct (dict_get sku (products w)) as [product|] eqn:Hget; simpl; [|exact Hok].
  unfold dict_contains.
  destruct (Product.stock_quantity (heap w product) >? 0); simpl; rewrite Hget; simpl;
    intros k l Hkl; apply (Hok k l); exact (dict_del_In _ _ _ Hkl).
Qed.

(** [add_product] and [update_product] keep it for every price but NaN. *)
Lemma add_product_keeps_invariant (w : World) name description category price stock_quantity :
  price <> S754_nan ->
  store_ok w ->
  store_ok (snd (InventoryService.add_product name description category price
                   stock_quantity w)).
Proof.
  intros Hnan Hok. unfold InventoryService.add_product. run_py.
  destruct (Category.of_name (Str.upper category)) as [c|]; simpl; [|exact Hok].
  destruct (InventoryService.float_le_0 price) eqn:Hprice; simpl; [exact Hok|].
  destruct (float_not_le_0 price Hprice) as [Hgt|Heq]; [|contradiction].
  destruct (Z.ltb_spec stock_quantity 0) as [Hs|Hs]; simpl; [exact Hok|].
  rewrite ?heap_update_same. simpl.
  destruct (dict_contains _ _); simpl; rewrite ?heap_update_same; simpl;
    destruct (stock_quantity >? 0); simpl;
    (apply (store_ok_touch w _ (next w) Hok); simpl;
     [ intros x Hx; exact (dict_set_In _ _ _ _ Hx)
     | intros l Hl; rewrite ?heap_update_other by exact Hl; reflexivity
     | rewrite ?heap_update_same; split; simpl; [exact Hgt | exact Hs] ]).
Qed.

Lemma update_product_keeps_invariant (w : World) sku kw :
  InventoryService.kw_price kw <> Some S754_nan ->
  store_ok w ->
  store_ok (snd (InventoryService.update_product sku kw w)).
Proof.
  intros Hnan Hok. unfold InventoryService.update_product. run_py.
  destruct (dict_get sku (products w)) as [product|] eqn:Hget; simpl; [|exact Hok].
  destruct (Hok _ _ (dict_get_In _ _ _ Hget)) as [Hprice Hstock].
  destruct kw as [[n|] [d|] [c|] [p|]]; simpl in *;
    repeat match goal with
      | |- context [Category.of_name ?v] => destruct (Category.of_name v); simpl
      | |- context [InventoryService.float_le_0 ?v] =>
          let E := fresh "E" in
          destruct (InventoryService.float_le_0 v) eqn:E; simpl;
          [|destruct (float_not_le_0 v E) as [?|?]; [|congruence]]
      | |- context [dict_contains ?k ?d] => destruct (dict_contains k d); simpl
      end;
    rewrite ?heap_update_same; simpl;
    (apply (store_ok_touch w _ product Hok); simpl;
     [ intros x Hx; first [ left; exact Hx | exact (dict_set_In _ _ _ _ Hx) ]
     | intros l Hl; rewrite ?heap_update_other by exact Hl; reflexivity
     | rewrite ?heap_update_same; split; simpl; assumption ]).
Qed.

(** C2, on the code: [add_product] takes [float('nan')] for a price (the
    check [price <= 0] is false for it) and stores the product, so a store
    that kept the invariant, here the empty one, no longer does: the stored
    product's price is not greater than zero. *)
Theorem add_product_accepts_nan_price :
  exists w' product p,
    InventoryService.add_product "Gadget" "A gadget" "food" Demo.nan 10 Demo.empty
    = (Return product, w')
    /\ products Demo.empty = []
    /\ lookup_product w' "C0FFEE10" = Some p
    /\ Product.price p = S754_nan
    /\ InventoryService.float_gt_0 (Product.price p) = false.
Proof. do 3 eexists. repeat split. Qed.

(** The same through [update_product]. *)
Example update_product_accepts_nan_price :
  exists w' product,
    InventoryService.update_product "W1DGET01"
      (InventoryService.mk_kwargs None None None (Some Demo.nan)) (Demo.shop 3)
    = (Return (Some product), w')
    /\ option_map Product.price (lookup_product (Demo.shop 3) "W1DGET01") = Some Demo.ten
    /\ option_map Product.price (lookup_product w' "W1DGET01") = Some S754_nan.
Proof. do 2 eexists. repeat split. Qed.

(** ** Timestamps: [fromisoformat] undoes [isoformat] *)

Section Timestamps.

Import Datetime.
Local Open Scope N_scope.

Lemma digit_val_digit (k : N) : k < 10 -> digit_val (digit k) = Some k.
Proof.
  intros Hk. unfold digit_val, digit.
  rewrite N_ascii_embedding by lia.
  destruct (N.leb_spec 48 (48 + k)); [|lia].
  destruct (N.leb_spec (48 + k) 57); [|lia].
  simpl. f_equal. lia.
Qed.

Lemma num2_pad (n : N) :
  num2 (digit (n / 10 mod 10)) (digit (n mod 10)) = Some (n mod 100).
Proof.
  unfold num2.
  rewrite !digit_val_digit by (apply N.mod_lt; lia). simpl.
  f_equal. change 100 with (10 * 10). rewrite N.Div0.mod_mul_r. lia.
Qed.

Lemma days_in_month_le_31 (y m : N) : days_in_month y m <= 31.
Proof.
  destruct (N.le_gt_cases m 12) as [Hm|Hm].
  - assert (H : m = 0 \/ m = 1 \/ m = 2 \/ m = 3 \/ m = 4 \/ m = 5 \/ m = 6 \/ m = 7
                \/ m = 8 \/ m = 9 \/ m = 10 \/ m = 11 \/ m = 12) by lia.
    unfold days_in_month.
    repeat (destruct H as [->|H]; [try destruct (is_leap y); lia|]).
    subst m. lia.
  - unfold days_in_month.
    destruct m as [|p]; [lia|].
    do 4 (destruct p as [p|p|]; try lia).
Qed.

Lemma fromisoformat_isoformat (d : datetime) :
  valid d = true -> fromisoformat (isoformat d) = Some d.
Proof.
  destruct d as [y mo dd hh mi ss us]. intros Hvalid.
  pose proof Hvalid as Hv. unfold valid in Hv. simpl in Hv.
  repeat (apply andb_prop in Hv; destruct Hv as [Hv ?]).
  repeat match goal with
  | H : N.leb _ _ = true |- _ => apply N.leb_le in H
  | H : N.ltb _ _ = true |- _ => apply N.ltb_lt in H
  end.
  pose proof (days_in_month_le_31 y mo) as Hdim.
  unfold isoformat, pad6, pad4, pad2.
  cbn [year month day hour minute second microsecond].
  assert (Hy : 100 * ((y / 100) mod 100) + y mod 100 = y).
  { rewrite (N.mod_small (y / 100)) by (apply N.Div0.div_lt_upper_bound; lia).
    pose proof (N.div_mod y 100). lia. }
  pose proof (N.mod_small mo 100) as Emo.
  pose proof (N.mod_small dd 100) as Edd.
  pose proof (N.mod_small hh 100) as Ehh.
  pose proof (N.mod_small mi 100) as Emi.
  pose proof (N.mod_small ss 100) as Ess.
  destruct (N.eqb_spec us 0) as [->|Hus];
    cbn -[N.div N.modulo N.mul N.add digit num2 checked parse_fraction];
    rewrite !num2_pad;
    cbn -[N.div N.modulo N.mul N.add digit num2 checked parse_fraction];
    rewrite Hy, Emo, Edd, Ehh, Emi, Ess by lia.
  - unfold checked. rewrite Hvalid. reflexivity.
  - assert (Hfrac : 10000 * ((us / 10000) mod 100) + 100 * ((us / 100) mod 100)
                    + us mod 100 = us).
    { rewrite (N.mod_small (us / 10000)) by (apply N.Div0.div_lt_upper_bound; lia).
      pose proof (N.div_mod us 100). pose proof (N.div_mod (us / 100) 100).
      rewrite N.Div0.div_div in *. change (100 * 100) with 10000 in *. lia. }
    cbn -[N.div N.modulo N.mul N.add digit num2 checked].
    rewrite !num2_pad. cbn -[N.div N.modulo N.mul N.add digit num2 checked].
    rewrite Hfrac. unfold checked. rewrite Hvalid. reflexivity.
Qed.

(** Whatever [fromisoformat] reads is a datetime the constructor takes. *)
Lemma fromisoformat_valid (s : string) (d : datetime) :
  fromisoformat s = Some d -> valid d = true.
Proof.
  assert (Hchecked : forall x, checked x = Some d -> valid d = true).
  { intros x. unfold checked. destruct (valid x) eqn:E; [|discriminate].
    intros [= <-]. exact E. }
  unfold fromisoformat.
  repeat (destruct s as [|? s]; [discriminate|]).
  destruct (_ && _)%bool; [|discriminate].
  repeat (match goal with
          | |- context [num2 ?a ?b] => destruct (num2 a b); simpl; [|discriminate]
          end).
  destruct s as [|? s]; [apply Hchecked|].
  destruct (parse_time s) as [[[[? ?] ?] ?]|]; simpl; [apply Hchecked | discriminate].
Qed.

(** The canonical timestamps are the strings [isoformat] writes. *)
Lemma canonical_timestamp_iff (s : string) :
  Layout.is_canonical_timestamp (VStr s) = true
  <-> exists d, valid d = true /\ s = isoformat d.
Proof.
  unfold Layout.is_canonical_timestamp. split.
  - destruct (fromisoformat s) as [d|] eqn:E; [|discriminate].
    intros H. apply String.eqb_eq in H. exists d. split; [|congruence].
    exact (fromisoformat_valid s d E).
  - intros (d & Hd & ->). rewrite (fromisoformat_isoformat d Hd).
    apply String.eqb_refl.
Qed.

End Timestamps.

(** ** Records and mappings *)

Lemma of_name_name (s : string) (c : ProductCategory) :
  Category.of_name s = Some c -> Category.name c = s.
Proof.
  unfold Category.of_name, Category.members. cbn [List.find Category.name].
  repeat (match goal with
          | |- context [String.eqb ?a s] => destruct (String.eqb_spec a s) as [<-|_]
          end; [intros [= <-]; reflexivity|]).
  discriminate.
Qed.

Lemma of_name_of_name (c : ProductCategory) : Category.of_name (Category.name c) = Some c.
Proof. destruct c; reflexivity. Qed.

Ltac split_checks H :=
  repeat (apply andb_prop in H; let H' := fresh "Hc" in destruct H as [H H']).

Ltac unfold_checks :=
  unfold Layout.has, Layout.is_str, Layout.is_int, Layout.is_float, Layout.is_any,
    Layout.is_category, Layout.is_transaction_type, Layout.is_timestamp,
    Layout.is_canonical_timestamp in *.

(** Reads the field [k] off the checks at hand: it is there, with a value
    of the kind asked for. *)
Ltac field k :=
  match goal with
  | H : context [?m !! k] |- _ =>
      let v := fresh "v" in
      let E := fresh "E" in
      destruct (m !! k) as [v|] eqn:E; [destruct v|];
      cbv beta iota in *; try discriminate
  end.

(** Two maps with the same entries, one of them written out. *)
Ltac same_entries Hdom :=
  apply map_eq; intros k; unfold list_to_map; cbn [foldr fst snd];
  repeat match goal with
  | |- <[?f := _]> _ !! k = _ =>
      destruct (decide (f = k)) as [<-|];
      [rewrite lookup_insert_eq; congruence | rewrite lookup_insert_ne by assumption]
  end;
  rewrite lookup_empty; symmetry; apply not_elem_of_dom;
  unfold Layout.only in Hdom; rewrite Hdom;
  unfold Layout.product_fields, Layout.transaction_fields;
  rewrite elem_of_list_to_set, !elem_of_cons, elem_of_nil;
  intuition congruence.

Lemma product_roundtrip (data : gmap string value) :
  Layout.product_well_formed data ->
  Layout.product_canonical data = true ->
  exists p, Product.from_dict data = Return p /\ Product.to_dict p = data.
Proof.
  intros [Hdom Hwf] Hcan.
  unfold Layout.product_complete in Hwf.
  unfold Layout.product_canonical in Hcan.
  split_checks Hwf. split_checks Hcan. unfold_checks.
  field "sku". field "name". field "description". field "category". field "price".
  field "stock_quantity". field "created_at". field "updated_at".
  destruct (Category.of_name _) as [c|] eqn:Ecat; [|discriminate].
  repeat match goal with
  | H : match Datetime.fromisoformat ?s with Some _ => _ | None => _ end = true |- _ =>
      let E := fresh "Ed" in
      destruct (Datetime.fromisoformat s) eqn:E; [|discriminate]
  end.
  repeat match goal with
  | H : String.eqb _ _ = true |- _ => apply String.eqb_eq in H
  end.
  unfold Product.from_dict, getitem, ProductCategory_getitem, datetime_fromisoformat.
  repeat match goal with
  | H : data !! _ = Some _ |- _ => rewrite H
  end.
  cbn [obind]. rewrite Ecat. cbn [obind].
  repeat match goal with
  | H : Datetime.fromisoformat _ = Some _ |- _ => rewrite H; clear H
  end.
  cbn [obind as_str as_int as_float].
  eexists. split; [reflexivity|].
  unfold Product.to_dict.
  cbn [Product.sku Product.name Product.description Product.category Product.price
       Product.stock_quantity Product.created_at Product.updated_at].
  rewrite (of_name_name _ _ Ecat).
  repeat match goal with
  | H : Datetime.isoformat _ = _ |- _ => rewrite H; clear H
  end.
  same_entries Hdom.
Qed.

Lemma transaction_roundtrip (data : gmap string value) :
  Layout.transaction_well_formed data ->
  Layout.transaction_canonical data = true ->
  exists t, Transaction.from_dict data = Return t /\ Transaction.to_dict t = data.
Proof.
  intros [Hdom Hwf] Hcan.
  unfold Layout.transaction_complete in Hwf.
  unfold Layout.transaction_canonical in Hcan.
  split_checks Hwf. unfold_checks.
  field "transaction_id". field "product_sku". field "quantity".
  field "transaction_type". field "timestamp". field "notes".
  repeat match goal with
  | H : match Datetime.fromisoformat ?s with Some _ => _ | None => _ end = true |- _ =>
      let E := fresh "Ed" in
      destruct (Datetime.fromisoformat s) eqn:E; [|discriminate]
  end.
  repeat match goal with
  | H : String.eqb _ _ = true |- _ => apply String.eqb_eq in H
  end.
  unfold Transaction.from_dict, Transaction.get_notes, getitem, datetime_fromisoformat.
  repeat match goal with
  | H : data !! _ = Some _ |- _ => rewrite H
  end.
  cbn [obind].
  repeat match goal with
  | H : Datetime.fromisoformat _ = Some _ |- _ => rewrite H; clear H
  end.
  cbn [obind as_str as_int as_float].
  eexists. split; [reflexivity|].
  unfold Transaction.to_dict.
  cbn [Transaction.product_sku Transaction.quantity Transaction.transaction_type
       Transaction.transaction_id Transaction.timestamp Transaction.notes].
  repeat match goal with
  | H : Datetime.isoformat _ = _ |- _ => rewrite H; clear H
  end.
  same_entries Hdom.
Qed.

(** What the service writes, it reads back: the records of [to_dict] are
    well formed, with canonical timestamps, whenever the timestamps are
    datetimes. *)
Lemma product_from_dict_to_dict (p : Product.t) :
  Datetime.valid (Product.created_at p) = true ->
  Datetime.valid (Product.updated_at p) = true ->
  Product.from_dict (Product.to_dict p) = Return p.
Proof.
  intros Hc Hu. destruct p as [n d c pr q s ca ua]; simpl in Hc, Hu.
  unfold Product.from_dict, getitem, Product.to_dict, list_to_map. cbn [foldr fst snd].
  cbn [Product.sku Product.name Product.description Product.category Product.price
       Product.stock_quantity Product.created_at Product.updated_at].
  repeat (rewrite ?lookup_insert_eq; rewrite ?lookup_insert_ne by discriminate;
          cbn [obind]).
  unfold ProductCategory_getitem. rewrite of_name_of_name. cbn [obind].
  unfold datetime_fromisoformat.
  repeat (rewrite ?lookup_insert_eq; rewrite ?lookup_insert_ne by discriminate;
          cbn [obind]).
  rewrite (fromisoformat_isoformat ca Hc). cbn [obind].
  repeat (rewrite ?lookup_insert_eq; rewrite ?lookup_insert_ne by discriminate;
          cbn [obind]).
  rewrite (fromisoformat_isoformat ua Hu). cbn [obind].
  reflexivity.
Qed.

(** C8, as amended. A well-formed product mapping (exactly the eight
    fields of the layout, each of its kind, the category an enumeration
    name, the timestamps readable) whose timestamps are written the way
    [isoformat] writes them converts to a record, and the record converts
    back to the very same mapping; likewise for a well-formed transaction
    mapping with its six fields. *)
Theorem to_dict_from_dict_canonical :
  (forall data : gmap string value,
     Layout.product_well_formed data ->
     Layout.product_canonical data = true ->
     exists p, Product.from_dict data = Return p /\ Product.to_dict p = data)
  /\ (forall data : gmap string value,
        Layout.transaction_well_formed data ->
        Layout.transaction_canonical data = true ->
        exists t, Transaction.from_dict data = Return t /\ Transaction.to_dict t = data).
Proof. split; [exact product_roundtrip | exact transaction_roundtrip]. Qed.

Lemma to_dict_from_dict_canonical_witness :
  (exists p, Product.from_dict Stored.widget_record = Return p
             /\ Product.to_dict p = Stored.widget_record)
  /\ (exists t, Transaction.from_dict Stored.sale_record = Return t
                /\ Transaction.to_dict t = Stored.sale_record).
Proof.
  split.
  - apply (proj1 to_dict_from_dict_canonical Stored.widget_record).
    + split; [unfold Layout.only; vm_compute; reflexivity | vm_compute; reflexivity].
    + vm_compute. reflexivity.
  - apply (proj2 to_dict_from_dict_canonical Stored.sale_record).
    + split; [unfold Layout.only; vm_compute; reflexivity | vm_compute; reflexivity].
    + vm_compute. reflexivity.
Defined.

(** C8, as stated, fails. The mapping [Samples.short_timestamp_product]
    has exactly the fields of the layout, each with a valid value (its
    [created_at], "2024-05-01T10:30", is a valid ISO-8601 timestamp that
    [fromisoformat] reads); it converts to a record, and the record converts
    back to a different mapping, whose [created_at] is
    "2024-05-01T10:30:00". The mapping [Samples.product_with_extra_field]
    has every field of the layout and one more, which the conversion
    drops. *)
Lemma short_timestamp_not_restored :
  (Layout.product_well_formed Samples.short_timestamp_product
   /\ exists p,
        Product.from_dict Samples.short_timestamp_product = Return p
        /\ Samples.short_timestamp_product !! "created_at" = Some (VStr "2024-05-01T10:30")
        /\ Product.to_dict p !! "created_at" = Some (VStr "2024-05-01T10:30:00")
        /\ Product.to_dict p <> Samples.short_timestamp_product)
  /\ (Layout.product_complete Samples.product_with_extra_field = true
      /\ Layout.product_canonical Samples.product_with_extra_field = true
      /\ exists p,
           Product.from_dict Samples.product_with_extra_field = Return p
           /\ Samples.product_with_extra_field !! "colour" = Some (VStr "red")
           /\ Product.to_dict p !! "colour" = None
           /\ Product.to_dict p <> Samples.product_with_extra_field).
Proof.
  split.
  - split.
    + split; [unfold Layout.only; vm_compute; reflexivity | vm_compute; reflexivity].
    + eexists. split; [vm_compute; reflexivity|].
      split; [reflexivity|]. split; [reflexivity|].
      intros Heq. apply (f_equal (fun m : gmap string value => m !! "created_at")) in Heq.
      vm_compute in Heq. discriminate.
  - split; [vm_compute; reflexivity|]. split; [vm_compute; reflexivity|].
    eexists. split; [vm_compute; reflexivity|].
    split; [reflexivity|]. split; [reflexivity|].
    intros Heq. apply (f_equal (fun m : gmap string value => m !! "colour")) in Heq.
    vm_compute in Heq. discriminate.
Qed.

(** ** What [from_dict] refuses *)

Ltac refused := eexists; split; [reflexivity | exact I].






(** The annotations are looked at last, and a value of another kind is
    no exception of Python's. *)
Lemma as_str_cases (field : string) (v : value) :
  (exists s, as_str field v = Return s) \/ as_str field v = Raise (Untyped field).
Proof. destruct v; simpl; eauto. Qed.

Lemma as_int_cases (field : string) (v : value) :
  (exists n, as_int field v = Return n) \/ as_int field v = Raise (Untyped field).
Proof. destruct v; simpl; eauto. Qed.

Lemma as_float_cases (field : string) (v : value) :
  (exists x, as_float field v = Return x) \/ as_float field v = Raise (Untyped field).
Proof. destruct v; simpl; eauto. Qed.

Ltac not_refused :=
  intros (e & He & Hpy); destruct e; try discriminate He; exact Hpy.

(** A readable mapping is never refused; at worst its values are of kinds
    the typed records do not hold. *)
Lemma product_readable_not_rejected (data : gmap string value) :
  Layout.product_readable data = true -> ~ rejected (Product.from_dict data).
Proof.
  intros Hok. unfold Layout.product_readable in Hok. split_checks Hok. unfold_checks.
  unfold Product.from_dict, getitem, ProductCategory_getitem, datetime_fromisoformat.
  destruct (data !! "name") as [v1|]; [|discriminate].
  destruct (data !! "description") as [v2|]; [|discriminate].
  destruct (data !! "category") as [[| | | |s3]|]; try discriminate.
  cbn [obind].
  destruct (Category.of_name s3) as [c|]; [|discriminate].
  destruct (data !! "price") as [v4|]; [|discriminate].
  destruct (data !! "stock_quantity") as [v5|]; [|discriminate].
  destruct (data !! "sku") as [v6|]; [|discriminate].
  destruct (data !! "created_at") as [[| | | |s7]|]; try discriminate.
  cbn [obind].
  destruct (Datetime.fromisoformat s7) as [d7|]; [|discriminate].
  destruct (data !! "updated_at") as [[| | | |s8]|]; try discriminate.
  cbn [obind].
  destruct (Datetime.fromisoformat s8) as [d8|]; [|discriminate].
  cbn [obind].
  destruct (as_str_cases "name" v1) as [[x1 ->]| ->]; cbn [obind]; [|not_refused].
  destruct (as_str_cases "description" v2) as [[x2 ->]| ->]; cbn [obind]; [|not_refused].
  destruct (as_float_cases "price" v4) as [[x4 ->]| ->]; cbn [obind]; [|not_refused].
  destruct (as_int_cases "stock_quantity" v5) as [[x5 ->]| ->]; cbn [obind]; [|not_refused].
  destruct (as_str_cases "sku" v6) as [[x6 ->]| ->]; cbn [obind]; [|not_refused].
  intros (e & He & _). discriminate He.
Qed.



Example from_dict_errors :
  Product.from_dict Samples.product_without_price = Raise (KeyError (VStr "price"))
  /\ Transaction.from_dict Samples.transaction_with_bad_timestamp
     = Raise (ValueError "Invalid isoformat string: 'yesterday'").
Proof. split; vm_compute; reflexivity. Qed.


(** ** A day at the shop *)

(** A product is added with ten units, eight are sold, and a sale of five
    more is refused. *)
Example widget_scenario :
  let kinds w :=
    List.map (fun t => (Transaction.transaction_type (snd t), Transaction.quantity (snd t)))
      (transactions w) in
  let status w := option_map Product.status (lookup_product w "C0FFEE10") in
  let '(_, w1) :=
    InventoryService.add_product "Widget" "A widget" "other" Demo.ten 10 Demo.empty in
  let '(r2, w2) := InventoryService.remove_stock "C0FFEE10" 8 "" w1 in
  let '(r3, w3) := InventoryService.remove_stock "C0FFEE10" 5 "" w2 in
  (status w1, kinds w1) = (Some IN_STOCK, [("purchase", 10)])
  /\ (r2, status w2, kinds w2)
     = (Return (true, "Stock actualizado. Nuevo stock: 2"), Some LOW_STOCK,
        [("purchase", 10); ("sale", -8)])
  /\ (r3, status w3, kinds w3)
     = (Return (false, "Stock insuficiente. Disponible: 2"), Some LOW_STOCK,
        [("purchase", 10); ("sale", -8)]).
Proof. vm_compute. repeat split. Qed.

(** * Further properties of the code *)

(** ** Adding a product *)

(** X1. With a category that names a member of the enumeration in any
    case, a price the check lets through and a stock that is not negative,
    [add_product] answers a new product, stored under its generated sku (the
    first eight characters of a uuid, in upper case) with the fields as given
    and the first clock reading as creation time; the entries under the other
    skus and the other objects are as before. *)
Theorem add_product_stores_product (w : World) name description category c price
    stock_quantity :
  Category.of_name (Str.upper category) = Some c ->
  InventoryService.float_le_0 price = false ->
  0 <= stock_quantity ->
  exists w',
    InventoryService.add_product name description category price stock_quantity w
    = (Return (next w), w')
    /\ dict_get (Str.upper (Str.take 8 (uuids w (draws w)))) (products w') = Some (next w)
    /\ heap w' (next w)
       = Product.mk name description c price stock_quantity
           (Str.upper (Str.take 8 (uuids w (draws w)))) (clock w (ticks w))
           (if dict_contains (Str.upper (Str.take 8 (uuids w (draws w)))) (products w)
            then clock w (S (S (ticks w))) else clock w (S (ticks w)))
    /\ (forall k, k <> Str.upper (Str.take 8 (uuids w (draws w))) ->
          dict_get k (products w') = dict_get k (products w))
    /\ (forall l, l <> next w -> heap w' l = heap w l).
Proof.
  intros Hcat Hprice Hstock. unfold InventoryService.add_product. run_py.
  rewrite Hcat. simpl. rewrite Hprice. simpl.
  destruct (Z.ltb_spec stock_quantity 0); [lia|]. simpl.
  rewrite ?heap_update_same. simpl.
  destruct (dict_contains _ _); simpl; rewrite ?heap_update_same; simpl;
    destruct (stock_quantity >? 0); simpl;
    (eexists; split; [reflexivity|]; simpl; rewrite ?heap_update_same; simpl;
     split; [apply dict_get_set_same|];
     split; [reflexivity|];
     split; [intros k Hk; rewrite dict_get_set;
             destruct (String.eqb_spec (Str.upper (Str.take 8 (uuids w (draws w)))) k);
             [congruence | reflexivity]|];
     intros l Hl; rewrite ?heap_update_other by exact Hl; reflexivity).
Qed.

Lemma add_product_stores_product_witness :
  exists w',
    InventoryService.add_product "Gadget" "A gadget" "Food" Demo.ten 0 (Demo.shop 3)
    = (Return 1%nat, w')
    /\ dict_get "C0FFEE10" (products w') = Some 1%nat
    /\ heap w' 1%nat
       = Product.mk "Gadget" "A gadget" FOOD Demo.ten 0 "C0FFEE10" (Demo.clock 0) (Demo.clock 1)
    /\ (forall k, k <> "C0FFEE10" -> dict_get k (products w') = dict_get k (products (Demo.shop 3)))
    /\ (forall l, l <> 1%nat -> heap w' l = heap (Demo.shop 3) l).
Proof.
  apply (add_product_stores_product (Demo.shop 3) "Gadget" "A gadget" "Food" FOOD Demo.ten 0).
  - reflexivity.
  - reflexivity.
  - lia.
Defined.

(** X2. [add_product] records the initial stock as one purchase of the
    whole quantity, noted "Inventario inicial para <name>", under the new
    sku; with an initial stock of zero it records nothing. The id of the
    transaction is the second uuid drawn, taken not to be in the store
    yet. *)
Theorem add_product_initial_purchase (w : World) name description category c price
    stock_quantity :
  Category.of_name (Str.upper category) = Some c ->
  InventoryService.float_le_0 price = false ->
  0 <= stock_quantity ->
  dict_get (uuids w (S (draws w))) (transactions w) = None ->
  exists timestamp,
    transactions
      (snd (InventoryService.add_product name description category price stock_quantity w))
    = if stock_quantity =? 0 then transactions w
      else (transactions w
            ++ [(uuids w (S (draws w)),
                 Transaction.mk (Str.upper (Str.take 8 (uuids w (draws w))))
                   stock_quantity "purchase" (uuids w (S (draws w))) timestamp
                   ("Inventario inicial para " ++ name))])%list.
Proof.
  intros Hcat Hprice Hstock Hfresh. unfold InventoryService.add_product. run_py.
  rewrite Hcat. simpl. rewrite Hprice. simpl.
  destruct (Z.ltb_spec stock_quantity 0); [lia|]. simpl.
  rewrite ?heap_update_same. simpl.
  destruct (Z.eqb_spec stock_quantity 0) as [->|Hne].
  - destruct (dict_contains _ _); simpl; exists (clock w 0%nat); reflexivity.
  - destruct (Z.gtb_spec stock_quantity 0); [|lia].
    destruct (dict_contains _ _); simpl; rewrite ?heap_update_same; simpl;
      rewrite (dict_set_fresh _ _ _ Hfresh); eexists; reflexivity.
Qed.

Lemma add_product_initial_purchase_witness :
  exists timestamp,
    transactions
      (snd (InventoryService.add_product "Gadget" "A gadget" "Food" Demo.ten 6 (Demo.shop 3)))
    = if 6 =? 0 then transactions (Demo.shop 3)
      else (transactions (Demo.shop 3)
            ++ [(Demo.uuids 1,
                 Transaction.mk "C0FFEE10" 6 "purchase" (Demo.uuids 1) timestamp
                   ("Inventario inicial para " ++ "Gadget"))])%list.
Proof.
  apply (add_product_initial_purchase (Demo.shop 3) "Gadget" "A gadget" "Food" FOOD Demo.ten 6).
  - reflexivity.
  - reflexivity.
  - lia.
  - reflexivity.
Defined.

(** X3. [add_product] raises a [ValueError] and leaves the state as it was
    when the category, an ASCII string, names no member of the enumeration
    once in upper case, when the price satisfies [price <= 0], or when the
    stock is negative. *)
Theorem add_product_refuses_invalid (w : World) name description category price
    stock_quantity :
  (Str.is_ascii category = true /\ Category.of_name (Str.upper category) = None)
  \/ InventoryService.float_le_0 price = true
  \/ stock_quantity < 0 ->
  exists message,
    InventoryService.add_product name description category price stock_quantity w
    = (Raise (ValueError message), w).
Proof.
  intros Hbad. unfold InventoryService.add_product. run_py.
  destruct (Category.of_name (Str.upper category)) as [c|]; simpl; [|eexists; reflexivity].
  destruct (InventoryService.float_le_0 price); simpl; [eexists; reflexivity|].
  destruct (Z.ltb_spec stock_quantity 0); simpl; [eexists; reflexivity|].
  destruct Hbad as [[_ H0]|[H0|H0]]; [discriminate | discriminate | lia].
Qed.

Lemma add_product_refuses_invalid_witness :
  (exists message,
     InventoryService.add_product "Gadget" "A gadget" "gadgets" Demo.ten 1 (Demo.shop 3)
     = (Raise (ValueError message), Demo.shop 3))
  /\ (exists message,
        InventoryService.add_product "Gadget" "A gadget" "food" (S754_zero false) 1
          (Demo.shop 3)
        = (Raise (ValueError message), Demo.shop 3)).
Proof.
  split.
  - apply (add_product_refuses_invalid (Demo.shop 3)).
    left. split; reflexivity.
  - apply (add_product_refuses_invalid (Demo.shop 3)).
    right. left. reflexivity.
Defined.

(** X4. An operation on a sku that is not in the store fails and leaves the
    state as it was: [update_product] and [get_product] answer [None],
    [delete_product] answers [False], and the three stock operations answer
    failure. *)
Theorem unknown_sku_changes_nothing (w : World) sku kw quantity notes :
  dict_get sku (products w) = None ->
  InventoryService.update_product sku kw w = (Return None, w)
  /\ InventoryService.get_product sku w = (Return None, w)
  /\ InventoryService.delete_product sku w = (Return false, w)
  /\ (exists message,
        InventoryService.add_stock sku quantity notes w = (Return (false, message), w))
  /\ (exists message,
        InventoryService.remove_stock sku quantity notes w = (Return (false, message), w))
  /\ (exists message,
        InventoryService.adjust_stock sku quantity notes w = (Return (false, message), w)).
Proof.
  intros Hget.
  unfold InventoryService.update_product, InventoryService.get_product,
    InventoryService.delete_product, InventoryService.add_stock,
    InventoryService.remove_stock, InventoryService.adjust_stock.
  run_py. rewrite Hget. simpl.
  repeat split.
  - destruct (quantity <=? 0); [eexists; reflexivity|].
    rewrite Hget. eexists. reflexivity.
  - destruct (quantity <=? 0); [eexists; reflexivity|].
    rewrite Hget. eexists. reflexivity.
  - destruct (quantity <? 0); [eexists; reflexivity|].
    rewrite Hget. eexists. reflexivity.
Qed.

Lemma unknown_sku_changes_nothing_witness :
  InventoryService.update_product "N0SUCH01" (InventoryService.mk_kwargs (Some "x") None None None)
    (Demo.shop 3) = (Return None, Demo.shop 3)
  /\ InventoryService.get_product "N0SUCH01" (Demo.shop 3) = (Return None, Demo.shop 3)
  /\ InventoryService.delete_product "N0SUCH01" (Demo.shop 3) = (Return false, Demo.shop 3)
  /\ (exists message,
        InventoryService.add_stock "N0SUCH01" 2 "" (Demo.shop 3)
        = (Return (false, message), Demo.shop 3))
  /\ (exists message,
        InventoryService.remove_stock "N0SUCH01" 2 "" (Demo.shop 3)
        = (Return (false, message), Demo.shop 3))
  /\ (exists message,
        InventoryService.adjust_stock "N0SUCH01" 2 "" (Demo.shop 3)
        = (Return (false, message), Demo.shop 3)).
Proof.
  apply (unknown_sku_changes_nothing (Demo.shop 3) "N0SUCH01"). reflexivity.
Defined.

(** X5. The stock operations look at the quantity before they look for
    the product: [add_stock] and [remove_stock] refuse a quantity of zero or
    less, and [adjust_stock] a negative one, with the quantity message and
    no change of state, whether or not the sku is in the store. A new
    quantity of zero is not refused by [adjust_stock]. *)
Theorem stock_operations_check_quantity_first (w : World) sku quantity notes :
  (quantity <= 0 ->
     InventoryService.add_stock sku quantity notes w
     = (Return (false, "La cantidad debe ser mayor que cero"), w)
     /\ InventoryService.remove_stock sku quantity notes w
        = (Return (false, "La cantidad debe ser mayor que cero"), w))
  /\ (quantity < 0 ->
        InventoryService.adjust_stock sku quantity notes w
        = (Return (false, "La cantidad no puede ser negativa"), w)).
Proof.
  unfold InventoryService.add_stock, InventoryService.remove_stock,
    InventoryService.adjust_stock.
  split.
  - intros Hq. destruct (Z.leb_spec quantity 0); [split; reflexivity | lia].
  - intros Hq. destruct (Z.ltb_spec quantity 0); [reflexivity | lia].
Qed.

Lemma stock_operations_check_quantity_first_witness :
  (InventoryService.add_stock "N0SUCH01" 0 "" (Demo.shop 3)
   = (Return (false, "La cantidad debe ser mayor que cero"), Demo.shop 3)
   /\ InventoryService.remove_stock "N0SUCH01" 0 "" (Demo.shop 3)
      = (Return (false, "La cantidad debe ser mayor que cero"), Demo.shop 3))
  /\ InventoryService.adjust_stock "W1DGET01" (-1) "" (Demo.shop 3)
     = (Return (false, "La cantidad no puede ser negativa"), Demo.shop 3).
Proof.
  split.
  - apply (proj1 (stock_operations_check_quantity_first (Demo.shop 3) "N0SUCH01" 0 "")). lia.
  - apply (proj2 (stock_operations_check_quantity_first (Demo.shop 3) "W1DGET01" (-1) "")). lia.
Defined.

(** ** Stock operations that go through *)

(** X6. For a stored product and a quantity [q > 0], [add_stock] succeeds,
    raises the stock by [q] and adds one purchase of [+q] for this sku, with
    the caller's notes, to the transaction store (the uuid drawn is taken to
    be new). *)
Theorem add_stock_adds_and_records (w : World) sku product quantity notes :
  dict_get sku (products w) = Some product ->
  0 < quantity ->
  dict_get (uuids w (draws w)) (transactions w) = None ->
  exists w' timestamp,
    InventoryService.add_stock sku quantity notes w
    = (Return (true, "Stock actualizado. Nuevo stock: "
                     ++ Str.of_Z (Product.stock_quantity (heap w product) + quantity)), w')
    /\ dict_get sku (products w') = Some product
    /\ Product.stock_quantity (heap w' product)
       = Product.stock_quantity (heap w product) + quantity
    /\ transactions w'
       = (transactions w
          ++ [(uuids w (draws w),
               Transaction.mk sku quantity "purchase" (uuids w (draws w)) timestamp notes)])%list.
Proof.
  intros Hget Hq Hfresh.
  destruct (add_stock_run w sku product quantity notes Hget Hq)
    as (w' & Hrun & Hfound & Hstock & _ & _ & _ & [timestamp Htx] & _).
  exists w', timestamp. split; [exact Hrun|]. split; [exact Hfound|].
  split; [exact Hstock|].
  rewrite Htx. apply dict_set_fresh. exact Hfresh.
Qed.

Lemma add_stock_adds_and_records_witness :
  exists w' timestamp,
    InventoryService.add_stock "W1DGET01" 4 "delivery" (Demo.shop 3)
    = (Return (true, "Stock actualizado. Nuevo stock: " ++ Str.of_Z (3 + 4)), w')
    /\ dict_get "W1DGET01" (products w') = Some 0%nat
    /\ Product.stock_quantity (heap w' 0%nat) = 3 + 4
    /\ transactions w'
       = ([] ++ [(Demo.uuids 0,
                  Transaction.mk "W1DGET01" 4 "purchase" (Demo.uuids 0) timestamp "delivery")])%list.
Proof.
  apply (add_stock_adds_and_records (Demo.shop 3) "W1DGET01" 0%nat 4 "delivery").
  - reflexivity.
  - lia.
  - reflexivity.
Defined.

(** X7. For a stored product with stock [s] and a quantity [0 < q <= s],
    the whole stock included, [remove_stock] succeeds, lowers the stock to
    [s - q] and adds one sale of [-q] for this sku to the transaction store
    (the uuid drawn is taken to be new). *)
Theorem remove_stock_removes_and_records (w : World) sku product quantity notes :
  dict_get sku (products w) = Some product ->
  0 < quantity ->
  quantity <= Product.stock_quantity (heap w product) ->
  dict_get (uuids w (draws w)) (transactions w) = None ->
  exists w' timestamp,
    InventoryService.remove_stock sku quantity notes w
    = (Return (true, "Stock actualizado. Nuevo stock: "
                     ++ Str.of_Z (Product.stock_quantity (heap w product) - quantity)), w')
    /\ dict_get sku (products w') = Some product
    /\ Product.stock_quantity (heap w' product)
       = Product.stock_quantity (heap w product) - quantity
    /\ transactions w'
       = (transactions w
          ++ [(uuids w (draws w),
               Transaction.mk sku (- quantity) "sale" (uuids w (draws w)) timestamp notes)])%list.
Proof.
  intros Hget Hq Hs Hfresh.
  destruct (remove_stock_run w sku product quantity notes Hget Hq Hs)
    as (w' & Hrun & Hfound & Hstock & _ & _ & _ & [timestamp Htx] & _).
  exists w', timestamp. split; [exact Hrun|]. split; [exact Hfound|].
  split; [exact Hstock|].
  rewrite Htx. apply dict_set_fresh. exact Hfresh.
Qed.

Lemma remove_stock_removes_and_records_witness :
  exists w' timestamp,
    InventoryService.remove_stock "W1DGET01" 3 "last ones" (Demo.shop 3)
    = (Return (true, "Stock actualizado. Nuevo stock: " ++ Str.of_Z (3 - 3)), w')
    /\ dict_get "W1DGET01" (products w') = Some 0%nat
    /\ Product.stock_quantity (heap w' 0%nat) = 3 - 3
    /\ transactions w'
       = ([] ++ [(Demo.uuids 0,
                  Transaction.mk "W1DGET01" (- 3) "sale" (Demo.uuids 0) timestamp "last ones")])%list.
Proof.
  apply (remove_stock_removes_and_records (Demo.shop 3) "W1DGET01" 0%nat 3 "last ones").
  - reflexivity.
  - lia.
  - simpl. lia.
  - reflexivity.
Defined.

(** Closes a goal about the fields of the objects after a run. *)
Ltac frame_fields :=
  simpl; unfold heap_update;
  repeat match goal with
  | |- context [Nat.eqb ?a ?b] => destruct (Nat.eqb_spec a b); subst; simpl
  end;
  repeat split; try reflexivity; try congruence.

Lemma stock_operation_frame (w : World) (product l : ref) (stock : Z) (now1 now2 : datetime)
    (refresh : bool) :
  let h :=
    (if refresh
     then heap_update
            (heap_update (heap_update (heap w) product (Product.set_stock_quantity stock))
               product (Product.set_updated_at now1))
            product (Product.set_updated_at now2)
     else heap_update (heap_update (heap w) product (Product.set_stock_quantity stock))
            product (Product.set_updated_at now1)) in
  Product.name (h l) = Product.name (heap w l)
  /\ Product.description (h l) = Product.description (heap w l)
  /\ Product.category (h l) = Product.category (heap w l)
  /\ Product.price (h l) = Product.price (heap w l)
  /\ Product.sku (h l) = Product.sku (heap w l)
  /\ Product.created_at (h l) = Product.created_at (heap w l)
  /\ (l <> product -> h l = heap w l).
Proof. destruct refresh; frame_fields. Qed.

Lemma stock_operations_frame (w : World) sku quantity notes (l : ref) :
  let untouched (w' : World) :=
    next w' = next w
    /\ Product.name (heap w' l) = Product.name (heap w l)
    /\ Product.description (heap w' l) = Product.description (heap w l)
    /\ Product.category (heap w' l) = Product.category (heap w l)
    /\ Product.price (heap w' l) = Product.price (heap w l)
    /\ Product.sku (heap w' l) = Product.sku (heap w l)
    /\ Product.created_at (heap w' l) = Product.created_at (heap w l)
    /\ (dict_get sku (products w) <> Some l -> heap w' l = heap w l) in
  untouched (snd (InventoryService.add_stock sku quantity notes w))
  /\ untouched (snd (InventoryService.remove_stock sku quantity notes w))
  /\ untouched (snd (InventoryService.adjust_stock sku quantity notes w)).
Proof.
  assert (Hsame : next w = next w
                  /\ Product.name (heap w l) = Product.name (heap w l)
                  /\ Product.description (heap w l) = Product.description (heap w l)
                  /\ Product.category (heap w l) = Product.category (heap w l)
                  /\ Product.price (heap w l) = Product.price (heap w l)
                  /\ Product.sku (heap w l) = Product.sku (heap w l)
                  /\ Product.created_at (heap w l) = Product.created_at (heap w l)
                  /\ (dict_get sku (products w) <> Some l -> heap w l = heap w l))
    by (repeat split; reflexivity).
  cbv zeta.
  unfold InventoryService.add_stock, InventoryService.remove_stock,
    InventoryService.adjust_stock.
  split; [|split].
  - destruct (quantity <=? 0); [exact Hsame|]. run_py.
    destruct (dict_get sku (products w)) as [product|] eqn:Hget; simpl; [|exact Hsame].
    rewrite ?heap_update_same. simpl.
    destruct (dict_contains _ _) eqn:Hc; simpl.
    + pose proof (stock_operation_frame w product l
                    (Product.stock_quantity (heap w product) + quantity)
                    (clock w (ticks w)) (clock w (S (ticks w))) true) as H.
      cbv zeta in H. split; [reflexivity|]. intuition congruence.
    + pose proof (stock_operation_frame w product l
                    (Product.stock_quantity (heap w product) + quantity)
                    (clock w (ticks w)) (clock w (S (ticks w))) false) as H.
      cbv zeta in H. split; [reflexivity|]. intuition congruence.
  - destruct (quantity <=? 0); [exact Hsame|]. run_py.
    destruct (dict_get sku (products w)) as [product|] eqn:Hget; simpl; [|exact Hsame].
    destruct (Product.stock_quantity (heap w product) <? quantity); simpl; [exact Hsame|].
    rewrite ?heap_update_same. simpl.
    destruct (dict_contains _ _) eqn:Hc; simpl.
    + pose proof (stock_operation_frame w product l
                    (Product.stock_quantity (heap w product) - quantity)
                    (clock w (ticks w)) (clock w (S (ticks w))) true) as H.
      cbv zeta in H. split; [reflexivity|]. intuition congruence.
    + pose proof (stock_operation_frame w product l
                    (Product.stock_quantity (heap w product) - quantity)
                    (clock w (ticks w)) (clock w (S (ticks w))) false) as H.
      cbv zeta in H. split; [reflexivity|]. intuition congruence.
  - destruct (quantity <? 0); [exact Hsame|]. run_py.
    destruct (dict_get sku (products w)) as [product|] eqn:Hget; simpl; [|exact Hsame].
    rewrite ?heap_update_same. simpl.
    destruct (dict_contains _ _) eqn:Hc; simpl.
    + pose proof (stock_operation_frame w product l quantity
                    (clock w (ticks w)) (clock w (S (ticks w))) true) as H.
      cbv zeta in H. split; [reflexivity|]. intuition congruence.
    + pose proof (stock_operation_frame w product l quantity
                    (clock w (ticks w)) (clock w (S (ticks w))) false) as H.
      cbv zeta in H. split; [reflexivity|]. intuition congruence.
Qed.

(** X8. Whatever their outcome, the three stock operations leave the name,
    description, category, price, sku and creation time of every product as
    they were, and touch no product but the one found under the sku. *)
Theorem stock_operations_touch_only_stock (w : World) sku quantity notes (l : ref) :
  let untouched (w' : World) :=
    Product.name (heap w' l) = Product.name (heap w l)
    /\ Product.description (heap w' l) = Product.description (heap w l)
    /\ Product.category (heap w' l) = Product.category (heap w l)
    /\ Product.price (heap w' l) = Product.price (heap w l)
    /\ Product.sku (heap w' l) = Product.sku (heap w l)
    /\ Product.created_at (heap w' l) = Product.created_at (heap w l)
    /\ (dict_get sku (products w) <> Some l -> heap w' l = heap w l) in
  untouched (snd (InventoryService.add_stock sku quantity notes w))
  /\ untouched (snd (InventoryService.remove_stock sku quantity notes w))
  /\ untouched (snd (InventoryService.adjust_stock sku quantity notes w)).
Proof.
  pose proof (stock_operations_frame w sku quantity notes l) as H. cbv zeta in *.
  destruct H as ((_ & H1) & (_ & H2) & (_ & H3)).
  split; [exact H1 | split; [exact H2 | exact H3]].
Qed.

(** ** Updating and deleting a product *)

Lemma update_product_frame (w : World) sku kw (l : ref) :
  next (snd (InventoryService.update_product sku kw w)) = next w
  /\ transactions (snd (InventoryService.update_product sku kw w)) = transactions w
  /\ Product.stock_quantity (heap (snd (InventoryService.update_product sku kw w)) l)
     = Product.stock_quantity (heap w l)
  /\ Product.sku (heap (snd (InventoryService.update_product sku kw w)) l)
     = Product.sku (heap w l)
  /\ Product.created_at (heap (snd (InventoryService.update_product sku kw w)) l)
     = Product.created_at (heap w l).
Proof.
  unfold InventoryService.update_product. run_py.
  destruct (dict_get sku (products w)) as [product|]; simpl; [|repeat split].
  destruct kw as [[n|] [d|] [c|] [p|]]; simpl;
    repeat match goal with
      | |- context [Category.of_name ?v] => destruct (Category.of_name v); simpl
      | |- context [InventoryService.float_le_0 ?v] =>
          destruct (InventoryService.float_le_0 v); simpl
      | |- context [dict_contains ?k ?d] => destruct (dict_contains k d); simpl
      end;
    frame_fields.
Qed.

(** X9. Whatever its outcome, [update_product] writes nothing to the
    transaction store and changes no product's stock quantity, sku or
    creation time: a [stock_quantity] keyword is never read. *)
Theorem update_product_never_moves_stock (w : World) sku kw (l : ref) :
  transactions (snd (InventoryService.update_product sku kw w)) = transactions w
  /\ Product.stock_quantity (heap (snd (InventoryService.update_product sku kw w)) l)
     = Product.stock_quantity (heap w l)
  /\ Product.sku (heap (snd (InventoryService.update_product sku kw w)) l)
     = Product.sku (heap w l)
  /\ Product.created_at (heap (snd (InventoryService.update_product sku kw w)) l)
     = Product.created_at (heap w l).
Proof. exact (proj2 (update_product_frame w sku kw l)). Qed.

(** X10. For a stored product, a category keyword that names a member of
    the enumeration (in any case) and a price keyword the check lets through,
    [update_product] answers the product with every keyword given assigned
    and every other field kept, its update time refreshed from the clock. No
    other object is touched. *)
Theorem update_product_assigns_keywords (w : World) sku product kw :
  dict_get sku (products w) = Some product ->
  (forall v, InventoryService.kw_category kw = Some v ->
             Category.of_name (Str.upper v) <> None) ->
  (forall v, InventoryService.kw_price kw = Some v ->
             InventoryService.float_le_0 v = false) ->
  exists w',
    InventoryService.update_product sku kw w = (Return (Some product), w')
    /\ dict_get sku (products w') = Some product
    /\ Product.name (heap w' product)
       = default (Product.name (heap w product)) (InventoryService.kw_name kw)
    /\ Product.description (heap w' product)
       = default (Product.description (heap w product)) (InventoryService.kw_description kw)
    /\ Some (Product.category (heap w' product))
       = match InventoryService.kw_category kw with
         | Some v => Category.of_name (Str.upper v)
         | None => Some (Product.category (heap w product))
         end
    /\ Product.price (heap w' product)
       = default (Product.price (heap w product)) (InventoryService.kw_price kw)
    /\ (Product.updated_at (heap w' product) = clock w (ticks w)
        \/ Product.updated_at (heap w' product) = clock w (S (ticks w)))
    /\ (forall l, l <> product -> heap w' l = heap w l).
Proof.
  intros Hget Hcat Hprice. unfold InventoryService.update_product. run_py.
  rewrite Hget. simpl.
  destruct kw as [[n|] [d|] [c|] [p|]]; simpl in *;
    try (specialize (Hcat _ eq_refl)); try (specialize (Hprice _ eq_refl));
    repeat match goal with
      | H : Category.of_name ?v <> None |- _ =>
          destruct (Category.of_name v); [clear H | contradiction]
      | H : InventoryService.float_le_0 ?v = false |- _ => rewrite H; clear H
      end; simpl;
    rewrite ?heap_update_same; simpl;
    match goal with
    | |- context [dict_contains ?k ?d] => destruct (dict_contains k d)
    end; simpl;
    (eexists; split; [reflexivity|]; simpl; rewrite ?heap_update_same; simpl;
     split; [rewrite ?dict_get_set;
             try match goal with
                 | |- context [String.eqb ?a ?b] => destruct (String.eqb a b)
                 end; first [reflexivity | exact Hget]|];
     repeat (split; [first [reflexivity | left; reflexivity | right; reflexivity]|]);
     intros l Hl; rewrite ?heap_update_other by exact Hl; reflexivity).
Qed.

Lemma update_product_assigns_keywords_witness :
  exists w',
    InventoryService.update_product "W1DGET01"
      (InventoryService.mk_kwargs (Some "Gizmo") None (Some "toys") None) (Demo.shop 3)
    = (Return (Some 0%nat), w')
    /\ dict_get "W1DGET01" (products w') = Some 0%nat
    /\ Product.name (heap w' 0%nat) = default "Widget" (Some "Gizmo")
    /\ Product.description (heap w' 0%nat) = default "A widget" None
    /\ Some (Product.category (heap w' 0%nat)) = Category.of_name (Str.upper "toys")
    /\ Product.price (heap w' 0%nat) = default Demo.ten None
    /\ (Product.updated_at (heap w' 0%nat) = Demo.clock 0
        \/ Product.updated_at (heap w' 0%nat) = Demo.clock 1)
    /\ (forall l, l <> 0%nat -> heap w' l = heap (Demo.shop 3) l).
Proof.
  apply (update_product_assigns_keywords (Demo.shop 3) "W1DGET01" 0%nat
           (InventoryService.mk_kwargs (Some "Gizmo") None (Some "toys") None)).
  - reflexivity.
  - simpl. intros v [= <-]. discriminate.
  - simpl. discriminate.
Defined.

Section PyDictKeys.

Context {V : Type}.
Implicit Types (d : list (string * V)) (k : string).

Lemma dict_get_None_not_key k d : dict_get k d = None -> ~ In k (List.map fst d).
Proof.
  induction d as [|[k0 v0] d IH]; simpl; [tauto|].
  destruct (String.eqb_spec k0 k); [discriminate|].
  intros H [H'|H']; [contradiction | exact (IH H H')].
Qed.

Lemma dict_get_not_key k d : ~ In k (List.map fst d) -> dict_get k d = None.
Proof.
  induction d as [|[k0 v0] d IH]; simpl; [reflexivity|].
  intros H. destruct (String.eqb_spec k0 k); [tauto|]. apply IH. tauto.
Qed.

Lemma dict_get_del_same k d : List.NoDup (List.map fst d) -> dict_get k (dict_del k d) = None.
Proof.
  induction d as [|[k0 v0] d IH]; simpl; [reflexivity|].
  intros Hnd. apply List.NoDup_cons_iff in Hnd. destruct Hnd as [Hnot Hnd].
  destruct (String.eqb_spec k0 k) as [->|Hne].
  - apply dict_get_not_key. exact Hnot.
  - simpl. destruct (String.eqb_spec k0 k); [contradiction|]. exact (IH Hnd).
Qed.

Lemma dict_get_del_other k k' d : k <> k' -> dict_get k' (dict_del k d) = dict_get k' d.
Proof.
  intros Hne. induction d as [|[k0 v0] d IH]; simpl; [reflexivity|].
  destruct (String.eqb_spec k0 k) as [->|Hk]; simpl.
  - destruct (String.eqb_spec k k'); [contradiction | reflexivity].
  - rewrite IH. reflexivity.
Qed.

Lemma dict_get_In_unique k (v : V) d :
  List.NoDup (List.map fst d) -> In (k, v) d -> dict_get k d = Some v.
Proof.
  induction d as [|[k0 v0] d IH]; simpl; [tauto|].
  intros Hnd. apply List.NoDup_cons_iff in Hnd. destruct Hnd as [Hnot Hnd].
  intros [[= -> ->]|Hin].
  - rewrite String.eqb_refl. reflexivity.
  - destruct (String.eqb_spec k0 k) as [->|Hne]; [|exact (IH Hnd Hin)].
    exfalso. apply Hnot. apply (List.in_map fst) in Hin. exact Hin.
Qed.

End PyDictKeys.

(** X11. For a stored product (the keys of the store being distinct, as a
    dict's are), [delete_product] answers [True]; the sku is no longer in the
    store and the other entries are as before; no object is changed. When the
    stock is positive, one adjustment of minus the stock, noted "Eliminación
    del producto <name>", is added to the transaction store before the
    removal; when it is not, nothing is recorded. *)
Theorem delete_product_writes_off_stock (w : World) sku product :
  List.NoDup (List.map fst (products w)) ->
  dict_get sku (products w) = Some product ->
  dict_get (uuids w (draws w)) (transactions w) = None ->
  exists w',
    InventoryService.delete_product sku w = (Return true, w')
    /\ dict_get sku (products w') = None
    /\ (forall k, k <> sku -> dict_get k (products w') = dict_get k (products w))
    /\ (forall l, heap w' l = heap w l)
    /\ transactions w'
       = if Product.stock_quantity (heap w product) >? 0
         then (transactions w
               ++ [(uuids w (draws w),
                    Transaction.mk sku (- Product.stock_quantity (heap w product))
                      "adjustment" (uuids w (draws w)) (clock w (ticks w))
                      ("Eliminación del producto " ++ Product.name (heap w product)))])%list
         else transactions w.
Proof.
  intros Hnd Hget Hfresh. unfold InventoryService.delete_product. run_py.
  rewrite Hget. simpl. unfold dict_contains.
  destruct (Product.stock_quantity (heap w product) >? 0); simpl; rewrite Hget; simpl;
    (eexists; split; [reflexivity|]; simpl;
     split; [apply dict_get_del_same; exact Hnd|];
     split; [intros k Hk; apply dict_get_del_other; congruence|];
     split; [reflexivity|]).
  - apply dict_set_fresh. exact Hfresh.
  - reflexivity.
Qed.

Lemma delete_product_writes_off_stock_witness :
  exists w',
    InventoryService.delete_product "W1DGET01" (Demo.shop 7) = (Return true, w')
    /\ dict_get "W1DGET01" (products w') = None
    /\ (forall k, k <> "W1DGET01" -> dict_get k (products w') = dict_get k (products (Demo.shop 7)))
    /\ (forall l, heap w' l = heap (Demo.shop 7) l)
    /\ transactions w'
       = if 7 >? 0
         then ([] ++ [(Demo.uuids 0,
                       Transaction.mk "W1DGET01" (- 7) "adjustment" (Demo.uuids 0)
                         (Demo.clock 0) ("Eliminación del producto " ++ "Widget"))])%list
         else [].
Proof.
  apply (delete_product_writes_off_stock (Demo.shop 7) "W1DGET01" 0%nat).
  - simpl. repeat constructor. simpl. tauto.
  - reflexivity.
  - reflexivity.
Defined.

(** ** Invariants of the store *)

Lemma demo_shop_ok (stock : Z) : 0 <= stock -> store_ok (Demo.shop stock).
Proof. intros Hs k l _. split; [reflexivity | exact Hs]. Qed.

(** X12. If every stored product has a price greater than zero and a stock
    that is not negative, the same holds after [add_stock], [remove_stock],
    [adjust_stock] and [delete_product], whatever the arguments and whether
    the call goes through or is refused. *)
Theorem stock_operations_keep_price_and_stock_ok (w : World) sku quantity notes :
  store_ok w ->
  store_ok (snd (InventoryService.add_stock sku quantity notes w))
  /\ store_ok (snd (InventoryService.remove_stock sku quantity notes w))
  /\ store_ok (snd (InventoryService.adjust_stock sku quantity notes w))
  /\ store_ok (snd (InventoryService.delete_product sku w)).
Proof.
  intros Hok. split; [|split; [|split]].
  - exact (add_stock_keeps_invariant w sku quantity notes Hok).
  - exact (remove_stock_keeps_invariant w sku quantity notes Hok).
  - exact (adjust_stock_keeps_invariant w sku quantity notes Hok).
  - exact (delete_product_keeps_invariant w sku Hok).
Qed.

Lemma stock_operations_keep_price_and_stock_ok_witness :
  store_ok (snd (InventoryService.add_stock "W1DGET01" 2 "" (Demo.shop 3)))
  /\ store_ok (snd (InventoryService.remove_stock "W1DGET01" 2 "" (Demo.shop 3)))
  /\ store_ok (snd (InventoryService.adjust_stock "W1DGET01" 2 "" (Demo.shop 3)))
  /\ store_ok (snd (InventoryService.delete_product "W1DGET01" (Demo.shop 3))).
Proof.
  apply (stock_operations_keep_price_and_stock_ok (Demo.shop 3) "W1DGET01" 2 "").
  apply demo_shop_ok. lia.
Defined.

(** X13. The same holds after [add_product] and [update_product] for every
    price that is a number: the only price that gets past the check
    [price <= 0] without being greater than zero is NaN. *)
Theorem add_and_update_keep_price_and_stock_ok (w : World) name description category
    price stock_quantity sku kw :
  store_ok w ->
  price <> S754_nan ->
  InventoryService.kw_price kw <> Some S754_nan ->
  store_ok (snd (InventoryService.add_product name description category price
                   stock_quantity w))
  /\ store_ok (snd (InventoryService.update_product sku kw w)).
Proof.
  intros Hok Hprice Hkw. split.
  - exact (add_product_keeps_invariant w _ _ _ _ _ Hprice Hok).
  - exact (update_product_keeps_invariant w sku kw Hkw Hok).
Qed.

Lemma add_and_update_keep_price_and_stock_ok_witness :
  store_ok (snd (InventoryService.add_product "Gadget" "A gadget" "food" Demo.ten 4
                   (Demo.shop 3)))
  /\ store_ok (snd (InventoryService.update_product "W1DGET01"
                      (InventoryService.mk_kwargs None None None (Some Demo.ten))
                      (Demo.shop 3))).
Proof.
  apply (add_and_update_keep_price_and_stock_ok (Demo.shop 3)).
  - apply demo_shop_ok. lia.
  - discriminate.
  - discriminate.
Defined.

(** *** The shape of the store *)

Lemma dict_set_keys_same {V} (k : string) (v : V) d :
  In k (List.map fst d) -> List.map fst (dict_set k v d) = List.map fst d.
Proof.
  induction d as [|[k0 v0] d IH]; simpl; [tauto|].
  destruct (String.eqb_spec k0 k) as [->|Hne]; simpl; [reflexivity|].
  intros [H|H]; [contradiction|]. rewrite (IH H). reflexivity.
Qed.

Lemma dict_get_Some_key {V} (k : string) (v : V) d :
  dict_get k d = Some v -> In k (List.map fst d).
Proof.
  intros H. apply dict_get_In in H. apply (List.in_map fst) in H. exact H.
Qed.

Lemma dict_del_keys_incl {V} (k : string) (d : list (string * V)) x :
  In x (List.map fst (dict_del k d)) -> In x (List.map fst d).
Proof.
  induction d as [|[k0 v0] d IH]; simpl; [tauto|].
  destruct (String.eqb k0 k); simpl; [tauto|]. intros [H|H]; [left; exact H | right; exact (IH H)].
Qed.

Lemma dict_del_vals_incl {V} (k : string) (d : list (string * V)) x :
  In x (List.map snd (dict_del k d)) -> In x (List.map snd d).
Proof.
  induction d as [|[k0 v0] d IH]; simpl; [tauto|].
  destruct (String.eqb k0 k); simpl; [tauto|]. intros [H|H]; [left; exact H | right; exact (IH H)].
Qed.

Lemma dict_del_NoDup_keys {V} (k : string) (d : list (string * V)) :
  List.NoDup (List.map fst d) -> List.NoDup (List.map fst (dict_del k d)).
Proof.
  induction d as [|[k0 v0] d IH]; simpl; [tauto|].
  intros Hnd. apply List.NoDup_cons_iff in Hnd. destruct Hnd as [Hnot Hnd].
  destruct (String.eqb k0 k); simpl; [exact Hnd|].
  apply List.NoDup_cons; [|exact (IH Hnd)].
  intros H. apply Hnot. exact (dict_del_keys_incl _ _ _ H).
Qed.

Lemma dict_del_NoDup_vals {V} (k : string) (d : list (string * V)) :
  List.NoDup (List.map snd d) -> List.NoDup (List.map snd (dict_del k d)).
Proof.
  induction d as [|[k0 v0] d IH]; simpl; [tauto|].
  intros Hnd. apply List.NoDup_cons_iff in Hnd. destruct Hnd as [Hnot Hnd].
  destruct (String.eqb k0 k); simpl; [exact Hnd|].
  apply List.NoDup_cons; [|exact (IH Hnd)].
  intros H. apply Hnot. exact (dict_del_vals_incl _ _ _ H).
Qed.

(** Putting a new value under a key: the keys stay distinct, and so do the
    values when the new one is none of the old ones. *)
Lemma dict_set_NoDup_keys {V} (k : string) (v : V) d :
  List.NoDup (List.map fst d) -> List.NoDup (List.map fst (dict_set k v d)).
Proof.
  intros Hnd. destruct (dict_get k d) as [v0|] eqn:G.
  - rewrite dict_set_keys_same; [exact Hnd | exact (dict_get_Some_key _ _ _ G)].
  - rewrite (dict_set_fresh _ _ _ G), List.map_app. simpl.
    apply List.NoDup_app; [exact Hnd | repeat constructor; simpl; tauto |].
    intros x Hx [<-|[]]. exact (dict_get_None_not_key _ _ G Hx).
Qed.

Lemma dict_set_vals_In {V} (k : string) (v : V) d x :
  In x (List.map snd (dict_set k v d)) -> In x (List.map snd d) \/ x = v.
Proof.
  intros H. apply List.in_map_iff in H. destruct H as ([k0 v0] & <- & H). simpl.
  destruct (dict_set_In _ _ _ _ H) as [H'|H'].
  - left. apply (List.in_map snd) in H'. exact H'.
  - right. exact H'.
Qed.

Lemma dict_set_NoDup_vals {V} (k : string) (v : V) d :
  ~ In v (List.map snd d) ->
  List.NoDup (List.map snd d) -> List.NoDup (List.map snd (dict_set k v d)).
Proof.
  induction d as [|[k0 v0] d IH]; simpl.
  - intros _ _. repeat constructor. simpl. tauto.
  - intros Hv Hnd. apply List.NoDup_cons_iff in Hnd. destruct Hnd as [Hnot Hnd].
    destruct (String.eqb k0 k); simpl.
    + apply List.NoDup_cons; [|exact Hnd]. tauto.
    + apply List.NoDup_cons; [|apply IH; tauto].
      intros H. destruct (dict_set_vals_In _ _ _ _ H) as [H'|H']; [tauto|].
      apply Hv. left. exact H'.
Qed.

(** A state whose heap keeps the skus, whose allocation mark does not go
    back and whose dict is the old one is as well formed as the old one. *)
Lemma store_wf_same_products (w w' : World) :
  store_wf w ->
  products w' = products w ->
  (next w <= next w')%nat ->
  (forall l, Product.sku (heap w' l) = Product.sku (heap w l)) ->
  store_wf w'.
Proof.
  intros (Hk & Hv & Hsku & Hlt) Hp Hn Hs. unfold store_wf. rewrite Hp.
  split; [exact Hk|]. split; [exact Hv|]. split.
  - intros k l Hin. rewrite Hs. exact (Hsku k l Hin).
  - intros k l Hin. pose proof (Hlt k l Hin). lia.
Qed.

Lemma stock_moved_wf (w w' : World) sku product stock delta kind notes :
  store_wf w ->
  dict_get sku (products w) = Some product ->
  stock_moved w w' sku product stock delta kind notes ->
  next w' = next w ->
  (forall l, Product.sku (heap w' l) = Product.sku (heap w l)) ->
  store_wf w'.
Proof.
  intros Hwf Hget (_ & _ & _ & Hproducts & _) Hnext Hsku.
  apply (store_wf_same_products w w' Hwf); [|lia|exact Hsku].
  rewrite Hproducts.
  destruct Hwf as (_ & _ & Hkey & _).
  rewrite (Hkey _ _ (dict_get_In _ _ _ Hget)).
  apply dict_set_same. exact Hget.
Qed.

(** Each stock operation either leaves the state alone or moves the stock
    of the product found under the sku, by the delta it records. *)
Lemma stock_operation_cases (w : World) sku quantity notes :
  let moved (w' : World) :=
    w' = w
    \/ exists product stock kind,
         dict_get sku (products w) = Some product
         /\ stock_moved w w' sku product stock
              (stock - Product.stock_quantity (heap w product)) kind notes
         /\ (0 <= Product.stock_quantity (heap w product) -> 0 <= stock) in
  moved (snd (InventoryService.add_stock sku quantity notes w))
  /\ moved (snd (InventoryService.remove_stock sku quantity notes w))
  /\ moved (snd (InventoryService.adjust_stock sku quantity notes w)).
Proof.
  cbv zeta. split; [|split].
  - destruct (Z.leb_spec quantity 0) as [Hq|Hq].
    { left. unfold InventoryService.add_stock.
      destruct (Z.leb_spec quantity 0); [reflexivity | lia]. }
    destruct (dict_get sku (products w)) as [product|] eqn:Hget.
    + right. destruct (add_stock_run w sku product quantity notes Hget Hq) as (w' & -> & Hm).
      exists product, (Product.stock_quantity (heap w product) + quantity), "purchase".
      split; [reflexivity|]. split; [|lia].
      replace (Product.stock_quantity (heap w product) + quantity
               - Product.stock_quantity (heap w product)) with quantity by lia.
      exact Hm.
    + left. unfold InventoryService.add_stock.
      destruct (Z.leb_spec quantity 0); [lia|]. run_py. rewrite Hget. reflexivity.
  - destruct (Z.leb_spec quantity 0) as [Hq|Hq].
    { left. unfold InventoryService.remove_stock.
      destruct (Z.leb_spec quantity 0); [reflexivity | lia]. }
    destruct (dict_get sku (products w)) as [product|] eqn:Hget.
    + destruct (Z.lt_ge_cases (Product.stock_quantity (heap w product)) quantity) as [Hs|Hs].
      * left. destruct (remove_stock_excess_refused w sku product quantity notes Hget Hs)
          as [message ->]. reflexivity.
      * right.
        destruct (remove_stock_run w sku product quantity notes Hget Hq Hs) as (w' & -> & Hm).
        exists product, (Product.stock_quantity (heap w product) - quantity), "sale".
        split; [reflexivity|]. split; [|lia].
        replace (Product.stock_quantity (heap w product) - quantity
                 - Product.stock_quantity (heap w product)) with (- quantity) by lia.
        exact Hm.
    + left. unfold InventoryService.remove_stock.
      destruct (Z.leb_spec quantity 0); [lia|]. run_py. rewrite Hget. reflexivity.
  - destruct (Z.ltb_spec quantity 0) as [Hq|Hq].
    { left. unfold InventoryService.adjust_stock.
      destruct (Z.ltb_spec quantity 0); [reflexivity | lia]. }
    destruct (dict_get sku (products w)) as [product|] eqn:Hget.
    + right.
      destruct (adjust_stock_run w sku product quantity notes Hget Hq) as (w' & -> & Hm).
      exists product, quantity, "adjustment".
      split; [reflexivity|]. split; [exact Hm | lia].
    + left. unfold InventoryService.adjust_stock.
      destruct (Z.ltb_spec quantity 0); [lia|]. run_py. rewrite Hget. reflexivity.
Qed.

Lemma demo_shop_wf (stock : Z) : store_wf (Demo.shop stock).
Proof.
  split; [|split; [|split]]; simpl.
  - repeat constructor. simpl. tauto.
  - repeat constructor. simpl. tauto.
  - intros k l [[= <- <-]|[]]. reflexivity.
  - intros k l [[= <- <-]|[]]. lia.
Qed.

Lemma dict_set_In_entry {V} (k : string) (v : V) d k' v' :
  In (k', v') (dict_set k v d) -> In (k', v') d \/ (k' = k /\ v' = v).
Proof.
  induction d as [|[k0 v0] d IH]; simpl.
  - intros [[= <- <-]|[]]. right. split; reflexivity.
  - destruct (String.eqb_spec k0 k) as [->|Hne]; simpl.
    + intros [[= <- <-]|H]; [right; split; reflexivity | left; right; exact H].
    + intros [[= <- <-]|H]; [left; left; reflexivity|].
      destruct (IH H) as [H'|H']; [left; right; exact H' | right; exact H'].
Qed.

(** What [update_product] does to the dict: nothing, or the product found
    is put back under the sku it carries. *)
Lemma update_product_products (w : World) sku kw :
  products (snd (InventoryService.update_product sku kw w)) = products w
  \/ exists product,
       dict_get sku (products w) = Some product
       /\ products (snd (InventoryService.update_product sku kw w))
          = dict_set (Product.sku (heap w product)) product (products w).
Proof.
  unfold InventoryService.update_product. run_py.
  destruct (dict_get sku (products w)) as [product|] eqn:Hget; simpl; [|left; reflexivity].
  destruct kw as [[n|] [d|] [c|] [p|]]; simpl;
    repeat match goal with
      | |- context [Category.of_name ?v] => destruct (Category.of_name v); simpl
      | |- context [InventoryService.float_le_0 ?v] =>
          destruct (InventoryService.float_le_0 v); simpl
      | |- context [dict_contains ?k ?d] => destruct (dict_contains k d); simpl
      end;
    rewrite ?heap_update_same; simpl;
    first [ left; reflexivity | right; exists product; split; reflexivity ].
Qed.

(** What [add_product] leaves behind when it goes through. *)
Lemma add_product_state (w : World) name description category price stock_quantity :
  let w' := snd (InventoryService.add_product name description category price
                   stock_quantity w) in
  let sku := Str.upper (Str.take 8 (uuids w (draws w))) in
  w' = w
  \/ (products w' = dict_set sku (next w) (products w)
      /\ next w' = S (next w)
      /\ (forall l, l <> next w -> heap w' l = heap w l)
      /\ Product.sku (heap w' (next w)) = sku
      /\ Product.stock_quantity (heap w' (next w)) = stock_quantity
      /\ 0 <= stock_quantity
      /\ exists timestamp,
           transactions w'
           = if stock_quantity >? 0
             then dict_set (uuids w (S (draws w)))
                    (Transaction.mk sku stock_quantity "purchase" (uuids w (S (draws w)))
                       timestamp ("Inventario inicial para " ++ name))
                    (transactions w)
             else transactions w).
Proof.
  cbv zeta. unfold InventoryService.add_product. run_py.
  destruct (Category.of_name (Str.upper category)) as [c|]; simpl; [|left; reflexivity].
  destruct (InventoryService.float_le_0 price); simpl; [left; reflexivity|].
  destruct (Z.ltb_spec stock_quantity 0); simpl; [left; reflexivity|].
  right. rewrite ?heap_update_same. simpl.
  destruct (dict_contains _ _); simpl; rewrite ?heap_update_same; simpl;
    destruct (stock_quantity >? 0); simpl; rewrite ?heap_update_same; simpl;
    (split; [reflexivity|]; split; [reflexivity|];
     split; [intros l Hl; rewrite ?heap_update_other by exact Hl; reflexivity|];
     split; [reflexivity|]; split; [reflexivity|]; split; [assumption|];
     first [exists (clock w 0%nat); reflexivity | eexists; reflexivity]).
Qed.

Lemma delete_product_state (w : World) sku :
  let w' := snd (InventoryService.delete_product sku w) in
  next w' = next w
  /\ (forall l, heap w' l = heap w l)
  /\ (w' = w
      \/ exists product,
           dict_get sku (products w) = Some product
           /\ products w' = dict_del sku (products w)
           /\ transactions w'
              = if Product.stock_quantity (heap w product) >? 0
                then dict_set (uuids w (draws w))
                       (Transaction.mk sku (- Product.stock_quantity (heap w product))
                          "adjustment" (uuids w (draws w)) (clock w (ticks w))
                          ("Eliminación del producto " ++ Product.name (heap w product)))
                       (transactions w)
                else transactions w).
Proof.
  cbv zeta. unfold InventoryService.delete_product. run_py.
  destruct (dict_get sku (products w)) as [product|] eqn:Hget; simpl;
    [|split; [reflexivity|]; split; [reflexivity|]; left; reflexivity].
  unfold dict_contains.
  destruct (Product.stock_quantity (heap w product) >? 0) eqn:E; simpl;
    rewrite Hget; simpl;
    (split; [reflexivity|]; split; [reflexivity|];
     right; exists product; split; [reflexivity|]; split; [reflexivity|]);
    fold (Product.stock_quantity (heap w product) >? 0); rewrite ?E; reflexivity.
Qed.

(** X14. The service keeps the product store in shape: if the keys are
    distinct, no object is filed twice, every product is filed under its own
    sku and every reference is allocated, the same holds after each of
    [add_product], [update_product], [delete_product], [add_stock],
    [remove_stock] and [adjust_stock], whatever the arguments and the
    outcome. *)
Theorem service_keeps_store_well_formed (w : World) name description category price
    stock_quantity sku kw quantity notes :
  store_wf w ->
  store_wf (snd (InventoryService.add_product name description category price
                   stock_quantity w))
  /\ store_wf (snd (InventoryService.update_product sku kw w))
  /\ store_wf (snd (InventoryService.delete_product sku w))
  /\ store_wf (snd (InventoryService.add_stock sku quantity notes w))
  /\ store_wf (snd (InventoryService.remove_stock sku quantity notes w))
  /\ store_wf (snd (InventoryService.adjust_stock sku quantity notes w)).
Proof.
  intros Hwf.
  assert (Hstock : forall w',
             (w' = w
              \/ exists product stock kind,
                   dict_get sku (products w) = Some product
                   /\ stock_moved w w' sku product stock
                        (stock - Product.stock_quantity (heap w product)) kind notes
                   /\ (0 <= Product.stock_quantity (heap w product) -> 0 <= stock)) ->
             next w' = next w ->
             (forall l, Product.sku (heap w' l) = Product.sku (heap w l)) ->
             store_wf w').
  { intros w' [->|(product & stock & kind & Hget & Hm & _)] Hn Hs; [exact Hwf|].
    exact (stock_moved_wf w w' _ _ _ _ _ _ Hwf Hget Hm Hn Hs). }
  pose proof (stock_operation_cases w sku quantity notes) as Hcases. cbv zeta in Hcases.
  destruct Hcases as (Hadd & Hremove & Hadjust).
  pose proof (fun l => stock_operations_frame w sku quantity notes l) as Hframe.
  cbv zeta in Hframe.
  split; [|split; [|split; [|split; [|split]]]].
  - pose proof (add_product_state w name description category price stock_quantity) as H.
    cbv zeta in H. destruct H as [->|(Hp & Hn & Hh & Hs & _)]; [exact Hwf|].
    destruct Hwf as (Hk & Hv & Hsku & Hlt).
    unfold store_wf. rewrite Hp, Hn.
    assert (Hnew : ~ In (next w) (List.map snd (products w))).
    { intros Hin. apply List.in_map_iff in Hin. destruct Hin as ([k l] & Hl & Hin).
      simpl in Hl. subst l. pose proof (Hlt _ _ Hin). lia. }
    split; [apply dict_set_NoDup_keys; exact Hk|].
    split; [apply dict_set_NoDup_vals; assumption|].
    split.
    + intros k l Hin. destruct (dict_set_In_entry _ _ _ _ _ Hin) as [Hold|[-> ->]].
      * rewrite Hh; [exact (Hsku _ _ Hold)|].
        pose proof (Hlt _ _ Hold). lia.
      * exact Hs.
    + intros k l Hin. destruct (dict_set_In_entry _ _ _ _ _ Hin) as [Hold|[-> ->]].
      * pose proof (Hlt _ _ Hold). lia.
      * lia.
  - pose proof (fun l => update_product_frame w sku kw l) as Hf.
    destruct (update_product_products w sku kw) as [Hp|(product & Hget & Hp)].
    + apply (store_wf_same_products w _ Hwf Hp).
      * rewrite (proj1 (Hf 0%nat)). lia.
      * intros l. exact (proj1 (proj2 (proj2 (proj2 (Hf l))))).
    + apply (store_wf_same_products w _ Hwf).
      * rewrite Hp. destruct Hwf as (_ & _ & Hkey & _).
        rewrite (Hkey _ _ (dict_get_In _ _ _ Hget)). apply dict_set_same. exact Hget.
      * rewrite (proj1 (Hf 0%nat)). lia.
      * intros l. exact (proj1 (proj2 (proj2 (proj2 (Hf l))))).
  - pose proof (delete_product_state w sku) as H. cbv zeta in H.
    destruct H as (Hn & Hh & [->|(product & Hget & Hp & _)]); [exact Hwf|].
    destruct Hwf as (Hk & Hv & Hsku & Hlt).
    unfold store_wf. rewrite Hp, Hn.
    split; [apply dict_del_NoDup_keys; exact Hk|].
    split; [apply dict_del_NoDup_vals; exact Hv|].
    split; intros k l Hin; apply dict_del_In in Hin.
    + rewrite Hh. exact (Hsku _ _ Hin).
    + exact (Hlt _ _ Hin).
  - apply (Hstock _ Hadd).
    + exact (proj1 (proj1 (Hframe 0%nat))).
    + intros l. destruct (Hframe l) as ((_ & _ & _ & _ & _ & H & _) & _). exact H.
  - apply (Hstock _ Hremove).
    + exact (proj1 (proj1 (proj2 (Hframe 0%nat)))).
    + intros l. destruct (Hframe l) as (_ & (_ & _ & _ & _ & _ & H & _) & _). exact H.
  - apply (Hstock _ Hadjust).
    + exact (proj1 (proj2 (proj2 (Hframe 0%nat)))).
    + intros l. destruct (Hframe l) as (_ & _ & (_ & _ & _ & _ & _ & H & _)). exact H.
Qed.

Lemma service_keeps_store_well_formed_witness :
  store_wf (snd (InventoryService.add_product "Gadget" "A gadget" "food" Demo.ten 4
                   (Demo.shop 3)))
  /\ store_wf (snd (InventoryService.update_product "W1DGET01"
                      (InventoryService.mk_kwargs (Some "Gizmo") None None None)
                      (Demo.shop 3)))
  /\ store_wf (snd (InventoryService.delete_product "W1DGET01" (Demo.shop 3)))
  /\ store_wf (snd (InventoryService.add_stock "W1DGET01" 2 "" (Demo.shop 3)))
  /\ store_wf (snd (InventoryService.remove_stock "W1DGET01" 2 "" (Demo.shop 3)))
  /\ store_wf (snd (InventoryService.adjust_stock "W1DGET01" 2 "" (Demo.shop 3))).
Proof.
  apply (service_keeps_store_well_formed (Demo.shop 3)). apply demo_shop_wf.
Defined.

(** *** The ledger accounts for the stock *)

Lemma ledger_sum_app (sku : string) d id (t : Transaction.t) :
  ledger_sum sku (d ++ [(id, t)])
  = ledger_sum sku d
    + (if String.eqb (Transaction.product_sku t) sku then Transaction.quantity t else 0).
Proof.
  unfold ledger_sum, dict_values. rewrite List.map_app. simpl.
  induction (List.map snd d) as [|t0 l IH]; simpl.
  - destruct (String.eqb _ _); lia.
  - rewrite IH. destruct (String.eqb (Transaction.product_sku t0) sku); lia.
Qed.

Lemma dict_get_same_value {V} (k k' : string) (v : V) d :
  List.NoDup (List.map snd d) ->
  dict_get k d = Some v -> dict_get k' d = Some v -> k = k'.
Proof.
  induction d as [|[k0 v0] d IH]; simpl; [discriminate|].
  intros Hnd. apply List.NoDup_cons_iff in Hnd. destruct Hnd as [Hnot Hnd].
  destruct (String.eqb_spec k0 k) as [<-|Hk]; destruct (String.eqb_spec k0 k') as [<-|Hk'].
  - reflexivity.
  - intros [= ->] H. exfalso. apply Hnot.
    apply dict_get_In in H. apply (List.in_map snd) in H. exact H.
  - intros H [= ->]. exfalso. apply Hnot.
    apply dict_get_In in H. apply (List.in_map snd) in H. exact H.
  - exact (IH Hnd).
Qed.

Lemma stock_moved_balanced (w w' : World) sku product stock kind notes :
  store_wf w ->
  balanced w ->
  dict_get sku (products w) = Some product ->
  dict_get (uuids w (draws w)) (transactions w) = None ->
  stock_moved w w' sku product stock
    (stock - Product.stock_quantity (heap w product)) kind notes ->
  balanced w'.
Proof.
  intros Hwf Hbal Hget Hfresh (_ & Hstock & Hheap & Hproducts & _ & [ts Htx] & _) k.
  destruct Hwf as (_ & Hvals & Hkey & _).
  assert (Hp : products w' = products w).
  { rewrite Hproducts, (Hkey _ _ (dict_get_In _ _ _ Hget)). apply dict_set_same. exact Hget. }
  rewrite Htx, (dict_set_fresh _ _ _ Hfresh), ledger_sum_app. simpl.
  specialize (Hbal k). unfold stock_on_hand, lookup_product in *. rewrite Hp.
  destruct (String.eqb_spec sku k) as [<-|Hne].
  - rewrite Hget in *. simpl in *. lia.
  - destruct (dict_get k (products w)) as [l|] eqn:Hk; simpl in *; [|lia].
    rewrite Hheap; [lia|].
    intros ->. apply Hne. exact (dict_get_same_value _ _ _ _ Hvals Hget Hk).
Qed.

(** X15. In a well-formed store whose ledger accounts for the stock (for
    every sku, the deltas recorded add up to the stock on hand, zero for a
    sku that is not there), [add_stock], [remove_stock], [adjust_stock] and
    [update_product] leave it so, whether they go through or not; the uuid
    drawn for a new transaction is taken to be new. *)
Theorem stock_operations_keep_ledger_balanced (w : World) sku kw quantity notes :
  store_wf w ->
  balanced w ->
  dict_get (uuids w (draws w)) (transactions w) = None ->
  balanced (snd (InventoryService.add_stock sku quantity notes w))
  /\ balanced (snd (InventoryService.remove_stock sku quantity notes w))
  /\ balanced (snd (InventoryService.adjust_stock sku quantity notes w))
  /\ balanced (snd (InventoryService.update_product sku kw w)).
Proof.
  intros Hwf Hbal Hfresh.
  assert (Hstock : forall w',
             (w' = w
              \/ exists product stock kind,
                   dict_get sku (products w) = Some product
                   /\ stock_moved w w' sku product stock
                        (stock - Product.stock_quantity (heap w product)) kind notes
                   /\ (0 <= Product.stock_quantity (heap w product) -> 0 <= stock)) ->
             balanced w').
  { intros w' [->|(product & stock & kind & Hget & Hm & _)]; [exact Hbal|].
    exact (stock_moved_balanced w w' _ _ _ _ _ Hwf Hbal Hget Hfresh Hm). }
  pose proof (stock_operation_cases w sku quantity notes) as Hcases. cbv zeta in Hcases.
  destruct Hcases as (Hadd & Hremove & Hadjust).
  split; [exact (Hstock _ Hadd)|]. split; [exact (Hstock _ Hremove)|].
  split; [exact (Hstock _ Hadjust)|].
  intros k. specialize (Hbal k).
  pose proof (fun l => update_product_frame w sku kw l) as Hf.
  rewrite (proj1 (proj2 (Hf 0%nat))).
  assert (Hp : products (snd (InventoryService.update_product sku kw w)) = products w).
  { destruct (update_product_products w sku kw) as [Hp|(product & Hget & Hp)]; [exact Hp|].
    rewrite Hp. destruct Hwf as (_ & _ & Hkey & _).
    rewrite (Hkey _ _ (dict_get_In _ _ _ Hget)). apply dict_set_same. exact Hget. }
  unfold stock_on_hand, lookup_product in *. rewrite Hp.
  destruct (dict_get k (products w)) as [l|]; simpl in *; [|exact Hbal].
  rewrite (proj1 (proj2 (proj2 (Hf l)))). exact Hbal.
Qed.

Lemma demo_shop_balanced : balanced (Demo.shop 0).
Proof.
  intros k. unfold stock_on_hand, lookup_product, ledger_sum, Demo.shop.
  cbn [products transactions heap dict_get dict_values List.map List.fold_right].
  destruct (String.eqb "W1DGET01" k); reflexivity.
Qed.

Lemma stock_operations_keep_ledger_balanced_witness :
  balanced (snd (InventoryService.add_stock "W1DGET01" 2 "" (Demo.shop 0)))
  /\ balanced (snd (InventoryService.remove_stock "W1DGET01" 2 "" (Demo.shop 0)))
  /\ balanced (snd (InventoryService.adjust_stock "W1DGET01" 2 "" (Demo.shop 0)))
  /\ balanced (snd (InventoryService.update_product "W1DGET01"
                      (InventoryService.mk_kwargs (Some "Gizmo") None None None)
                      (Demo.shop 0))).
Proof.
  apply (stock_operations_keep_ledger_balanced (Demo.shop 0)).
  - apply demo_shop_wf.
  - apply demo_shop_balanced.
  - reflexivity.
Defined.

(** X16. [add_product] keeps the ledger in balance when the sku it
    generates is not in the store yet (and the uuid of the purchase is new):
    the initial stock is the one delta recorded for the new sku, and a
    product added with no stock has no transaction. *)
Theorem add_product_keeps_ledger_balanced (w : World) name description category price
    stock_quantity :
  store_wf w ->
  balanced w ->
  dict_get (Str.upper (Str.take 8 (uuids w (draws w)))) (products w) = None ->
  dict_get (uuids w (S (draws w))) (transactions w) = None ->
  balanced (snd (InventoryService.add_product name description category price
                   stock_quantity w)).
Proof.
  intros Hwf Hbal Hsku Hfresh.
  pose proof (add_product_state w name description category price stock_quantity) as H.
  cbv zeta in H.
  destruct H as [->|(Hp & Hn & Hh & Hs & Hq & Hpos & [ts Htx])]; [exact Hbal|].
  intros k. specialize (Hbal k).
  destruct Hwf as (_ & _ & _ & Hlt).
  unfold stock_on_hand, lookup_product in *. rewrite Hp, dict_get_set.
  assert (Hledger :
            ledger_sum k (transactions (snd (InventoryService.add_product name description
                                               category price stock_quantity w)))
            = ledger_sum k (transactions w)
              + (if String.eqb (Str.upper (Str.take 8 (uuids w (draws w)))) k
                 then stock_quantity else 0)).
  { rewrite Htx. destruct (Z.gtb_spec stock_quantity 0).
    - rewrite (dict_set_fresh _ _ _ Hfresh), ledger_sum_app. reflexivity.
    - assert (stock_quantity = 0) as -> by lia.
      destruct (String.eqb _ k); lia. }
  rewrite Hledger.
  destruct (String.eqb_spec (Str.upper (Str.take 8 (uuids w (draws w)))) k) as [<-|Hne].
  - simpl. rewrite Hsku in Hbal. simpl in Hbal. lia.
  - destruct (dict_get k (products w)) as [l|] eqn:Hk; simpl in *; [|lia].
    rewrite Hh; [lia|]. pose proof (Hlt _ _ (dict_get_In _ _ _ Hk)). lia.
Qed.

Lemma add_product_keeps_ledger_balanced_witness :
  balanced (snd (InventoryService.add_product "Gadget" "A gadget" "food" Demo.ten 6
                   (Demo.shop 0))).
Proof.
  apply (add_product_keeps_ledger_balanced (Demo.shop 0)).
  - apply demo_shop_wf.
  - apply demo_shop_balanced.
  - reflexivity.
  - reflexivity.
Defined.

(** X17. [delete_product] keeps the ledger in balance when the stock on
    hand is not negative: the write-off it records brings the deltas of the
    deleted sku down to zero, and with no stock left there is nothing to
    write off. *)
Theorem delete_product_keeps_ledger_balanced (w : World) sku :
  store_wf w ->
  balanced w ->
  0 <= stock_on_hand w sku ->
  dict_get (uuids w (draws w)) (transactions w) = None ->
  balanced (snd (InventoryService.delete_product sku w)).
Proof.
  intros Hwf Hbal Hpos Hfresh.
  pose proof (delete_product_state w sku) as H. cbv zeta in H.
  destruct H as (_ & Hh & [->|(product & Hget & Hp & Htx)]); [exact Hbal|].
  intros k. pose proof (Hbal k) as Hk.
  destruct Hwf as (Hkeys & _).
  unfold stock_on_hand, lookup_product in *. rewrite Hp. rewrite Hget in Hpos. simpl in Hpos.
  assert (Hledger :
            ledger_sum k (transactions (snd (InventoryService.delete_product sku w)))
            = ledger_sum k (transactions w)
              + (if String.eqb sku k then - Product.stock_quantity (heap w product) else 0)).
  { rewrite Htx. destruct (Z.gtb_spec (Product.stock_quantity (heap w product)) 0).
    - rewrite (dict_set_fresh _ _ _ Hfresh), ledger_sum_app. reflexivity.
    - assert (Product.stock_quantity (heap w product) = 0) as -> by lia.
      destruct (String.eqb sku k); lia. }
  rewrite Hledger.
  destruct (String.eqb_spec sku k) as [<-|Hne].
  - rewrite (dict_get_del_same _ _ Hkeys). rewrite Hget in Hk. simpl in *. lia.
  - rewrite (dict_get_del_other _ _ _ Hne).
    destruct (dict_get k (products w)) as [l|]; simpl in *; [rewrite Hh|]; lia.
Qed.

Lemma delete_product_keeps_ledger_balanced_witness :
  balanced (snd (InventoryService.delete_product "W1DGET01" (Demo.shop 0))).
Proof.
  apply (delete_product_keeps_ledger_balanced (Demo.shop 0)).
  - apply demo_shop_wf.
  - apply demo_shop_balanced.
  - unfold stock_on_hand, lookup_product. simpl. lia.
  - reflexivity.
Defined.

(** ** Queries and reports *)

Lemma status_out_of_stock_iff (p : Product.t) :
  bool_decide (Product.status p = OUT_OF_STOCK) = (Product.stock_quantity p <=? 0).
Proof.
  unfold Product.status.
  destruct (Product.stock_quantity p <=? 0); [reflexivity|].
  destruct (Product.stock_quantity p <? 5); reflexivity.
Qed.

(** X18. Asked for the status OUT_OF_STOCK, written in any case,
    [get_products_by_status] answers what [get_out_of_stock_products]
    answers. *)
Theorem out_of_stock_filter_is_the_report (w : World) status :
  Str.upper status = "OUT_OF_STOCK" ->
  InventoryService.get_products_by_status status w
  = InventoryService.get_out_of_stock_products w.
Proof.
  intros Hs.
  unfold InventoryService.get_products_by_status, InventoryService.get_out_of_stock_products,
    ProductDAO.filter_by_status, ProductDAO.filter_values, InventoryStatus_getitem.
  rewrite Hs. run_py. f_equal. f_equal.
  apply List.filter_ext. intros l. apply status_out_of_stock_iff.
Qed.

Lemma out_of_stock_filter_is_the_report_witness :
  InventoryService.get_products_by_status "out_of_stock" (Demo.shop 0)
  = InventoryService.get_out_of_stock_products (Demo.shop 0).
Proof.
  apply (out_of_stock_filter_is_the_report (Demo.shop 0) "out_of_stock"). reflexivity.
Defined.

(** X19. Asked for the status DISCONTINUED, [get_products_by_status]
    answers the empty list, whatever the store holds: no product ever has
    that status. *)
Theorem discontinued_filter_is_empty (w : World) status :
  Str.upper status = "DISCONTINUED" ->
  InventoryService.get_products_by_status status w = (Return [], w).
Proof.
  intros Hs.
  unfold InventoryService.get_products_by_status, ProductDAO.filter_by_status,
    ProductDAO.filter_values, InventoryStatus_getitem.
  rewrite Hs. run_py. f_equal. f_equal.
  induction (dict_values (products w)) as [|l ls IH]; simpl; [reflexivity|].
  rewrite IH. unfold Product.status.
  destruct (Product.stock_quantity (heap w l) <=? 0); [reflexivity|].
  destruct (Product.stock_quantity (heap w l) <? 5); reflexivity.
Qed.

Lemma discontinued_filter_is_empty_witness :
  InventoryService.get_products_by_status "Discontinued" (Demo.shop 3)
  = (Return [], Demo.shop 3).
Proof.
  apply (discontinued_filter_is_empty (Demo.shop 3) "Discontinued"). reflexivity.
Defined.

(** X20. The low-stock report grows with the threshold: every product it
    lists for a threshold is listed for any larger one; and for threshold
    zero it is the out-of-stock report. *)
Theorem low_stock_report_grows_with_threshold (w : World) (t1 t2 : Z) :
  t1 <= t2 ->
  (forall products1 products2,
     fst (InventoryService.get_low_stock_products t1 w) = Return products1 ->
     fst (InventoryService.get_low_stock_products t2 w) = Return products2 ->
     List.incl products1 products2)
  /\ InventoryService.get_low_stock_products 0 w
     = InventoryService.get_out_of_stock_products w.
Proof.
  intros Ht. split; [|reflexivity].
  intros ps1 ps2. rewrite !get_low_stock_products_run. simpl.
  intros [= <-] [= <-] l Hl.
  apply List.filter_In in Hl. destruct Hl as [Hin Hle].
  apply List.filter_In. split; [exact Hin|].
  apply Z.leb_le in Hle. apply Z.leb_le. lia.
Qed.

Lemma low_stock_report_grows_with_threshold_witness :
  (forall products1 products2,
     fst (InventoryService.get_low_stock_products 2 (Demo.shop 3)) = Return products1 ->
     fst (InventoryService.get_low_stock_products 5 (Demo.shop 3)) = Return products2 ->
     List.incl products1 products2)
  /\ InventoryService.get_low_stock_products 0 (Demo.shop 3)
     = InventoryService.get_out_of_stock_products (Demo.shop 3).
Proof.
  apply (low_stock_report_grows_with_threshold (Demo.shop 3) 2 5). lia.
Defined.

(** X21. The three queries that take a name refuse an unknown one with a
    [ValueError] and leave the state alone. A category or a status, an ASCII
    string, is looked up in upper case and quoted in the message as it was
    written; a transaction type is compared as it is written, so "Purchase"
    is refused. *)
Theorem queries_refuse_unknown_names (w : World) name :
  (Str.is_ascii name = true ->
   Category.of_name (Str.upper name) = None ->
     InventoryService.get_products_by_category name w
     = (Raise (ValueError ("Categoría inválida: " ++ name)), w))
  /\ (Str.is_ascii name = true ->
      Status.of_name (Str.upper name) = None ->
        InventoryService.get_products_by_status name w
        = (Raise (ValueError ("Estado inválido: " ++ name)), w))
  /\ (~ In name ["purchase"; "sale"; "adjustment"] ->
        InventoryService.get_transactions_by_type name w
        = (Raise (ValueError
             "Tipo de transacción inválido. Opciones válidas: purchase, sale, adjustment"),
           w)).
Proof.
  split; [|split].
  - intros _ H. unfold InventoryService.get_products_by_category. run_py.
    rewrite H. reflexivity.
  - intros _ H. unfold InventoryService.get_products_by_status, InventoryStatus_getitem.
    run_py. rewrite H. reflexivity.
  - intros H. unfold InventoryService.get_transactions_by_type,
      InventoryService.valid_types.
    cbn [existsb].
    destruct (String.eqb_spec name "purchase") as [->|_]; [exfalso; apply H; simpl; tauto|].
    destruct (String.eqb_spec name "sale") as [->|_]; [exfalso; apply H; simpl; tauto|].
    destruct (String.eqb_spec name "adjustment") as [->|_]; [exfalso; apply H; simpl; tauto|].
    reflexivity.
Qed.

Lemma queries_refuse_unknown_names_witness :
  InventoryService.get_products_by_category "Purchase" (Demo.shop 3)
  = (Raise (ValueError ("Categoría inválida: " ++ "Purchase")), Demo.shop 3)
  /\ InventoryService.get_products_by_status "Purchase" (Demo.shop 3)
     = (Raise (ValueError ("Estado inválido: " ++ "Purchase")), Demo.shop 3)
  /\ InventoryService.get_transactions_by_type "Purchase" (Demo.shop 3)
     = (Raise (ValueError
          "Tipo de transacción inválido. Opciones válidas: purchase, sale, adjustment"),
        Demo.shop 3).
Proof.
  pose proof (queries_refuse_unknown_names (Demo.shop 3) "Purchase") as (H1 & H2 & H3).
  split; [|split].
  - apply H1; reflexivity.
  - apply H2; reflexivity.
  - apply H3. simpl. intros [H|[H|[H|[]]]]; discriminate H.
Defined.

(** X22. A category printed with [str] is accepted back as a category
    name: looked up in upper case it is the category printed. A status
    printed with [str] is not, unless it is DISCONTINUED: the others are
    printed with a space where the name has an underscore. *)
Theorem printed_names_read_back (c : ProductCategory) (s : InventoryStatus) :
  Category.of_name (Str.upper (Category.str c)) = Some c
  /\ Status.of_name (Str.upper (Status.str s))
     = (if bool_decide (s = DISCONTINUED) then Some s else None).
Proof. destruct c, s; split; reflexivity. Qed.

Example printed_names :
  List.map Category.str [FOOD; HOME] = ["Food"; "Home"]
  /\ List.map Status.str [IN_STOCK; OUT_OF_STOCK; DISCONTINUED]
     = ["In stock"; "Out of stock"; "Discontinued"].
Proof. split; reflexivity. Qed.

(** *** The transaction summary *)

Lemma count_transaction_lookup (summary : gmap string Z) (t : Transaction.t) (k : string) :
  InventoryService.count_transaction summary t !! k
  = match summary !! k with
    | Some n => Some (if String.eqb (Transaction.transaction_type t) k then n + 1 else n)
    | None => None
    end.
Proof.
  unfold InventoryService.count_transaction.
  destruct (String.eqb_spec (Transaction.transaction_type t) k) as [<-|Hne].
  - destruct (summary !! Transaction.transaction_type t) as [n|] eqn:E.
    + rewrite lookup_insert_eq. reflexivity.
    + rewrite E. reflexivity.
  - destruct (summary !! Transaction.transaction_type t) as [n|] eqn:E.
    + rewrite lookup_insert_ne by exact Hne. destruct (summary !! k); reflexivity.
    + destruct (summary !! k); reflexivity.
Qed.

Lemma fold_count_lookup (l : list Transaction.t) (summary : gmap string Z) (k : string) :
  List.fold_left InventoryService.count_transaction l summary !! k
  = match summary !! k with
    | Some n =>
        Some (n + Z.of_nat (List.length
                (List.filter (fun t => String.eqb (Transaction.transaction_type t) k) l)))
    | None => None
    end.
Proof.
  revert summary. induction l as [|t l IH]; intros summary; simpl.
  - destruct (summary !! k); [f_equal; lia | reflexivity].
  - rewrite IH, count_transaction_lookup.
    destruct (summary !! k) as [n|]; [|reflexivity].
    destruct (String.eqb (Transaction.transaction_type t) k); simpl; f_equal; lia.
Qed.

(** X23. The summary counts, for each of purchase, sale and adjustment,
    the transactions [get_transactions_by_type] lists for it; it has no other
    entry, so a transaction of any other type is counted nowhere. The state
    is left alone. *)
Theorem transaction_summary_counts_by_type (w : World) :
  exists summary,
    InventoryService.get_transaction_summary w = (Return summary, w)
    /\ (forall kind transactions,
          InventoryService.get_transactions_by_type kind w = (Return transactions, w) ->
          summary !! kind = Some (Z.of_nat (List.length transactions)))
    /\ (forall kind, ~ In kind ["purchase"; "sale"; "adjustment"] -> summary !! kind = None).
Proof.
  eexists. split; [reflexivity|].
  assert (Hinit : forall kind,
             (list_to_map [("purchase", 0); ("sale", 0); ("adjustment", 0)]
                : gmap string Z) !! kind
             = if existsb (String.eqb kind) InventoryService.valid_types
               then Some 0 else None).
  { intros kind. unfold list_to_map, InventoryService.valid_types. cbn [foldr fst snd existsb].
    destruct (String.eqb_spec kind "purchase") as [->|H1]; [reflexivity|].
    rewrite lookup_insert_ne by congruence.
    destruct (String.eqb_spec kind "sale") as [->|H2]; [reflexivity|].
    rewrite lookup_insert_ne by congruence.
    destruct (String.eqb_spec kind "adjustment") as [->|H3]; [reflexivity|].
    rewrite lookup_insert_ne by congruence. reflexivity. }
  split.
  - intros kind transactions. unfold InventoryService.get_transactions_by_type.
    rewrite fold_count_lookup, Hinit.
    destruct (existsb (String.eqb kind) InventoryService.valid_types); simpl;
      [|discriminate].
    unfold TransactionDAO.get_by_type. intros [= <-]. reflexivity.
  - intros kind Hkind. rewrite fold_count_lookup, Hinit.
    unfold InventoryService.valid_types. cbn [existsb].
    destruct (String.eqb_spec kind "purchase") as [->|_]; [exfalso; apply Hkind; simpl; tauto|].
    destruct (String.eqb_spec kind "sale") as [->|_]; [exfalso; apply Hkind; simpl; tauto|].
    destruct (String.eqb_spec kind "adjustment") as [->|_];
      [exfalso; apply Hkind; simpl; tauto|].
    reflexivity.
Qed.

(** ** The stores *)

(** X24. What [TransactionDAO.save] stores, [get] finds under the
    transaction's id, and every other id is found as before; saving under an
    id that is there replaces the record in place, so the store does not
    grow. *)
Theorem transaction_save_then_get (w : World) (transaction : Transaction.t) :
  exists w',
    TransactionDAO.save transaction w = (Return true, w')
    /\ TransactionDAO.get (Transaction.transaction_id transaction) w'
       = (Return (Some transaction), w')
    /\ (forall id, id <> Transaction.transaction_id transaction ->
          fst (TransactionDAO.get id w') = fst (TransactionDAO.get id w))
    /\ List.length (transactions w')
       = (if dict_contains (Transaction.transaction_id transaction) (transactions w)
          then List.length (transactions w)
          else S (List.length (transactions w))).
Proof.
  eexists. split; [reflexivity|]. unfold TransactionDAO.get. simpl.
  split; [rewrite dict_get_set_same; reflexivity|].
  split.
  - intros id Hid. rewrite dict_get_set.
    destruct (String.eqb_spec (Transaction.transaction_id transaction) id);
      [congruence | reflexivity].
  - unfold dict_contains.
    destruct (dict_get (Transaction.transaction_id transaction) (transactions w)) eqn:G.
    + revert G. induction (transactions w) as [|[k0 v0] d IH]; simpl.
      * discriminate.
      * destruct (String.eqb k0 (Transaction.transaction_id transaction)); simpl;
          [reflexivity | intros G; rewrite (IH G); reflexivity].
    + rewrite (dict_set_fresh _ _ _ G), List.length_app. simpl. lia.
Qed.

(** X25. [delete] of either store answers [False] and changes nothing
    for an id that is not there; for one that is there (the keys being
    distinct) it answers [True], the id is no longer found, and every other
    id is found as before. *)
Theorem delete_then_get (w : World) (id : string) :
  List.NoDup (List.map fst (products w)) ->
  List.NoDup (List.map fst (transactions w)) ->
  (dict_get id (products w) = None -> ProductDAO.delete id w = (Return false, w))
  /\ (dict_get id (transactions w) = None -> TransactionDAO.delete id w = (Return false, w))
  /\ (dict_get id (products w) <> None ->
        exists w',
          ProductDAO.delete id w = (Return true, w')
          /\ ProductDAO.get id w' = (Return None, w')
          /\ forall k, k <> id -> fst (ProductDAO.get k w') = fst (ProductDAO.get k w))
  /\ (dict_get id (transactions w) <> None ->
        exists w',
          TransactionDAO.delete id w = (Return true, w')
          /\ TransactionDAO.get id w' = (Return None, w')
          /\ forall k, k <> id ->
               fst (TransactionDAO.get k w') = fst (TransactionDAO.get k w)).
Proof.
  intros Hp Ht.
  unfold ProductDAO.delete, TransactionDAO.delete, ProductDAO.get, TransactionDAO.get,
    dict_contains.
  split; [intros ->; reflexivity|]. split; [intros ->; reflexivity|]. split.
  - intros H. destruct (dict_get id (products w)); [|contradiction].
    eexists. split; [reflexivity|]. simpl.
    split; [rewrite (dict_get_del_same _ _ Hp); reflexivity|].
    intros k Hk. rewrite dict_get_del_other by congruence. reflexivity.
  - intros H. destruct (dict_get id (transactions w)); [|contradiction].
    eexists. split; [reflexivity|]. simpl.
    split; [rewrite (dict_get_del_same _ _ Ht); reflexivity|].
    intros k Hk. rewrite dict_get_del_other by congruence. reflexivity.
Qed.

Lemma delete_then_get_witness :
  (dict_get "W1DGET01" (products (Demo.shop 3)) <> None ->
     exists w',
       ProductDAO.delete "W1DGET01" (Demo.shop 3) = (Return true, w')
       /\ ProductDAO.get "W1DGET01" w' = (Return None, w')
       /\ forall k, k <> "W1DGET01" ->
            fst (ProductDAO.get k w') = fst (ProductDAO.get k (Demo.shop 3)))
  /\ TransactionDAO.delete "W1DGET01" (Demo.shop 3) = (Return false, Demo.shop 3).
Proof.
  pose proof (delete_then_get (Demo.shop 3) "W1DGET01") as H.
  destruct H as (_ & H2 & H3 & _).
  - simpl. repeat constructor. simpl. tauto.
  - simpl. constructor.
  - split; [exact H3 | apply H2; reflexivity].
Defined.

(** ** Search *)

Lemma prefix_empty (s : string) : String.prefix "" s = true.
Proof. destruct s; reflexivity. Qed.

Lemma contains_empty (s : string) : Str.contains "" s = true.
Proof. destruct s; reflexivity. Qed.

Lemma lower_upper_ascii (c : ascii) :
  Str.lower_ascii (Str.upper_ascii c) = Str.lower_ascii c.
Proof.
  destruct c as [[] [] [] [] [] [] [] []]; reflexivity.
Qed.

Lemma lower_upper (s : string) : Str.lower (Str.upper s) = Str.lower s.
Proof.
  induction s as [|c s IH]; simpl; [reflexivity|].
  rewrite lower_upper_ascii, IH. reflexivity.
Qed.

Lemma lower_lower_ascii (c : ascii) :
  Str.lower_ascii (Str.lower_ascii c) = Str.lower_ascii c.
Proof.
  destruct c as [[] [] [] [] [] [] [] []]; reflexivity.
Qed.

Lemma lower_lower (s : string) : Str.lower (Str.lower s) = Str.lower s.
Proof.
  induction s as [|c s IH]; simpl; [reflexivity|].
  rewrite lower_lower_ascii, IH. reflexivity.
Qed.

(** X26. [search_products] does not tell upper case from lower case in
    the query: it answers the same for a query, for the query in upper case
    and for the query in lower case. With the empty query it lists every
    product, in [get_all] order. The state is left alone. *)
Theorem search_ignores_case (w : World) (query : string) :
  InventoryService.search_products (Str.upper query) w
  = InventoryService.search_products query w
  /\ InventoryService.search_products (Str.lower query) w
     = InventoryService.search_products query w
  /\ InventoryService.search_products "" w = InventoryService.get_all_products w
  /\ snd (InventoryService.search_products query w) = w.
Proof.
  unfold InventoryService.search_products, ProductDAO.search.
  rewrite lower_upper, lower_lower.
  split; [reflexivity|]. split; [reflexivity|]. split; [|reflexivity].
  unfold InventoryService.get_all_products, ProductDAO.get_all, ProductDAO.filter_values.
  f_equal. f_equal. simpl.
  induction (dict_values (products w)) as [|l ls IH]; simpl; [reflexivity|].
  rewrite contains_empty. simpl. rewrite IH. reflexivity.
Qed.

Example search_widget :
  fst (InventoryService.search_products "WIDG" (Demo.shop 3)) = Return [0%nat]
  /\ fst (InventoryService.search_products "a wid" (Demo.shop 3)) = Return [0%nat]
  /\ fst (InventoryService.search_products "gadget" (Demo.shop 3)) = Return [].
Proof. repeat split. Qed.

(** ** Records, once more *)

Lemma transaction_from_dict_to_dict (t : Transaction.t) :
  Datetime.valid (Transaction.timestamp t) = true ->
  Transaction.from_dict (Transaction.to_dict t) = Return t.
Proof.
  intros Hv. destruct t as [ps q ty id ts n]; simpl in Hv.
  unfold Transaction.from_dict, Transaction.get_notes, getitem, Transaction.to_dict,
    list_to_map.
  cbn [foldr fst snd].
  cbn [Transaction.product_sku Transaction.quantity Transaction.transaction_type
       Transaction.transaction_id Transaction.timestamp Transaction.notes].
  repeat (rewrite ?lookup_insert_eq; rewrite ?lookup_insert_ne by discriminate;
          cbn [obind]).
  unfold datetime_fromisoformat.
  rewrite (fromisoformat_isoformat ts Hv). cbn [obind].
  repeat (rewrite ?lookup_insert_eq; rewrite ?lookup_insert_ne by discriminate;
          cbn [obind as_str as_int]).
  reflexivity.
Qed.

(** X27. A record converted with [to_dict] and back with [from_dict] is
    the record itself, for a product and for a transaction, whenever its
    timestamps are datetimes (within the ranges the [datetime] constructor
    enforces). *)
Theorem from_dict_undoes_to_dict :
  (forall p : Product.t,
     Datetime.valid (Product.created_at p) = true ->
     Datetime.valid (Product.updated_at p) = true ->
     Product.from_dict (Product.to_dict p) = Return p)
  /\ (forall t : Transaction.t,
        Datetime.valid (Transaction.timestamp t) = true ->
        Transaction.from_dict (Transaction.to_dict t) = Return t).
Proof. split; [exact product_from_dict_to_dict | exact transaction_from_dict_to_dict]. Qed.

Lemma from_dict_undoes_to_dict_witness :
  Product.from_dict (Product.to_dict (Demo.widget 3)) = Return (Demo.widget 3)
  /\ Transaction.from_dict
       (Transaction.to_dict
          (Transaction.mk "W1DGET01" (-4) "sale" "c0ffee13-0000-4000-8000-000000000000"
             (Demo.clock 0) "order 17"))
     = Return (Transaction.mk "W1DGET01" (-4) "sale" "c0ffee13-0000-4000-8000-000000000000"
                 (Demo.clock 0) "order 17").
Proof.
  split.
  - apply (proj1 from_dict_undoes_to_dict (Demo.widget 3)); reflexivity.
  - apply (proj2 from_dict_undoes_to_dict). reflexivity.
Defined.

Lemma transaction_readable_not_rejected (data : gmap string value) :
  Layout.transaction_readable data = true -> ~ rejected (Transaction.from_dict data).
Proof.
  intros Hok. unfold Layout.transaction_readable in Hok. split_checks Hok. unfold_checks.
  unfold Transaction.from_dict, getitem, datetime_fromisoformat.
  destruct (data !! "product_sku") as [v1|]; [|discriminate].
  destruct (data !! "quantity") as [v2|]; [|discriminate].
  destruct (data !! "transaction_type") as [v3|]; [|discriminate].
  destruct (data !! "transaction_id") as [v4|]; [|discriminate].
  destruct (data !! "timestamp") as [[| | | |s5]|]; try discriminate.
  cbn [obind].
  destruct (Datetime.fromisoformat s5) as [d5|]; [|discriminate].
  cbn [obind].
  destruct (as_str_cases "product_sku" v1) as [[x1 ->]| ->]; cbn [obind]; [|not_refused].
  destruct (as_int_cases "quantity" v2) as [[x2 ->]| ->]; cbn [obind]; [|not_refused].
  destruct (as_str_cases "transaction_type" v3) as [[x3 ->]| ->]; cbn [obind];
    [|not_refused].
  destruct (as_str_cases "transaction_id" v4) as [[x4 ->]| ->]; cbn [obind];
    [|not_refused].
  destruct (as_str_cases "notes" (Transaction.get_notes data)) as [[x5 ->]| ->];
    cbn [obind]; [|not_refused].
  intros (e & He & _). discriminate He.
Qed.



(** ** Loading what was saved *)

Lemma product_load_records_app (a b : list (gmap string value)) (w : World) :
  ProductDAO.load_records (a ++ b) w
  = bind (ProductDAO.load_records a) (fun _ => ProductDAO.load_records b) w.
Proof.
  revert w. induction a as [|x a IH]; intros w; simpl; [reflexivity|].
  unfold bind at 1 3, lift.
  destruct (Product.from_dict x) as [p|e]; [|reflexivity].
  run_py. rewrite ?heap_update_same. apply IH.
Qed.

Lemma transaction_load_records_app (a b : list (gmap string value)) (w : World) :
  TransactionDAO.load_records (a ++ b) w
  = bind (TransactionDAO.load_records a) (fun _ => TransactionDAO.load_records b) w.
Proof.
  revert w. induction a as [|x a IH]; intros w; simpl; [reflexivity|].
  unfold bind at 1 3, lift.
  destruct (Transaction.from_dict x) as [p|e]; [|reflexivity].
  run_py. apply IH.
Qed.

(** X29. [_load_data] reads the records in order and stops at the first
    one on which [from_dict] raises, keeping the records loaded before it and
    reading none after it. If the exception is a [KeyError] (a field is
    missing, or the category is unknown), the load ends quietly; a
    [ValueError] or a [TypeError] (a timestamp that is no timestamp) is not
    caught and leaves [_load_data]. The same holds for both stores. *)
Theorem load_stops_at_first_failing_record (good rest : list (gmap string value))
    (bad : gmap string value) (w0 w1 : World) (e : exn) :
  python_error e ->
  let outcome_of e :=
    match e with
    | KeyError _ => Return tt
    | _ => Raise e
    end in
  (ProductDAO.load_records good w0 = (Return tt, w1) ->
   Product.from_dict bad = Raise e ->
   ProductDAO._load_data (Json (good ++ bad :: rest)) w0 = (outcome_of e, w1))
  /\ (TransactionDAO.load_records good w0 = (Return tt, w1) ->
      Transaction.from_dict bad = Raise e ->
      TransactionDAO._load_data (Json (good ++ bad :: rest)) w0 = (outcome_of e, w1)).
Proof.
  intros _. cbv zeta. split; intros Hgood Hbad.
  - unfold ProductDAO._load_data, except_KeyError.
    rewrite product_load_records_app. unfold bind at 1. rewrite Hgood.
    simpl. unfold bind at 1, lift. rewrite Hbad. destruct e; reflexivity.
  - unfold TransactionDAO._load_data, except_KeyError.
    rewrite transaction_load_records_app. unfold bind at 1. rewrite Hgood.
    simpl. unfold bind at 1, lift. rewrite Hbad. destruct e; reflexivity.
Qed.

Lemma load_stops_at_first_failing_record_witness :
  (exists w1,
     ProductDAO._load_data
       (Json ([Stored.widget_record] ++ Samples.product_without_price
                :: [Stored.widget_record]))
       Demo.empty
     = (Return tt, w1)
     /\ stored_products w1 = [("W1DGET01", Demo.widget 3)])
  /\ TransactionDAO._load_data
       (Json ([] ++ Samples.transaction_with_bad_timestamp :: [Stored.sale_record]))
       Demo.empty
     = (Raise (ValueError "Invalid isoformat string: 'yesterday'"), Demo.empty).
Proof.
  split.
  - eexists. split.
    + apply (proj1 (load_stops_at_first_failing_record [Stored.widget_record]
                      [Stored.widget_record]
                      Samples.product_without_price Demo.empty _
                      (KeyError (VStr "price")) I)).
      * vm_compute. reflexivity.
      * vm_compute. reflexivity.
    + vm_compute. reflexivity.
  - apply (proj2 (load_stops_at_first_failing_record [] [Stored.sale_record]
                    Samples.transaction_with_bad_timestamp Demo.empty Demo.empty
                    (ValueError "Invalid isoformat string: 'yesterday'") I)).
    + reflexivity.
    + vm_compute. reflexivity.
Defined.

Lemma product_load_records_saved (ps : list Product.t) : forall w0 : World,
  (forall p, In p ps ->
     Datetime.valid (Product.created_at p) = true
     /\ Datetime.valid (Product.updated_at p) = true) ->
  List.NoDup (List.map Product.sku ps) ->
  (forall p, In p ps -> dict_get (Product.sku p) (products w0) = None) ->
  store_wf w0 ->
  exists w',
    ProductDAO.load_records (List.map Product.to_dict ps) w0 = (Return tt, w')
    /\ stored_products w'
       = (stored_products w0 ++ List.map (fun p => (Product.sku p, p)) ps)%list
    /\ store_wf w'
    /\ transactions w' = transactions w0.
Proof.
  induction ps as [|p ps IH]; intros w0 Hv Hnd Hnew Hwf.
  - exists w0. simpl. rewrite List.app_nil_r. repeat split; try reflexivity; apply Hwf.
  - apply List.NoDup_cons_iff in Hnd. destruct Hnd as [Hp Hnd].
    destruct Hwf as (Hk & Hl & Hsku & Hlt).
    assert (Hfree : ~ In (next w0) (List.map snd (products w0))).
    { intros Hin. apply List.in_map_iff in Hin. destruct Hin as ([k l] & Hl' & Hin).
      simpl in Hl'. subst l. specialize (Hlt _ _ Hin). lia. }
    simpl List.map. simpl ProductDAO.load_records. unfold bind at 1, lift.
    rewrite product_from_dict_to_dict by (apply Hv; left; reflexivity).
    run_py. rewrite ?heap_update_same.
    match goal with
    | |- exists w', ProductDAO.load_records _ ?w2 = _ /\ _ =>
        destruct (IH w2) as (w' & Hrun & Hst & Hwf' & Htx)
    end.
    + intros q Hq. apply Hv. right. exact Hq.
    + exact Hnd.
    + intros q Hq. simpl. rewrite dict_get_set.
      destruct (String.eqb_spec (Product.sku p) (Product.sku q)) as [E|_].
      * exfalso. apply Hp. rewrite E. apply List.in_map. exact Hq.
      * apply Hnew. right. exact Hq.
    + split; [|split; [|split]]; simpl.
      * apply dict_set_NoDup_keys. exact Hk.
      * apply dict_set_NoDup_vals; assumption.
      * intros k l Hin. apply dict_set_In_entry in Hin. destruct Hin as [Hin|[-> ->]].
        -- rewrite heap_update_other; [exact (Hsku _ _ Hin)|].
           specialize (Hlt _ _ Hin). lia.
        -- rewrite heap_update_same. reflexivity.
      * intros k l Hin. apply dict_set_In_entry in Hin. destruct Hin as [Hin|[-> ->]].
        -- specialize (Hlt _ _ Hin). lia.
        -- lia.
    + exists w'. split; [exact Hrun|]. split; [|split; [exact Hwf' | exact Htx]].
      rewrite Hst. unfold stored_products at 1. simpl.
      rewrite (dict_set_fresh _ _ _ (Hnew p (or_introl eq_refl))).
      rewrite List.map_app. simpl. rewrite heap_update_same, <- List.app_assoc. simpl.
      f_equal. unfold stored_products. apply List.map_ext_in.
      intros [k l] Hin. rewrite heap_update_other; [reflexivity|].
      specialize (Hlt _ _ Hin). lia.
Qed.

Lemma transaction_load_records_saved (ts : list Transaction.t) : forall w0 : World,
  (forall t, In t ts -> Datetime.valid (Transaction.timestamp t) = true) ->
  List.NoDup (List.map Transaction.transaction_id ts) ->
  (forall t, In t ts -> dict_get (Transaction.transaction_id t) (transactions w0) = None) ->
  TransactionDAO.load_records (List.map Transaction.to_dict ts) w0
  = (Return tt,
     with_transactions w0
       (transactions w0 ++ List.map (fun t => (Transaction.transaction_id t, t)) ts)%list).
Proof.
  induction ts as [|t ts IH]; intros w0 Hv Hnd Hnew.
  - simpl. rewrite List.app_nil_r. destruct w0; reflexivity.
  - apply List.NoDup_cons_iff in Hnd. destruct Hnd as [Ht Hnd].
    simpl List.map. simpl TransactionDAO.load_records. unfold bind at 1, lift.
    rewrite transaction_from_dict_to_dict by (apply Hv; left; reflexivity).
    run_py. rewrite (dict_set_fresh _ _ _ (Hnew t (or_introl eq_refl))).
    rewrite IH.
    + simpl. rewrite <- List.app_assoc. reflexivity.
    + intros q Hq. apply Hv. right. exact Hq.
    + exact Hnd.
    + intros q Hq. simpl.
      rewrite <- (dict_set_fresh _ t _ (Hnew t (or_introl eq_refl))), dict_get_set.
      destruct (String.eqb_spec (Transaction.transaction_id t) (Transaction.transaction_id q))
        as [E|_].
      * exfalso. apply Ht. rewrite E. apply List.in_map. exact Hq.
      * apply Hnew. right. exact Hq.
Qed.

(** X30. What the two stores write to their files, a service started on
    those files reads back: the products with every field and in the same
    order, and the same transactions. It holds for a product store whose keys
    are the skus of distinct objects, a transaction store whose keys are the
    transaction ids, and timestamps that are datetimes. *)
Theorem saved_stores_load_back (w w0 : World)
    (product_data transaction_data : list (gmap string value)) :
  store_wf w ->
  (forall k p, In (k, p) (stored_products w) ->
     Datetime.valid (Product.created_at p) = true
     /\ Datetime.valid (Product.updated_at p) = true) ->
  List.NoDup (List.map fst (transactions w)) ->
  (forall k t, In (k, t) (transactions w) ->
     Transaction.transaction_id t = k
     /\ Datetime.valid (Transaction.timestamp t) = true) ->
  ProductDAO._save_data w = (Return product_data, w) ->
  TransactionDAO._save_data w = (Return transaction_data, w) ->
  exists w',
    InventoryService.__init__ (Json product_data) (Json transaction_data) w0
    = (Return tt, w')
    /\ stored_products w' = stored_products w
    /\ transactions w' = transactions w
    /\ store_wf w'.
Proof.
  intros Hwf Hdated Hids Hledger Hp Ht.
  unfold ProductDAO._save_data in Hp. unfold TransactionDAO._save_data in Ht.
  injection Hp as <-. injection Ht as <-.
  pose proof Hwf as (Hk & Hl & Hsku & Hlt).
  assert (Hentries :
    List.map (fun p => (Product.sku p, p)) (List.map (heap w) (dict_values (products w)))
    = stored_products w).
  { unfold stored_products, dict_values. rewrite !List.map_map.
    apply List.map_ext_in. intros [k l] Hin. simpl. rewrite (Hsku _ _ Hin). reflexivity. }
  destruct (product_load_records_saved
              (List.map (heap w) (dict_values (products w))) (with_products w0 []))
    as (w1 & Hrun & Hst & Hwf1 & Htx1).
  - intros p Hin. apply List.in_map_iff in Hin. destruct Hin as (l & <- & Hin).
    apply List.in_map_iff in Hin. destruct Hin as ([k l'] & Hl' & Hin). simpl in Hl'.
    subst l'. apply (Hdated k). unfold stored_products.
    apply List.in_map_iff. exists (k, l). split; [reflexivity | exact Hin].
  - replace (List.map Product.sku (List.map (heap w) (dict_values (products w))))
      with (List.map fst (products w)); [exact Hk|].
    unfold dict_values. rewrite !List.map_map. apply List.map_ext_in.
    intros [k l] Hin. simpl. rewrite (Hsku _ _ Hin). reflexivity.
  - intros p _. reflexivity.
  - split; [|split; [|split]]; simpl; try constructor; intros k l [].
  - assert (Hts :
      List.map (fun t => (Transaction.transaction_id t, t)) (dict_values (transactions w))
      = transactions w).
    { unfold dict_values. rewrite List.map_map. rewrite <- (List.map_id (transactions w)) at 2.
      apply List.map_ext_in. intros [k t] Hin. simpl.
      rewrite (proj1 (Hledger _ _ Hin)). reflexivity. }
    exists (with_transactions w1 (transactions w)).
    split; [|split; [|split]].
    + unfold InventoryService.__init__, ProductDAO.__init__, ProductDAO._load_data,
        TransactionDAO.__init__, TransactionDAO._load_data, except_KeyError.
      unfold bind at 1. unfold bind at 1.
      rewrite List.map_map in Hrun.
      change (fun x : ref => Product.to_dict (heap w x))
        with (fun p : ref => Product.to_dict (heap w p)) in Hrun.
      rewrite Hrun. unfold bind at 1.
      rewrite transaction_load_records_saved.
      * simpl. rewrite Hts. reflexivity.
      * intros t Hin. apply List.in_map_iff in Hin. destruct Hin as ([k t'] & Ht' & Hin).
        simpl in Ht'. subst t'. exact (proj2 (Hledger _ _ Hin)).
      * replace (List.map Transaction.transaction_id (dict_values (transactions w)))
          with (List.map fst (transactions w)); [exact Hids|].
        unfold dict_values. rewrite List.map_map. apply List.map_ext_in.
        intros [k t] Hin. simpl. rewrite (proj1 (Hledger _ _ Hin)). reflexivity.
      * intros t _. reflexivity.
    + change (stored_products (with_transactions w1 (transactions w)))
        with (stored_products w1).
      rewrite Hst, Hentries. reflexivity.
    + reflexivity.
    + destruct Hwf1 as (H1 & H2 & H3 & H4). split; [|split; [|split]]; assumption.
Qed.

Lemma saved_stores_load_back_witness :
  exists w',
    InventoryService.__init__
      (Json [Product.to_dict (Demo.widget 0)]) (Json []) Demo.empty
    = (Return tt, w')
    /\ stored_products w' = stored_products (Demo.shop 0)
    /\ transactions w' = transactions (Demo.shop 0)
    /\ store_wf w'.
Proof.
  apply (saved_stores_load_back (Demo.shop 0) Demo.empty).
  - exact (demo_shop_wf 0).
  - intros k p [[= <- <-]|[]]. split; reflexivity.
  - constructor.
  - intros k t [].
  - reflexivity.
  - reflexivity.
Defined.
